(** * Progress-Tracker: streaks, goal compliance and the edit handlers

    A shallow embedding of [src/utils/calculations.ts] (calculateStreak,
    generateInitialData, formatDate), [src/types.ts] and the derived state
    and handlers of [src/App.tsx] (monthlyData, handleHabitChange,
    handleMetricChange, updateGoal), followed by the properties the
    specification states about them.

    Modelling conventions.
    - A JavaScript [number] is a binary64 value: a rational on the binary64
      grid, [Infinity], [-Infinity] or [NaN].  Addition, subtraction,
      multiplication, division and [parseFloat] round the exact result to
      the nearest binary64 value (ties to even, overflow to an infinity,
      gradual underflow), and the special values follow IEEE 754 (x/0,
      Infinity - Infinity, comparisons with NaN).  The sign of zero is not
      represented: every quantity the handlers store is parsed through
      [|| 0], which maps [-0] to [0], and no divisor of the program is [-0].
    - Counters ([current], [max], loop indices) are [nat]; [id] and
      [dayNumber] are [Z].
    - [setRecords(prev => ...)] and [setGoals(prev => ...)] are the pure
      updater functions they are given; the application state is a record
      and an edit is a step on it.  A session starts from the generated year
      and the default goals (nothing saved in localStorage). *)

From Stdlib Require Import ZArith QArith Qround Qpower Ascii String DecimalString List Permutation Sorted Lia Lqa.
From Stdlib Require Qcanon.
From stdpp Require Import gmap strings list fin_maps.

Local Open Scope Z_scope.

(** ** JavaScript numbers *)

Inductive number : Type :=
| Num (q : Q)
| Infinity
| NegInfinity
| NaN.

Module Number.

Definition zero : number := Num 0.

(** An integer literal or counter; those of the program are far below
    [2^53], hence binary64 values as they stand. *)
Definition of_Z (z : Z) : number := Num (inject_Z z).

Definition neg (a : number) : number :=
  match a with
  | Num x => Num (- x)
  | Infinity => NegInfinity
  | NegInfinity => Infinity
  | NaN => NaN
  end.

(** *** Rounding to binary64 *)

(** [2^e] for an integer exponent of either sign. *)
Definition pow2 (e : Z) : Q :=
  match e with
  | Z0 => 1%Q
  | Zpos p => inject_Z (Zpos (2 ^ p))
  | Zneg p => (1 # (2 ^ p))%Q
  end.

(** The integer nearest to [x], a tie going to the even one. *)
Definition rne (x : Q) : Z :=
  let f := Qfloor x in
  match (x - inject_Z f ?= 1 # 2)%Q with
  | Lt => f
  | Gt => f + 1
  | Eq => if Z.even f then f else f + 1
  end.

(** The [e] with [2^52 <= q / 2^e < 2^53], for a positive [q = n / d]:
    the bit lengths of [n] and [d] leave two candidates. *)
Definition exponent_raw (q : Q) : Z :=
  let e0 := Z.log2 (Qnum q) - Z.log2 (Zpos (Qden q)) - 53 in
  if Qle_bool (pow2 (e0 + 53)) q then e0 + 1 else e0.

(** The exponent of the unit in the last place: 53 significant bits, and
    the fixed spacing [2^-1074] in the subnormal range. *)
Definition exponent (q : Q) : Z := Z.max (exponent_raw q) (-1074).

(** A positive rational rounded to the nearest binary64 value, ties to
    even; [Infinity] from [2^1024] on. *)
Definition binary64_pos (q : Q) : number :=
  let e := exponent q in
  let v := (inject_Z (rne (q / pow2 e)) * pow2 e)%Q in
  if Qle_bool (pow2 1024) v then Infinity else Num (Qred v).

(** The binary64 value of an exact result. *)
Definition binary64 (q : Q) : number :=
  let q := Qred q in
  match (q ?= 0)%Q with
  | Eq => Num 0
  | Gt => binary64_pos q
  | Lt => neg (binary64_pos (- q))
  end.

(** *** Arithmetic *)

(** [a + b] *)
Definition add (a b : number) : number :=
  match a, b with
  | NaN, _ | _, NaN => NaN
  | Num x, Num y => binary64 (x + y)
  | Infinity, NegInfinity | NegInfinity, Infinity => NaN
  | Infinity, _ | _, Infinity => Infinity
  | NegInfinity, _ | _, NegInfinity => NegInfinity
  end.

(** [a - b] *)
Definition sub (a b : number) : number := add a (neg b).

(** Sign of a rational as a comparison with zero. *)
Definition sgn (x : Q) : comparison := (x ?= 0)%Q.

(** An infinity of the sign given by [c]; [NaN] for the sign of zero. *)
Definition inf_of_sign (c : comparison) : number :=
  match c with
  | Gt => Infinity
  | Lt => NegInfinity
  | Eq => NaN
  end.

(** [a * b] *)
Definition mul (a b : number) : number :=
  match a, b with
  | NaN, _ | _, NaN => NaN
  | Num x, Num y => binary64 (x * y)
  | Infinity, Num y | Num y, Infinity => inf_of_sign (sgn y)
  | NegInfinity, Num y | Num y, NegInfinity => inf_of_sign (CompOpp (sgn y))
  | Infinity, Infinity | NegInfinity, NegInfinity => Infinity
  | Infinity, NegInfinity | NegInfinity, Infinity => NegInfinity
  end.

(** [a / b]; a zero divisor is [+0]. *)
Definition div (a b : number) : number :=
  match a, b with
  | NaN, _ | _, NaN => NaN
  | Num x, Num y =>
      if Qeq_bool y 0 then inf_of_sign (sgn x) else binary64 (x / y)
  | Num _, Infinity | Num _, NegInfinity => zero
  | Infinity, Num y => if Qle_bool 0 y then Infinity else NegInfinity
  | NegInfinity, Num y => if Qle_bool 0 y then NegInfinity else Infinity
  | _, _ => NaN
  end.

(** [a <= b] *)
Definition le (a b : number) : bool :=
  match a, b with
  | NaN, _ | _, NaN => false
  | Num x, Num y => Qle_bool x y
  | NegInfinity, _ | _, Infinity => true
  | _, _ => false
  end.

(** [a >= b] *)
Definition ge (a b : number) : bool := le b a.

(** [Math.round]: the nearest integer, halves towards +Infinity; exact,
    since a binary64 value from [2^52] on is an integer already. *)
Definition round (a : number) : number :=
  match a with
  | Num x => of_Z (Qfloor (x + (1 # 2)))
  | _ => a
  end.

(** [Math.max(a, b)] *)
Definition max (a b : number) : number :=
  match a, b with
  | NaN, _ | _, NaN => NaN
  | _, _ => if le a b then b else a
  end.

(** [Math.min(a, b)] *)
Definition min (a b : number) : number :=
  match a, b with
  | NaN, _ | _, NaN => NaN
  | _, _ => if le a b then a else b
  end.

(** ToBoolean on a number: [0] and [NaN] are falsy. *)
Definition truthy (a : number) : bool :=
  match a with
  | Num x => negb (Qeq_bool x 0)
  | NaN => false
  | _ => true
  end.

(** [a || b] on numbers. *)
Definition or (a b : number) : number := if truthy a then a else b.

(** A finite value within [lo, hi]. *)
Definition within (lo hi : Q) (a : number) : Prop :=
  match a with
  | Num x => (lo <= x /\ x <= hi)%Q
  | _ => False
  end.

(** A finite value that is not negative. *)
Definition nonneg (a : number) : Prop :=
  match a with Num x => (0 <= x)%Q | _ => False end.

End Number.

(** [v] is a binary64 value: rounding gives it back. *)
Definition double (v : Q) : Prop := Number.binary64 v = Num v.

(** The significand the rounding of a positive [q] selects. *)
Definition significand (q : Q) : Z :=
  Number.rne (q / Number.pow2 (Number.exponent q)).

(** ** src/types.ts *)

Record DayHabits : Type := {
  noPorn : bool;
  workout : bool;
  ipmatStudy : bool;
  nightWalk : bool
}.

Record DayMetrics : Type := {
  studyHours : number;
  timeWasted : number
}.

Record DayRecord : Type := {
  id : Z;
  dayNumber : Z;
  date : string;
  habits : DayHabits;
  metrics : DayMetrics;
  isFilled : bool
}.

(** [keyof DayHabits] *)
Inductive HabitKey : Type := K_noPorn | K_workout | K_ipmatStudy | K_nightWalk.

(** [keyof DayMetrics] *)
Inductive MetricKey : Type := K_studyHours | K_timeWasted.

#[global] Instance HabitKey_eq_dec : EqDecision HabitKey.
Proof. solve_decision. Defined.

#[global] Instance MetricKey_eq_dec : EqDecision MetricKey.
Proof. solve_decision. Defined.

Record StreakInfo : Type := {
  current : nat;
  max : nat
}.

(** [habits[habit]] *)
Definition get_habit (hs : DayHabits) (habit : HabitKey) : bool :=
  match habit with
  | K_noPorn => noPorn hs
  | K_workout => workout hs
  | K_ipmatStudy => ipmatStudy hs
  | K_nightWalk => nightWalk hs
  end.

(** [{ ...habits, [habit]: value }] *)
Definition set_habit (hs : DayHabits) (habit : HabitKey) (value : bool) : DayHabits :=
  match habit with
  | K_noPorn =>
      {| noPorn := value; workout := workout hs;
         ipmatStudy := ipmatStudy hs; nightWalk := nightWalk hs |}
  | K_workout =>
      {| noPorn := noPorn hs; workout := value;
         ipmatStudy := ipmatStudy hs; nightWalk := nightWalk hs |}
  | K_ipmatStudy =>
      {| noPorn := noPorn hs; workout := workout hs;
         ipmatStudy := value; nightWalk := nightWalk hs |}
  | K_nightWalk =>
      {| noPorn := noPorn hs; workout := workout hs;
         ipmatStudy := ipmatStudy hs; nightWalk := value |}
  end.

(** [metrics[metric]] *)
Definition get_metric (ms : DayMetrics) (metric : MetricKey) : number :=
  match metric with
  | K_studyHours => studyHours ms
  | K_timeWasted => timeWasted ms
  end.

(** [{ ...metrics, [metric]: value }] *)
Definition set_metric (ms : DayMetrics) (metric : MetricKey) (value : number) : DayMetrics :=
  match metric with
  | K_studyHours => {| studyHours := value; timeWasted := timeWasted ms |}
  | K_timeWasted => {| studyHours := studyHours ms; timeWasted := value |}
  end.

(** [record.habits[habit]] *)
Definition flag (habit : HabitKey) (r : DayRecord) : bool :=
  get_habit (habits r) habit.

(** ** src/utils/calculations.ts: calculateStreak *)

(** One iteration of the loop of lines 9-16, at index [i], on the pair
    (maxStreak, tempStreak).  The loop only visits indices below
    [records.length], so the lookup always succeeds. *)
Definition max_loop_body (records : list DayRecord) (habit : HabitKey)
    (st : nat * nat) (i : nat) : nat * nat :=
  let '(maxStreak, tempStreak) := st in
  match records !! i with
  | Some r =>
      if get_habit (habits r) habit
      then (maxStreak, S tempStreak)
      else ((if maxStreak <? tempStreak then tempStreak else maxStreak)%nat, 0%nat)
  | None => st
  end.

(** Lines 5-17: the historical maximum. *)
Definition maxStreak_of (records : list DayRecord) (habit : HabitKey) : nat :=
  let '(maxStreak, tempStreak) :=
    fold_left (max_loop_body records habit) (seq 0 (length records)) (0%nat, 0%nat) in
  if (maxStreak <? tempStreak)%nat then tempStreak else maxStreak.

(** [Array.prototype.sort] with the comparator
    [(a, b) => b.dayNumber - a.dayNumber]: a stable sort, here by insertion.
    [sort_insert x l] puts [x] in front of the first element that does not
    have a larger day number, so that among equal day numbers an element
    stays in front of those that followed it in the array. *)
Fixpoint sort_insert (x : DayRecord) (l : list DayRecord) : list DayRecord :=
  match l with
  | [] => [x]
  | y :: l' =>
      if dayNumber y <=? dayNumber x then x :: y :: l' else y :: sort_insert x l'
  end.

Fixpoint sort_desc (l : list DayRecord) : list DayRecord :=
  match l with
  | [] => []
  | x :: l' => sort_insert x (sort_desc l')
  end.

(** Lines 29-35: [for (const record of filledSorted)] with its [break]. *)
Fixpoint current_loop (habit : HabitKey) (filledSorted : list DayRecord)
    (current : nat) : nat :=
  match filledSorted with
  | [] => current
  | record :: rest =>
      if get_habit (habits record) habit
      then current_loop habit rest (S current)
      else current
  end.

Definition calculateStreak (records : list DayRecord) (habit : HabitKey) : StreakInfo :=
  let maxStreak := maxStreak_of records habit in
  let filledSorted := sort_desc (List.filter isFilled records) in
  if (length filledSorted =? 0)%nat
  then {| current := 0; max := maxStreak |}
  else {| current := current_loop habit filledSorted 0; max := maxStreak |}.

(** ** src/utils/calculations.ts: formatDate and generateInitialData *)

(** A [Date] as the calendar day it denotes in local time. *)
Record JsDate : Type := {
  fullYear : Z;
  monthIndex : nat;
  dayOfMonth : Z
}.

Definition is_leap_year (y : Z) : bool :=
  ((y mod 4 =? 0) && negb (y mod 100 =? 0)) || (y mod 400 =? 0).

Definition month_lengths (y : Z) : list Z :=
  [31; if is_leap_year y then 29 else 28; 31; 30; 31; 30; 31; 31; 30; 31; 30; 31].

(** [setDate] on a date in the month of index [m]: a day past the end of the
    month rolls over into the following months ([lens] are the lengths of
    the months from [m] on). *)
Fixpoint roll_over (lens : list Z) (m : nat) (d : Z) : nat * Z :=
  match lens with
  | [] => (m, d)
  | len :: rest => if d <=? len then (m, d) else roll_over rest (S m) (d - len)
  end.

(** [new Date(startOfYear)] followed by [setDate(d)], for January 1st of [y]. *)
Definition setDate_from_new_year (y : Z) (d : Z) : JsDate :=
  let '(m, d') := roll_over (month_lengths y) 0 d in
  {| fullYear := y; monthIndex := m; dayOfMonth := d' |}.

Definition short_month_names : list string :=
  ["Jan"; "Feb"; "Mar"; "Apr"; "May"; "Jun"; "Jul"; "Aug"; "Sep"; "Oct"; "Nov"; "Dec"]%string.

(** Decimal numeral of a non-negative integer. *)
Definition decimal (z : Z) : string :=
  NilZero.string_of_uint (N.to_uint (Z.to_N z)).

(** [toLocaleDateString('en-US', { month: 'short', day: 'numeric', year: 'numeric' })] *)
Definition formatDate (d : JsDate) : string :=
  (nth (monthIndex d) short_month_names "" ++ " " ++ decimal (dayOfMonth d)
     ++ ", " ++ decimal (fullYear d))%string.

(** The year of [new Date(year, 0, 1)]: the constructor reads a year from 0
    to 99 as a year of the twentieth century. *)
Definition Date_year (year : Z) : Z :=
  if (0 <=? year) && (year <=? 99) then 1900 + year else year.

(** The record pushed for day [i], [year] being [startDate.getFullYear()]. *)
Definition initial_record (year : Z) (i : Z) : DayRecord :=
  {| id := i;
     dayNumber := i;
     date := formatDate (setDate_from_new_year (Date_year year) (1 + (i - 1)));
     habits := {| noPorn := false; workout := false;
                  ipmatStudy := false; nightWalk := false |};
     metrics := {| studyHours := Number.zero; timeWasted := Number.zero |};
     isFilled := false |}.

(** [generateInitialData(startDate)], with [year = startDate.getFullYear()];
    the loop runs [i] from 1 to 365.  The date strings are those of the
    code for a year of the common era within the range of [Date] (0 to
    275759): [decimal] prints no era, and past that range the dates are
    invalid. *)
Definition generateInitialData (year : Z) : list DayRecord :=
  List.map (fun i => initial_record year (Z.of_nat i)) (seq 1 365).

(** ** parseFloat

    The longest prefix of the trimmed input that is a decimal literal
    (optional sign, [Infinity] or digits with an optional fraction and an
    optional exponent); [NaN] when there is none.  The decimal value is
    rounded to binary64, so a literal beyond the range becomes an infinity
    and one below the subnormal range becomes 0.  Strings are ASCII. *)

Definition is_digit (c : ascii) : bool :=
  let n := nat_of_ascii c in ((48 <=? n) && (n <=? 57))%nat.

Definition digit_value (c : ascii) : Z := Z.of_nat (nat_of_ascii c) - 48.

Definition is_white_space (c : ascii) : bool :=
  let n := nat_of_ascii c in (((9 <=? n) && (n <=? 13)) || (n =? 32))%nat.

Fixpoint skip_white_space (s : string) : string :=
  match s with
  | String c s' => if is_white_space c then skip_white_space s' else s
  | EmptyString => s
  end.

(** Reads the leading digits of [s]: their value appended to [acc], how
    many there were added to [count], and the rest of the string. *)
Fixpoint read_digits (s : string) (acc : Z) (count : nat) : Z * nat * string :=
  match s with
  | String c s' =>
      if is_digit c then read_digits s' (10 * acc + digit_value c) (S count)
      else (acc, count, s)
  | EmptyString => (acc, count, s)
  end.

(** An exponent part [e], [e+] or [e-] followed by at least one digit; 0
    when the string does not start with one. *)
Definition read_exponent (s : string) : Z :=
  match s with
  | String c s' =>
      if (Ascii.eqb c "e" || Ascii.eqb c "E")%char then
        let '(negative, s'') :=
          match s' with
          | String "-" r => (true, r)
          | String "+" r => (false, r)
          | _ => (false, s')
          end in
        let '(e, n, _) := read_digits s'' 0 0 in
        if (n =? 0)%nat then 0 else if negative then - e else e
      else 0
  | EmptyString => 0
  end.

Definition parseFloat (value : string) : number :=
  let s := skip_white_space value in
  let '(negative, s1) :=
    match s with
    | String "-" r => (true, r)
    | String "+" r => (false, r)
    | _ => (false, s)
    end in
  if String.prefix "Infinity" s1 then (if negative then NegInfinity else Infinity)
  else
    let '(ip, ni, s2) := read_digits s1 0 0 in
    let '(mant, nf, s3) :=
      match s2 with
      | String "." r => read_digits r ip 0
      | _ => (ip, 0%nat, s2)
      end in
    if (ni + nf =? 0)%nat then NaN
    else
      let k := read_exponent s3 - Z.of_nat nf in
      let q := if 0 <=? k then inject_Z (mant * 10 ^ k)
               else (mant # Z.to_pos (10 ^ (- k)))%Q in
      Number.binary64 (if negative then - q else q).

(** ** src/App.tsx: the edit handlers *)

(** The callback of handleHabitChange:
    [r => r.id === id ? { ...r, isFilled: true, habits: {...} } : r] *)
Definition habit_update (id0 : Z) (habit : HabitKey) (value : bool) (r : DayRecord)
    : DayRecord :=
  if id r =? id0 then
    {| id := id r; dayNumber := dayNumber r; date := date r;
       metrics := metrics r;
       isFilled := true;
       habits := set_habit (habits r) habit value |}
  else r.

(** [setRecords(prev => prev.map(...))] *)
Definition handleHabitChange (id0 : Z) (habit : HabitKey) (value : bool)
    (prev : list DayRecord) : list DayRecord :=
  List.map (habit_update id0 habit value) prev.

(** [Math.min(24, Math.max(0, parseFloat(value) || 0))] *)
Definition numValue (value : string) : number :=
  Number.min (Number.of_Z 24)
    (Number.max (Number.of_Z 0) (Number.or (parseFloat value) (Number.of_Z 0))).

(** The callback of handleMetricChange:
    [r => r.id === id ? { ...r, isFilled: true, metrics: {...} } : r] *)
Definition metric_update (id0 : Z) (metric : MetricKey) (numValue : number)
    (r : DayRecord) : DayRecord :=
  if id r =? id0 then
    {| id := id r; dayNumber := dayNumber r; date := date r;
       habits := habits r;
       isFilled := true;
       metrics := set_metric (metrics r) metric numValue |}
  else r.

Definition handleMetricChange (id0 : Z) (metric : MetricKey) (value : string)
    (prev : list DayRecord) : list DayRecord :=
  let numValue := numValue value in
  List.map (metric_update id0 metric numValue) prev.

(** ** src/App.tsx: goals and the monthly grid *)

Definition monthsList : list string :=
  ["January"; "February"; "March"; "April"; "May"; "June"; "July"; "August";
   "September"; "October"; "November"; "December"]%string.

(** A goal object.  A property can be absent: [updateGoal] on a month that
    has no entry spreads [undefined] and writes the edited field only. *)
Record MonthlyGoal : Type := {
  month : option string;
  studyTarget : option number;
  wasteLimit : option number
}.

(** The fields of a goal the goal editor writes (its two call sites pass
    ['studyTarget'] and ['wasteLimit']). *)
Inductive GoalField : Type := K_studyTarget | K_wasteLimit.

(** ToNumber on a property read: [undefined] converts to [NaN]. *)
Definition to_number (v : option number) : number :=
  match v with
  | Some n => n
  | None => NaN
  end.

(** [{ ...goal }] where [goal] may be [undefined]. *)
Definition spread_goal (goal : option MonthlyGoal) : MonthlyGoal :=
  match goal with
  | Some g => g
  | None => {| month := None; studyTarget := None; wasteLimit := None |}
  end.

(** [{ ...goal, [field]: num }] *)
Definition set_goal_field (goal : MonthlyGoal) (field : GoalField) (num : number)
    : MonthlyGoal :=
  match field with
  | K_studyTarget =>
      {| month := month goal; studyTarget := Some num; wasteLimit := wasteLimit goal |}
  | K_wasteLimit =>
      {| month := month goal; studyTarget := studyTarget goal; wasteLimit := Some num |}
  end.

(** The goals a session starts with when none are saved. *)
Definition initialGoals : gmap string MonthlyGoal :=
  fold_left (fun initialGoals m =>
      <[ m := {| month := Some m;
                 studyTarget := Some (Number.of_Z 150);
                 wasteLimit := Some (Number.of_Z 30) |} ]> initialGoals)
    monthsList ∅.

(** [setGoals(prev => ({ ...prev, [month]: { ...prev[month], [field]: num } }))] *)
Definition updateGoal (m : string) (field : GoalField) (value : string)
    (prev : gmap string MonthlyGoal) : gmap string MonthlyGoal :=
  let num := Number.or (parseFloat value) (Number.of_Z 0) in
  <[ m := set_goal_field (spread_goal (prev !! m)) field num ]> prev.

(** The accumulator of the [reduce] of lines 75-78. *)
Record MonthStats : Type := {
  study : number;
  wasted : number
}.

(** An element of [monthlyData]. *)
Record MonthEntry : Type := {
  entry_month : string;
  actualStudy : number;
  goalStudy : option number;
  actualWaste : number;
  limitWaste : option number;
  achievement : number;
  wasteCompliance : number
}.

(** Line 87, on the two numbers it reads. *)
Definition achievement_of (study0 studyTarget0 : number) : number :=
  if Number.ge study0 studyTarget0 then Number.of_Z 100
  else Number.round (Number.mul (Number.div study0 studyTarget0) (Number.of_Z 100)).

(** Line 88, on the two numbers it reads. *)
Definition wasteCompliance_of (wasted0 wasteLimit0 : number) : number :=
  if Number.le wasted0 wasteLimit0 then Number.of_Z 100
  else Number.max (Number.of_Z 0)
         (Number.round
            (Number.mul
               (Number.sub (Number.of_Z 1)
                  (Number.div (Number.sub wasted0 wasteLimit0) wasteLimit0))
               (Number.of_Z 100))).

(** The object returned for month [m] (lines 81-89). *)
Definition monthEntry (m : string) (stats : MonthStats) (goal : MonthlyGoal)
    : MonthEntry :=
  {| entry_month := m;
     actualStudy := study stats;
     goalStudy := studyTarget goal;
     actualWaste := wasted stats;
     limitWaste := wasteLimit goal;
     achievement := achievement_of (study stats) (to_number (studyTarget goal));
     wasteCompliance := wasteCompliance_of (wasted stats) (to_number (wasteLimit goal)) |}.

Section MonthlyData.

(** [getMonthName] reads the month of a date string through the runtime's
    date parser and default locale; the grid is defined for whatever that
    function returns. *)
Variable getMonthName : string -> string.

(** Lines 75-78: the totals of the records of month [m]. *)
Definition monthStats (records : list DayRecord) (m : string) : MonthStats :=
  fold_left (fun acc r =>
      {| study := Number.add (study acc) (studyHours (metrics r));
         wasted := Number.add (wasted acc) (timeWasted (metrics r)) |})
    (List.filter (fun r => String.eqb (getMonthName (date r)) m) records)
    {| study := Number.zero; wasted := Number.zero |}.

(** [monthlyData]; [None] is the TypeError of reading a property of
    [goals[m]] when the month has no entry. *)
Definition monthlyData (records : list DayRecord) (goals : gmap string MonthlyGoal)
    : option (list MonthEntry) :=
  mapM (fun m =>
      match goals !! m with
      | Some goal => Some (monthEntry m (monthStats records m) goal)
      | None => None
      end) monthsList.

End MonthlyData.

(** [getMonthName] under an English default locale, on the dates that
    [formatDate] writes: the long name of the month the string starts with. *)
Definition getMonthName_en (dateStr : string) : string :=
  let short := String.substring 0 3 dateStr in
  match List.find (fun m => String.eqb (String.substring 0 3 m) short) monthsList with
  | Some m => m
  | None => "Invalid Date"
  end.

(** ** The session state and its edits *)

Record AppState : Type := {
  records : list DayRecord;
  goals : gmap string MonthlyGoal
}.

(** A session that finds nothing saved, started in the year [year]. *)
Definition initialState (year : Z) : AppState :=
  {| records := generateInitialData year; goals := initialGoals |}.

(** The edits the interface can make. *)
Inductive Edit : Type :=
| HabitChange (id0 : Z) (habit : HabitKey) (value : bool)
| MetricChange (id0 : Z) (metric : MetricKey) (value : string)
| GoalChange (m : string) (field : GoalField) (value : string).

Definition apply_edit (st : AppState) (e : Edit) : AppState :=
  match e with
  | HabitChange id0 habit value =>
      {| records := handleHabitChange id0 habit value (records st); goals := goals st |}
  | MetricChange id0 metric value =>
      {| records := handleMetricChange id0 metric value (records st); goals := goals st |}
  | GoalChange m field value =>
      {| records := records st; goals := updateGoal m field value (goals st) |}
  end.

(** The state after a sequence of edits, first edit first. *)
Definition run (st : AppState) (edits : list Edit) : AppState :=
  fold_left apply_edit edits st.

(** The states a session can be in. *)
Definition reachable (st : AppState) : Prop :=
  exists year edits, st = run (initialState year) edits.

(** ** The specification's wording of the streak computations *)

(** The number of consecutive records, from the head of the list on, whose
    habit flag is true. *)
Fixpoint run_length (habit : HabitKey) (l : list DayRecord) : nat :=
  match l with
  | [] => 0%nat
  | r :: rest => if flag habit r then S (run_length habit rest) else 0%nat
  end.

(** The filled records ordered by day number, most recent first, and the
    run of true flags at their head. *)
Definition current_spec (records : list DayRecord) (habit : HabitKey) : nat :=
  run_length habit (sort_desc (List.filter isFilled records)).

(** A list in which every record has a day number strictly above those of
    the records after it. *)
Definition strictly_descending (l : list DayRecord) : Prop :=
  StronglySorted (fun a b => dayNumber b < dayNumber a) l.

(** A list in which no record has a day number below one of a later record. *)
Definition descending (l : list DayRecord) : Prop :=
  StronglySorted (fun a b => dayNumber b <= dayNumber a) l.

(** One scan over the flags with a running counter: a true flag increments
    it; a false flag compares it against the running maximum and resets it;
    one last comparison when the scan ends. *)
Fixpoint scan_spec (flags : list bool) (running_max tempStreak : nat) : nat :=
  match flags with
  | [] => Nat.max running_max tempStreak
  | true :: rest => scan_spec rest running_max (S tempStreak)
  | false :: rest => scan_spec rest (Nat.max running_max tempStreak) 0
  end.

(** The loop body as a function of the record it reads. *)
Definition max_step (habit : HabitKey) (st : nat * nat) (r : DayRecord) : nat * nat :=
  let '(maxStreak, tempStreak) := st in
  if get_habit (habits r) habit
  then (maxStreak, S tempStreak)
  else ((if maxStreak <? tempStreak then tempStreak else maxStreak)%nat, 0%nat).

(** The day numbers of the year, in order. *)
Definition days : list Z := List.map Z.of_nat (seq 1 365).

(** ** Invariants of the session state *)

(** The records of a session: one per day of the year, in day order, with
    id and dayNumber the day; a record that was never edited has every habit
    flag false; every metric is a finite value in [0, 24]. *)
Definition records_inv (rs : list DayRecord) : Prop :=
  List.map id rs = days
  /\ List.map dayNumber rs = days
  /\ Forall (fun r => isFilled r = false -> forall habit, flag habit r = false) rs
  /\ Forall (fun r => forall metric,
                Number.within 0 24 (get_metric (metrics r) metric)) rs.

(** The goals of a session: each of the twelve months has an entry with
    both numeric fields present and not [NaN]. *)
Definition goals_inv (g : gmap string MonthlyGoal) : Prop :=
  forall m, In m monthsList ->
    exists goal t l, g !! m = Some goal
      /\ studyTarget goal = Some t /\ wasteLimit goal = Some l
      /\ t <> NaN /\ l <> NaN.

(** ** Sample inputs *)

(** The first week of a fresh year after logging a workout on day 2 and
    two study hours on day 1: a small collection to evaluate the handlers on. *)
Definition sample_week : list DayRecord :=
  handleMetricChange 1 K_studyHours "2"
    (handleHabitChange 2 K_workout true (firstn 7 (generateInitialData 2025))).

(** A year with workouts logged on days 5 and 2, a missed workout logged
    on day 1 and another habit logged on day 4. *)
Definition sample_state : AppState :=
  run (initialState 2025)
    [HabitChange 5 K_workout true; HabitChange 2 K_workout true;
     HabitChange 1 K_workout false; HabitChange 4 K_noPorn true].

Definition sample_year : list DayRecord := records sample_state.


(** A session with a workout logged on day 1 and on day 3, day 2 left
    untouched. *)
Definition gap_state : AppState :=
  run (initialState 2025) [HabitChange 1 K_workout true; HabitChange 3 K_workout true].

(** A session with workouts logged on days 1 and 2 and a missed workout
    logged on day 3. *)
Definition three_day_state : AppState :=
  run (initialState 2025)
    [HabitChange 1 K_workout true; HabitChange 2 K_workout true;
     HabitChange 3 K_workout false].

(** The first record, in array order, among those with the largest day
    number: the head of the stable descending sort. *)
Fixpoint first_max (l : list DayRecord) : option DayRecord :=
  match l with
  | [] => None
  | x :: l' =>
      match first_max l' with
      | None => Some x
      | Some y => if dayNumber y <=? dayNumber x then Some x else Some y
      end
  end.

(** ** The specification's wording of the numeric rules *)

(** A parsed input clamped to [0, 24]; an input that is not a number
    counts as 0. *)
Definition clamp_0_24 (n : number) : Q :=
  match n with
  | Num x => if Qle_bool x 0 then 0 else if Qle_bool 24 x then 24 else x
  | Infinity => 24
  | NegInfinity => 0
  | NaN => 0
  end.

(** The denominator guard the specification describes, read as "a zero
    limit counts as 1" and as "the limit is at least 1". *)
Definition guard_zero (wasteLimit0 : Q) : Q :=
  if Qeq_bool wasteLimit0 0 then 1 else wasteLimit0.

Definition guard_min_one (wasteLimit0 : Q) : Q :=
  if Qle_bool wasteLimit0 1 then 1 else wasteLimit0.

(** Waste compliance as the specification states it, with the guard on the
    denominator of the ratio, on the values themselves (no step of it
    rounds at the inputs it is evaluated on below). *)
Definition wasteCompliance_guarded (guard : Q -> Q) (actualWaste0 wasteLimit0 : Q) : Z :=
  if Qle_bool actualWaste0 wasteLimit0 then 100
  else Z.max 0
         (Qfloor ((1 - (actualWaste0 - wasteLimit0) / guard wasteLimit0) * 100 + (1 # 2))).

(** A session with half an hour wasted on day 1 and the January limit set
    to 0. *)
Definition zero_limit_state : AppState :=
  run (initialState 2025)
    [MetricChange 1 K_timeWasted "0.5"; GoalChange "January" K_wasteLimit "0"].

(** A session with the January limit set to -10. *)
Definition negative_limit_state : AppState :=
  run (initialState 2025) [GoalChange "January" K_wasteLimit "-10"].

(** ** src/App.tsx: derived state *)

(** [records.filter(r => r.isFilled).length] *)
Definition completedDays (records0 : list DayRecord) : nat :=
  length (List.filter isFilled records0).

(** [records.reduce((acc, r) => acc + r.metrics.studyHours, 0)] *)
Definition totalStudyHours (records0 : list DayRecord) : number :=
  fold_left (fun acc r => Number.add acc (studyHours (metrics r))) records0 (Number.of_Z 0).

(** [records.reduce((acc, r) => acc + r.metrics.timeWasted, 0)] *)
Definition totalWastedHours (records0 : list DayRecord) : number :=
  fold_left (fun acc r => Number.add acc (timeWasted (metrics r))) records0 (Number.of_Z 0).

(** [a === b] on numbers: NaN equals nothing. *)
Definition strict_equal (a b : number) : bool :=
  match a, b with
  | Num x, Num y => Qeq_bool x y
  | Infinity, Infinity | NegInfinity, NegInfinity => true
  | _, _ => false
  end.

(** Lines 68-71. *)
Definition productivityScore (records0 : list DayRecord) : number :=
  let totalStudyHours := totalStudyHours records0 in
  let totalWastedHours := totalWastedHours records0 in
  if strict_equal (Number.add totalStudyHours totalWastedHours) (Number.of_Z 0)
  then Number.of_Z 0
  else Number.round
         (Number.mul
            (Number.div totalStudyHours (Number.add totalStudyHours totalWastedHours))
            (Number.of_Z 100)).

(** A counter as a number. *)
Definition of_nat (n : nat) : number := Number.of_Z (Z.of_nat n).

(** The sidebar's annual goal, [Math.round((completedDays/365)*100)]. *)
Definition annualGoal (records0 : list DayRecord) : number :=
  Number.round
    (Number.mul (Number.div (of_nat (completedDays records0)) (Number.of_Z 365))
       (Number.of_Z 100)).

(** ProgressTracker's
    [Math.min(100, Math.round((completedDays / totalDays) * 100))]. *)
Definition percentage (completedDays0 totalDays : number) : number :=
  Number.min (Number.of_Z 100)
    (Number.round (Number.mul (Number.div completedDays0 totalDays) (Number.of_Z 100))).

(** The tracker as the dashboard renders it, with [totalDays={365}]. *)
Definition progressTracker (records0 : list DayRecord) : number :=
  percentage (of_nat (completedDays records0)) (Number.of_Z 365).

(** A click on a HabitToggle of the daily log: [onChange(!value)] with
    [value = record.habits[habit]] and
    [onChange = val => handleHabitChange(record.id, habit, val)]. *)
Definition toggle_click (record : DayRecord) (habit : HabitKey)
    (prev : list DayRecord) : list DayRecord :=
  handleHabitChange (id record) habit (negb (get_habit (habits record) habit)) prev.

Section FilteredRecords.

Variable getMonthName : string -> string.

(** Lines 128-131, for the selected month. *)
Definition filteredRecords (records0 : list DayRecord) (selectedMonth : string)
    : list DayRecord :=
  if String.eqb selectedMonth "All" then records0
  else List.filter (fun r => String.eqb (getMonthName (date r)) selectedMonth) records0.

End FilteredRecords.

(** [goal[field]] *)
Definition get_goal_field (goal : MonthlyGoal) (field : GoalField) : option number :=
  match field with
  | K_studyTarget => studyTarget goal
  | K_wasteLimit => wasteLimit goal
  end.

#[global] Instance GoalField_eq_dec : EqDecision GoalField.
Proof. solve_decision. Defined.

(** The rational a finite number holds (0 for the special values). *)
Definition finite_part (n : number) : Q :=
  match n with
  | Num q => q
  | _ => 0
  end.

(** A session with 0.1 and 0.1 hours studied on the first two days of
    January and 0.4 on the first of February. *)
Definition tenths_state : AppState :=
  run (initialState 2025)
    [MetricChange 1 K_studyHours "0.1"; MetricChange 2 K_studyHours "0.1";
     MetricChange 32 K_studyHours "0.4"].

(** ** src/App.tsx: the analytics summary *)

(** [n > 0] *)
Definition positive (n : number) : bool :=
  match n with
  | Num x => negb (Qle_bool x 0)
  | Infinity => true
  | _ => false
  end.

(** The comparator [(a, b) => b.actualStudy - a.actualStudy] returns a
    positive number: [a] is sorted after [b]. *)
Definition sorts_after (a b : MonthEntry) : bool :=
  positive (Number.sub (actualStudy b) (actualStudy a)).

(** [Array.prototype.sort] with that comparator: a stable sort, here by
    insertion, as for the filled records. *)
Fixpoint entry_insert (x : MonthEntry) (l : list MonthEntry) : list MonthEntry :=
  match l with
  | [] => [x]
  | y :: l' => if sorts_after x y then y :: entry_insert x l' else x :: y :: l'
  end.

Fixpoint sort_by_study (l : list MonthEntry) : list MonthEntry :=
  match l with
  | [] => []
  | x :: l' => entry_insert x (sort_by_study l')
  end.

(** [monthlyData.sort((a,b) => b.actualStudy - a.actualStudy)[0].month]:
    the month shown as Top Month, together with the array as the sort leaves
    it (the sort is in place); [None] is the TypeError on an empty array. *)
Definition topMonth (monthlyData0 : list MonthEntry) : option (string * list MonthEntry) :=
  let sorted := sort_by_study monthlyData0 in
  match sorted with
  | e :: _ => Some (entry_month e, sorted)
  | [] => None
  end.

(** [Math.round(monthlyData.reduce((acc, m) => acc + m.wasteCompliance, 0) / 12)] *)
Definition overallWasteCompliance (monthlyData0 : list MonthEntry) : number :=
  Number.round
    (Number.div
       (fold_left (fun acc m => Number.add acc (wasteCompliance m)) monthlyData0
          (Number.of_Z 0))
       (Number.of_Z 12)).

(** ** src/App.tsx: jumpToToday *)


(** * Properties

    ** Rounding to binary64

    The rounding is monotone, leaves binary64 values fixed, and every
    integer up to [2^53] is a binary64 value. *)

Local Open Scope Q_scope.

Lemma pow2_Qpower e : Number.pow2 e == 2 ^ e.
Proof.
  destruct e as [|p|p]; simpl Number.pow2.
  - reflexivity.
  - rewrite <- (Zpower_Qpower 2 (Zpos p)) by lia.
    rewrite Pos2Z.inj_pow. reflexivity.
  - change (2 ^ Z.neg p) with (/ (2 ^ Z.pos p)).
    rewrite <- (Zpower_Qpower 2 (Zpos p)) by lia.
    rewrite <- Pos2Z.inj_pow. reflexivity.
Qed.

Lemma pow2_pos e : 0 < Number.pow2 e.
Proof. rewrite pow2_Qpower. apply Qpower_0_lt. reflexivity. Qed.

Lemma pow2_add a b : Number.pow2 (a + b) == Number.pow2 a * Number.pow2 b.
Proof. rewrite !pow2_Qpower. apply Qpower_plus. discriminate. Qed.

Lemma pow2_le a b : (a <= b)%Z -> Number.pow2 a <= Number.pow2 b.
Proof. intros H. rewrite !pow2_Qpower. apply Qpower_le_compat_l; [exact H | discriminate]. Qed.

Lemma pow2_lt a b : (a < b)%Z -> Number.pow2 a < Number.pow2 b.
Proof. intros H. rewrite !pow2_Qpower. apply Qpower_lt_compat_l; [exact H | reflexivity]. Qed.

Lemma pow2_le_inv a b : Number.pow2 a <= Number.pow2 b -> (a <= b)%Z.
Proof.
  intros H. destruct (Z_le_gt_dec a b) as [Hle | Hgt]; [exact Hle | exfalso].
  assert (Number.pow2 b < Number.pow2 a) by (apply pow2_lt; lia). lra.
Qed.

Lemma pow2_lt_inv a b : Number.pow2 a < Number.pow2 b -> (a < b)%Z.
Proof.
  intros H. destruct (Z_lt_ge_dec a b) as [Hlt | Hge]; [exact Hlt | exfalso].
  assert (Number.pow2 b <= Number.pow2 a) by (apply pow2_le; lia). lra.
Qed.

Lemma pow2_inject e : (0 <= e)%Z -> Number.pow2 e = inject_Z (2 ^ e).
Proof.
  intros H. destruct e as [|p|p]; [reflexivity | | lia].
  simpl Number.pow2. rewrite Pos2Z.inj_pow. reflexivity.
Qed.

Lemma rne_comp x y : x == y -> Number.rne x = Number.rne y.
Proof.
  intros H. unfold Number.rne. rewrite (Qfloor_comp _ _ H).
  assert (Hc : (x - inject_Z (Qfloor y) ?= 1 # 2) = (y - inject_Z (Qfloor y) ?= 1 # 2))
    by (rewrite H; reflexivity).
  rewrite Hc. reflexivity.
Qed.

Lemma rne_inject z : Number.rne (inject_Z z) = z.
Proof.
  unfold Number.rne. rewrite Qfloor_Z.
  destruct (Qcompare_spec (inject_Z z - inject_Z z) (1 # 2)) as [H | H | H];
    [exfalso; lra | reflexivity | exfalso; lra].
Qed.

Lemma rne_mono x y : x <= y -> (Number.rne x <= Number.rne y)%Z.
Proof.
  intros Hxy. unfold Number.rne.
  pose proof (Qfloor_le x) as Hfx. pose proof (Qlt_floor x) as Hfx'.
  pose proof (Qfloor_le y) as Hfy. pose proof (Qlt_floor y) as Hfy'.
  pose proof (Qfloor_resp_le _ _ Hxy) as Hfg.
  set (f := Qfloor x) in *. set (g := Qfloor y) in *.
  rewrite inject_Z_plus in Hfx', Hfy'.
  destruct (Z.eq_dec f g) as [E | NE].
  - rewrite <- E in *. clear E g Hfg.
    destruct (Qcompare_spec (x - inject_Z f) (1 # 2)) as [Cx | Cx | Cx];
      destruct (Qcompare_spec (y - inject_Z f) (1 # 2)) as [Cy | Cy | Cy];
      try (exfalso; lra); destruct (Z.even f); lia.
  - assert (f + 1 <= g)%Z by lia.
    destruct (x - inject_Z f ?= 1 # 2); destruct (y - inject_Z g ?= 1 # 2);
      destruct (Z.even f); destruct (Z.even g); lia.
Qed.

Lemma Qmul_lt_cancel (P q D N : Q) : 0 < D -> q * D == N -> P * D < N -> P < q.
Proof.
  intros HD HN H. rewrite <- HN in H. apply Qmult_lt_r in H; assumption.
Qed.

Lemma Qmul_lt_cancel' (P q D N : Q) : 0 < D -> q * D == N -> N < P * D -> q < P.
Proof.
  intros HD HN H. rewrite <- HN in H. apply Qmult_lt_r in H; assumption.
Qed.

Lemma exponent_raw_spec q :
  0 < q -> Number.pow2 (Number.exponent_raw q + 52) <= q /\ q < Number.pow2 (Number.exponent_raw q + 53).
Proof.
  intros Hq. destruct q as [n d].
  assert (Hn : (0 < n)%Z) by (unfold Qlt in Hq; simpl in Hq; lia).
  unfold Number.exponent_raw. simpl Qnum. simpl Qden.
  set (a := Z.log2 n). set (b := Z.log2 (Zpos d)).
  assert (Ha : (0 <= a)%Z) by apply Z.log2_nonneg.
  assert (Hb : (0 <= b)%Z) by apply Z.log2_nonneg.
  destruct (Z.log2_spec n Hn) as [HN1 HN2]. fold a in HN1, HN2.
  destruct (Z.log2_spec (Zpos d) eq_refl) as [HD1 HD2]. fold b in HD1, HD2.
  rewrite Zle_Qle in HN1, HD1. rewrite Zlt_Qlt in HN2, HD2.
  rewrite <- Z.add_1_r in HN2, HD2.
  rewrite <- pow2_inject in HN1, HN2, HD1, HD2 by lia.
  set (N := inject_Z n) in *. set (D := inject_Z (Zpos d)) in *.
  assert (HDpos : 0 < D) by (pose proof (pow2_pos b); lra).
  assert (HqD : (n # d) * D == N).
  { unfold N, D, Qeq. simpl. rewrite Pos.mul_1_r. ring. }
  set (q := n # d) in *.
  assert (Hlow : Number.pow2 (a - b - 1) < q).
  { apply (Qmul_lt_cancel _ q D N HDpos HqD).
    apply Qlt_le_trans with (Number.pow2 (a - b - 1) * Number.pow2 (b + 1)).
    - apply Qmult_lt_l; [apply pow2_pos | exact HD2].
    - rewrite <- pow2_add. replace (a - b - 1 + (b + 1))%Z with a by lia. exact HN1. }
  assert (Hhigh : q < Number.pow2 (a - b + 1)).
  { apply (Qmul_lt_cancel' _ q D N HDpos HqD).
    apply Qlt_le_trans with (Number.pow2 (a + 1)); [exact HN2 |].
    replace (a + 1)%Z with (a - b + 1 + b)%Z by lia. rewrite pow2_add.
    apply Qmult_le_l; [apply pow2_pos | exact HD1]. }
  replace (a - b - 53 + 53)%Z with (a - b)%Z by lia.
  destruct (Qle_bool (Number.pow2 (a - b)) q) eqn:Hc.
  - apply Qle_bool_iff in Hc.
    replace (a - b - 53 + 1 + 52)%Z with (a - b)%Z by lia.
    replace (a - b - 53 + 1 + 53)%Z with (a - b + 1)%Z by lia.
    split; assumption.
  - assert (Hc' : q < Number.pow2 (a - b)).
    { apply Qnot_le_lt. intros H. apply Qle_bool_iff in H. congruence. }
    replace (a - b - 53 + 52)%Z with (a - b - 1)%Z by lia.
    replace (a - b - 53 + 53)%Z with (a - b)%Z by lia.
    split; [apply Qlt_le_weak; exact Hlow | exact Hc'].
Qed.

Lemma exponent_eq q : Number.exponent q = Z.max (Number.exponent_raw q) (-1074).
Proof. reflexivity. Qed.

Lemma exponent_raw_unique q e :
  Number.pow2 (e + 52) <= q -> q < Number.pow2 (e + 53) -> 0 < q -> Number.exponent_raw q = e.
Proof.
  intros H1 H2 Hq. destruct (exponent_raw_spec q Hq) as [H3 H4].
  assert (Number.pow2 (e + 52) < Number.pow2 (Number.exponent_raw q + 53)) as Ha by lra.
  assert (Number.pow2 (Number.exponent_raw q + 52) < Number.pow2 (e + 53)) as Hb by lra.
  apply pow2_lt_inv in Ha. apply pow2_lt_inv in Hb. lia.
Qed.

Lemma exponent_raw_mono q q' : 0 < q -> q <= q' -> (Number.exponent_raw q <= Number.exponent_raw q')%Z.
Proof.
  intros Hq Hle.
  destruct (exponent_raw_spec q Hq) as [H1 H2].
  destruct (exponent_raw_spec q') as [H3 H4]; [lra |].
  assert (Number.pow2 (Number.exponent_raw q + 52) < Number.pow2 (Number.exponent_raw q' + 53)) as Ha by lra.
  apply pow2_lt_inv in Ha. lia.
Qed.

Lemma exponent_ge q : (-1074 <= Number.exponent q)%Z.
Proof. rewrite exponent_eq. lia. Qed.

Lemma exponent_upper q : 0 < q -> q < Number.pow2 (Number.exponent q + 53).
Proof.
  intros Hq. destruct (exponent_raw_spec q Hq) as [_ H].
  rewrite exponent_eq.
  apply Qlt_le_trans with (1 := H). apply pow2_le. lia.
Qed.

Lemma exponent_lower q : 0 < q -> (-1074 < Number.exponent q)%Z -> Number.pow2 (Number.exponent q + 52) <= q.
Proof.
  intros Hq He. destruct (exponent_raw_spec q Hq) as [H _].
  rewrite exponent_eq in *. replace (Z.max (Number.exponent_raw q) (-1074)) with (Number.exponent_raw q) by lia.
  exact H.
Qed.

Lemma exponent_mono q q' : 0 < q -> q <= q' -> (Number.exponent q <= Number.exponent q')%Z.
Proof.
  intros Hq Hle. rewrite !exponent_eq.
  pose proof (exponent_raw_mono q q' Hq Hle). lia.
Qed.

Lemma binary64_pos_eq q :
  Number.binary64_pos q =
  if Qle_bool (Number.pow2 1024) (inject_Z (significand q) * Number.pow2 (Number.exponent q))
  then Infinity
  else Num (Qred (inject_Z (significand q) * Number.pow2 (Number.exponent q))).
Proof. reflexivity. Qed.

Lemma significand_upper q : 0 < q -> (significand q <= 2 ^ 53)%Z.
Proof.
  intros Hq. unfold significand.
  rewrite <- (rne_inject (2 ^ 53)). apply rne_mono.
  rewrite <- pow2_inject by lia.
  apply Qlt_le_weak. apply Qlt_shift_div_r; [apply pow2_pos |].
  rewrite <- pow2_add. rewrite Z.add_comm. apply exponent_upper. exact Hq.
Qed.

Lemma significand_lower q :
  0 < q -> (-1074 < Number.exponent q)%Z -> (2 ^ 52 <= significand q)%Z.
Proof.
  intros Hq He. unfold significand.
  rewrite <- (rne_inject (2 ^ 52)) at 1. apply rne_mono.
  rewrite <- pow2_inject by lia.
  apply Qle_shift_div_l; [apply pow2_pos |].
  rewrite <- pow2_add. rewrite Z.add_comm. apply exponent_lower; assumption.
Qed.

Lemma significand_nonneg q : 0 < q -> (0 <= significand q)%Z.
Proof.
  intros Hq. unfold significand.
  rewrite <- (rne_inject 0) at 1. apply rne_mono.
  apply Qle_shift_div_l; [apply pow2_pos |].
  change (inject_Z 0) with 0. lra.
Qed.

Lemma nearest_mono q q' :
  0 < q -> q <= q' ->
  inject_Z (significand q) * Number.pow2 (Number.exponent q)
  <= inject_Z (significand q') * Number.pow2 (Number.exponent q').
Proof.
  intros Hq Hle. assert (Hq' : 0 < q') by lra.
  pose proof (exponent_mono q q' Hq Hle) as He.
  pose proof (exponent_ge q) as Hmin.
  destruct (Z.eq_dec (Number.exponent q) (Number.exponent q')) as [E | NE].
  - unfold significand. rewrite <- E.
    apply Qmult_le_compat_r; [| apply Qlt_le_weak, pow2_pos].
    rewrite <- Zle_Qle. apply rne_mono.
    apply Qmult_le_compat_r; [exact Hle |].
    apply Qlt_le_weak, Qinv_lt_0_compat, pow2_pos.
  - apply Qle_trans with (Number.pow2 (Number.exponent q + 53)).
    + rewrite Z.add_comm, pow2_add.
      apply Qmult_le_compat_r; [| apply Qlt_le_weak, pow2_pos].
      rewrite pow2_inject by lia. rewrite <- Zle_Qle. apply significand_upper, Hq.
    + apply Qle_trans with (Number.pow2 (52 + Number.exponent q')).
      * apply pow2_le. lia.
      * rewrite pow2_add.
        apply Qmult_le_compat_r; [| apply Qlt_le_weak, pow2_pos].
        rewrite pow2_inject by lia. rewrite <- Zle_Qle.
        apply significand_lower; [exact Hq' | lia].
Qed.

Lemma nearest_nonneg q :
  0 < q -> 0 <= inject_Z (significand q) * Number.pow2 (Number.exponent q).
Proof.
  intros Hq. apply Qmult_le_0_compat.
  - change 0 with (inject_Z 0). rewrite <- Zle_Qle. apply significand_nonneg, Hq.
  - apply Qlt_le_weak, pow2_pos.
Qed.

Lemma binary64_pos_range q :
  0 < q ->
  Number.binary64_pos q = Infinity \/
  exists v, Number.binary64_pos q = Num v /\ 0 <= v /\ Qred v = v /\
            v == inject_Z (significand q) * Number.pow2 (Number.exponent q) /\
            v < Number.pow2 1024.
Proof.
  intros Hq. rewrite binary64_pos_eq.
  destruct (Qle_bool _ _) eqn:Hc; [left; reflexivity | right].
  eexists. split; [reflexivity |].
  assert (Hlt : inject_Z (significand q) * Number.pow2 (Number.exponent q) < Number.pow2 1024).
  { apply Qnot_le_lt. intros H. apply Qle_bool_iff in H. congruence. }
  split; [rewrite Qred_correct; apply nearest_nonneg, Hq |].
  split; [apply Qred_complete, Qred_correct |].
  split; [apply Qred_correct | rewrite Qred_correct; exact Hlt].
Qed.

Lemma binary64_pos_mono q q' :
  0 < q -> q <= q' ->
  Number.le (Number.binary64_pos q) (Number.binary64_pos q') = true.
Proof.
  intros Hq Hle. pose proof (nearest_mono q q' Hq Hle) as Hm.
  rewrite !binary64_pos_eq.
  destruct (Qle_bool (Number.pow2 1024) (inject_Z (significand q) * _)) eqn:Hc;
    destruct (Qle_bool (Number.pow2 1024) (inject_Z (significand q') * _)) eqn:Hc';
    cbn [Number.le]; try reflexivity.
  - apply Qle_bool_iff in Hc.
    assert (Qle_bool (Number.pow2 1024)
              (inject_Z (significand q') * Number.pow2 (Number.exponent q')) = true)
      by (apply Qle_bool_iff; lra).
    congruence.
  - apply Qle_bool_iff. rewrite !Qred_correct. exact Hm.
Qed.

Lemma binary64_zero q : q == 0 -> Number.binary64 q = Num 0.
Proof.
  intros H. unfold Number.binary64.
  destruct (Qcompare_spec (Qred q) 0) as [C | C | C];
    [reflexivity | |]; rewrite Qred_correct in C; exfalso; lra.
Qed.

Lemma binary64_positive q : 0 < q -> Number.binary64 q = Number.binary64_pos (Qred q).
Proof.
  intros H. unfold Number.binary64.
  destruct (Qcompare_spec (Qred q) 0) as [C | C | C];
    [| | reflexivity]; rewrite Qred_correct in C; exfalso; lra.
Qed.

Lemma binary64_negative q :
  q < 0 -> Number.binary64 q = Number.neg (Number.binary64_pos (- Qred q)).
Proof.
  intros H. unfold Number.binary64.
  destruct (Qcompare_spec (Qred q) 0) as [C | C | C];
    [| reflexivity |]; rewrite Qred_correct in C; exfalso; lra.
Qed.

Lemma binary64_comp q q' : q == q' -> Number.binary64 q = Number.binary64 q'.
Proof. intros H. unfold Number.binary64. rewrite (Qred_complete _ _ H). reflexivity. Qed.

(** Rounding is monotone. *)
Lemma binary64_monotone q q' :
  q <= q' -> Number.le (Number.binary64 q) (Number.binary64 q') = true.
Proof.
  intros Hle.
  destruct (Qlt_le_dec 0 q) as [Hq | Hq].
  - rewrite (binary64_positive q Hq), (binary64_positive q') by lra.
    apply binary64_pos_mono; rewrite !Qred_correct; assumption.
  - destruct (Qlt_le_dec q 0) as [Hneg | Hz].
    + rewrite (binary64_negative q Hneg).
      assert (Hp : 0 < - Qred q) by (rewrite Qred_correct; lra).
      destruct (Qlt_le_dec q' 0) as [Hneg' | Hq'].
      * rewrite (binary64_negative q' Hneg').
        assert (Hp' : 0 < - Qred q') by (rewrite Qred_correct; lra).
        assert (Hle' : - Qred q' <= - Qred q) by (rewrite !Qred_correct; lra).
        pose proof (binary64_pos_mono _ _ Hp' Hle') as Hm.
        destruct (binary64_pos_range _ Hp) as [Hi | (v & Hi & Hv & _)];
          destruct (binary64_pos_range _ Hp') as [Hi' | (v' & Hi' & Hv' & _)];
          rewrite Hi, Hi' in *; cbn [Number.le Number.neg] in *;
          try reflexivity; try discriminate.
        apply Qle_bool_iff. apply Qle_bool_iff in Hm. lra.
      * destruct (binary64_pos_range _ Hp) as [-> | (v & -> & Hv & _)]; simpl.
        -- destruct (Qlt_le_dec 0 q') as [Hpos' | Hz'].
           ++ rewrite (binary64_positive q' Hpos').
              destruct (binary64_pos_range (Qred q')) as [-> | (v' & -> & _)];
                [rewrite Qred_correct; exact Hpos' | reflexivity | reflexivity].
           ++ rewrite (binary64_zero q') by lra. reflexivity.
        -- destruct (Qlt_le_dec 0 q') as [Hpos' | Hz'].
           ++ rewrite (binary64_positive q' Hpos').
              destruct (binary64_pos_range (Qred q')) as [-> | (v' & -> & Hv' & _)];
                [rewrite Qred_correct; exact Hpos' | reflexivity |].
              apply Qle_bool_iff. lra.
           ++ rewrite (binary64_zero q') by lra. apply Qle_bool_iff. lra.
    + rewrite (binary64_zero q) by lra.
      destruct (Qlt_le_dec 0 q') as [Hpos' | Hz'].
      * rewrite (binary64_positive q' Hpos').
        destruct (binary64_pos_range (Qred q')) as [-> | (v' & -> & Hv' & _)];
          [rewrite Qred_correct; exact Hpos' | reflexivity |].
        apply Qle_bool_iff. exact Hv'.
      * rewrite (binary64_zero q') by lra. reflexivity.
Qed.

(** A positive [m * 2^e0] with at most 53 significant bits, above the
    subnormal grid and below the overflow threshold, is its own rounding. *)
Lemma binary64_pos_exact q m e0 :
  (0 < m <= 2 ^ 53)%Z -> (-1074 <= e0)%Z ->
  q == inject_Z m * Number.pow2 e0 -> q < Number.pow2 1024 ->
  Number.binary64_pos q = Num (Qred q).
Proof.
  intros Hm He0 Hq Hlt.
  assert (Hmpos : 0 < inject_Z m) by (change 0 with (inject_Z 0); rewrite <- Zlt_Qlt; lia).
  assert (Hqpos : 0 < q).
  { rewrite Hq. apply Qmult_lt_0_compat; [exact Hmpos | apply pow2_pos]. }
  set (e := Number.exponent q).
  assert (Hk : exists k, q / Number.pow2 e == inject_Z k).
  { destruct (Z_le_gt_dec e e0) as [Hle | Hgt].
    - exists (m * 2 ^ (e0 - e))%Z.
      rewrite inject_Z_mult, <- pow2_inject by lia.
      rewrite Hq. replace e0 with ((e0 - e) + e)%Z at 1 by lia. rewrite pow2_add.
      field. pose proof (pow2_pos e). lra.
    - pose proof (exponent_lower q Hqpos) as Hlow. fold e in Hlow.
      specialize (Hlow ltac:(lia)).
      assert (Hm53 : inject_Z m <= Number.pow2 53)
        by (rewrite pow2_inject by lia; rewrite <- Zle_Qle; lia).
      assert (Hup : q <= Number.pow2 (53 + e0)).
      { rewrite Hq, pow2_add.
        apply Qmult_le_compat_r; [exact Hm53 | apply Qlt_le_weak, pow2_pos]. }
      assert (Hee : (e + 52 <= 53 + e0)%Z) by (apply pow2_le_inv; lra).
      assert (E : e = (e0 + 1)%Z) by lia.
      exists (2 ^ 52)%Z. rewrite <- pow2_inject by lia.
      assert (Hm53' : Number.pow2 53 <= inject_Z m).
      { apply Qmult_le_r with (z := Number.pow2 e0); [apply pow2_pos |].
        rewrite <- pow2_add, <- Hq. replace (53 + e0)%Z with (e + 52)%Z by lia. exact Hlow. }
      assert (Hmeq : inject_Z m == Number.pow2 53) by lra.
      rewrite Hq, Hmeq, <- pow2_add. replace (53 + e0)%Z with (52 + e)%Z by lia.
      rewrite pow2_add. field. pose proof (pow2_pos e). lra. }
  destruct Hk as [k Hk].
  assert (Hval : inject_Z (significand q) * Number.pow2 (Number.exponent q) == q).
  { unfold significand. fold e. rewrite (rne_comp _ _ Hk), rne_inject, <- Hk.
    field. pose proof (pow2_pos e). lra. }
  rewrite binary64_pos_eq.
  destruct (Qle_bool _ _) eqn:Hc.
  - apply Qle_bool_iff in Hc. rewrite Hval in Hc. lra.
  - f_equal. apply Qred_complete. exact Hval.
Qed.

(** A finite result of the rounding is a significand of at most 53 bits
    times a power of two on the subnormal grid. *)
Lemma binary64_pos_form q v :
  0 < q -> Number.binary64_pos q = Num v ->
  Qred v = v /\ v < Number.pow2 1024 /\
  exists m e, (0 <= m <= 2 ^ 53)%Z /\ (-1074 <= e)%Z /\ v == inject_Z m * Number.pow2 e.
Proof.
  intros Hq Hv.
  destruct (binary64_pos_range q Hq) as [Hi | (v' & Hi & Hnn & Hred & Hval & Hlt)];
    rewrite Hi in Hv; [discriminate |].
  injection Hv as <-. split; [exact Hred |]. split; [exact Hlt |].
  exists (significand q), (Number.exponent q).
  split; [split; [apply significand_nonneg | apply significand_upper]; exact Hq |].
  split; [apply exponent_ge | exact Hval].
Qed.

Lemma Qred_zero v : v == 0 -> Qred v = 0.
Proof. intros H. apply (Qred_complete _ _ H). Qed.

Lemma binary64_pos_idempotent q v :
  0 < q -> Number.binary64_pos q = Num v -> double v.
Proof.
  intros Hq Hv.
  destruct (binary64_pos_form q v Hq Hv) as (Hred & Hlt & m & e & Hm & He & Hval).
  unfold double.
  destruct (Z.eq_dec m 0%Z) as [-> | Hm0].
  - assert (Hz : v == 0) by (rewrite Hval; change (inject_Z 0) with 0; lra).
    rewrite (binary64_zero v Hz). rewrite <- Hred. rewrite (Qred_zero v Hz). reflexivity.
  - assert (Hvpos : 0 < v).
    { rewrite Hval. apply Qmult_lt_0_compat; [| apply pow2_pos].
      change 0 with (inject_Z 0). rewrite <- Zlt_Qlt. lia. }
    rewrite (binary64_positive v Hvpos), Hred.
    rewrite (binary64_pos_exact v m e); [rewrite Hred; reflexivity | lia | exact He | exact Hval | exact Hlt].
Qed.

Lemma Qopp_opp (x : Q) : (- - x)%Q = x.
Proof. destruct x as [n d]. unfold Qopp. simpl. rewrite Z.opp_involutive. reflexivity. Qed.

(** Rounding a binary64 value gives it back. *)
Lemma binary64_idempotent q v : Number.binary64 q = Num v -> double v.
Proof.
  intros Hv.
  destruct (Qlt_le_dec 0 q) as [Hq | Hq].
  - rewrite (binary64_positive q Hq) in Hv.
    apply (binary64_pos_idempotent (Qred q)); [rewrite Qred_correct; exact Hq | exact Hv].
  - destruct (Qlt_le_dec q 0) as [Hneg | Hz].
    + rewrite (binary64_negative q Hneg) in Hv.
      assert (Hp : 0 < - Qred q) by (rewrite Qred_correct; lra).
      destruct (Number.binary64_pos (- Qred q)) as [x | | |] eqn:Hx; try discriminate.
      injection Hv as <-.
      pose proof (binary64_pos_idempotent _ _ Hp Hx) as Hd.
      destruct (binary64_pos_form _ _ Hp Hx) as (Hred & Hlt & m & e & Hm & He & Hval).
      assert (Hxnn : 0 <= x).
      { rewrite Hval. apply Qmult_le_0_compat; [| apply Qlt_le_weak, pow2_pos].
        change 0 with (inject_Z 0). rewrite <- Zle_Qle. lia. }
      unfold double in *.
      destruct (Qlt_le_dec 0 x) as [Hxpos | Hxz].
      * rewrite binary64_negative by lra.
        rewrite Qred_opp, Hred, Qopp_opp.
        rewrite (binary64_positive x Hxpos), Hred in Hd. rewrite Hd. reflexivity.
      * assert (Hz : x == 0) by lra.
        rewrite binary64_zero by lra.
        rewrite <- Hred, (Qred_zero x Hz). reflexivity.
    + rewrite (binary64_zero q) in Hv by lra. injection Hv as <-. reflexivity.
Qed.

Lemma double_inject z : (Z.abs z <= 2 ^ 53)%Z -> double (inject_Z z).
Proof.
  intros Hz. unfold double.
  assert (Hred : forall z, Qred (inject_Z z) = inject_Z z).
  { intros z0. apply Qcanon.Qred_identity. apply Z.gcd_1_r. }
  destruct (Z.lt_trichotomy z 0) as [Hneg | [-> | Hpos]].
  - assert (Hq : inject_Z z < 0) by (change 0 with (inject_Z 0); rewrite <- Zlt_Qlt; lia).
    rewrite (binary64_negative _ Hq), Hred.
    rewrite (binary64_pos_exact _ (- z) 0).
    + cbn [Number.neg]. f_equal.
      change (- inject_Z z) with (inject_Z (- z)). rewrite Hred.
      change (- inject_Z (- z)) with (inject_Z (- - z)).
      rewrite Z.opp_involutive. reflexivity.
    + lia.
    + lia.
    + change (Number.pow2 0) with 1. change (- inject_Z z) with (inject_Z (- z)). lra.
    + change (- inject_Z z) with (inject_Z (- z)).
      rewrite pow2_inject by lia. rewrite <- Zlt_Qlt.
      assert (2 ^ 53 < 2 ^ 1024)%Z by (apply Z.pow_lt_mono_r; lia). lia.
  - reflexivity.
  - assert (Hq : 0 < inject_Z z) by (change 0 with (inject_Z 0); rewrite <- Zlt_Qlt; lia).
    rewrite (binary64_positive _ Hq), Hred.
    rewrite (binary64_pos_exact _ z 0).
    + rewrite Hred. reflexivity.
    + lia.
    + lia.
    + change (Number.pow2 0) with 1. lra.
    + rewrite pow2_inject by lia. rewrite <- Zlt_Qlt.
      assert (2 ^ 53 < 2 ^ 1024)%Z by (apply Z.pow_lt_mono_r; lia). lia.
Qed.

Lemma binary64_not_NaN q : Number.binary64 q <> NaN.
Proof.
  destruct (Qlt_le_dec 0 q) as [Hq | Hq].
  - rewrite (binary64_positive q Hq).
    destruct (binary64_pos_range (Qred q)) as [-> | (v & -> & _)];
      [rewrite Qred_correct; exact Hq | discriminate | discriminate].
  - destruct (Qlt_le_dec q 0) as [Hneg | Hz].
    + rewrite (binary64_negative q Hneg).
      destruct (binary64_pos_range (- Qred q)) as [-> | (v & -> & _)];
        [rewrite Qred_correct; lra | discriminate | discriminate].
    + rewrite (binary64_zero q) by lra. discriminate.
Qed.

(** Rounding stays on the side of a binary64 bound. *)
Lemma binary64_le_double q c :
  q <= c -> double c ->
  Number.binary64 q = NegInfinity \/
  exists v, Number.binary64 q = Num v /\ v <= c /\ double v.
Proof.
  intros Hle Hc. pose proof (binary64_monotone q c Hle) as Hm.
  rewrite Hc in Hm.
  destruct (Number.binary64 q) as [v | | |] eqn:Hv; cbn [Number.le] in Hm; try discriminate.
  - right. exists v. split; [reflexivity |]. split; [apply Qle_bool_iff, Hm |].
    apply (binary64_idempotent q v Hv).
  - left. reflexivity.
Qed.

Lemma binary64_ge_double q c :
  c <= q -> double c ->
  Number.binary64 q = Infinity \/
  exists v, Number.binary64 q = Num v /\ c <= v /\ double v.
Proof.
  intros Hle Hc. pose proof (binary64_monotone c q Hle) as Hm.
  rewrite Hc in Hm.
  destruct (Number.binary64 q) as [v | | |] eqn:Hv; cbn [Number.le] in Hm; try discriminate.
  - right. exists v. split; [reflexivity |]. split; [apply Qle_bool_iff, Hm |].
    apply (binary64_idempotent q v Hv).
  - left. reflexivity.
Qed.

Lemma binary64_between q lo hi :
  lo <= q -> q <= hi -> double lo -> double hi ->
  exists v, Number.binary64 q = Num v /\ lo <= v /\ v <= hi /\ double v.
Proof.
  intros Hlo Hhi Dlo Dhi.
  destruct (binary64_ge_double q lo Hlo Dlo) as [Hi | (v & Hv & Hge & Hd)];
    destruct (binary64_le_double q hi Hhi Dhi) as [Hi' | (v' & Hv' & Hle & _)];
    try congruence.
  exists v. split; [exact Hv |]. split; [exact Hge |]. split; [| exact Hd].
  rewrite Hv in Hv'. injection Hv' as <-. exact Hle.
Qed.

(** Every binary64 value is a multiple of the least subnormal [2^-1074]. *)
Lemma double_grid v : double v -> exists k, v == inject_Z k * Number.pow2 (-1074).
Proof.
  unfold double. intros Hv.
  assert (Hpos : forall q x, 0 < q -> Number.binary64_pos q = Num x ->
                 exists k, x == inject_Z k * Number.pow2 (-1074)).
  { intros q x Hq Hx.
    destruct (binary64_pos_form q x Hq Hx) as (_ & _ & m & e & Hm & He & Hval).
    exists (m * 2 ^ (e + 1074))%Z.
    rewrite Hval, inject_Z_mult, <- pow2_inject by lia.
    rewrite <- Qmult_assoc, <- pow2_add.
    replace (e + 1074 + -1074)%Z with e by lia. reflexivity. }
  destruct (Qlt_le_dec 0 v) as [Hq | Hq].
  - rewrite (binary64_positive v Hq) in Hv.
    apply (Hpos (Qred v)); [rewrite Qred_correct; exact Hq | exact Hv].
  - destruct (Qlt_le_dec v 0) as [Hneg | Hz].
    + rewrite (binary64_negative v Hneg) in Hv.
      destruct (Number.binary64_pos (- Qred v)) as [x | | |] eqn:Hx; try discriminate.
      destruct (Hpos (- Qred v) x) as [k Hk]; [rewrite Qred_correct; lra | exact Hx |].
      injection Hv as Hv. exists (- k)%Z.
      rewrite <- Hv, Hk, inject_Z_opp. ring.
    + exists 0%Z. change (inject_Z 0) with 0. lra.
Qed.

Lemma double_least_subnormal : double (Number.pow2 (-1074)).
Proof. vm_compute. reflexivity. Qed.

(** Two distinct binary64 values differ by at least [2^-1074], so their
    rounded difference is not zero. *)
Lemma binary64_sub_positive a b :
  double a -> double b -> a < b ->
  Number.binary64 (b - a) = Infinity \/
  exists v, Number.binary64 (b - a) = Num v /\ 0 < v /\ double v.
Proof.
  intros Da Db Hlt.
  destruct (double_grid a Da) as [ka Ha]. destruct (double_grid b Db) as [kb Hb].
  pose proof (pow2_pos (-1074)) as Hu.
  assert (Hk : (ka < kb)%Z).
  { destruct (Z_lt_ge_dec ka kb) as [H | H]; [exact H | exfalso].
    assert (inject_Z kb <= inject_Z ka) by (rewrite <- Zle_Qle; lia).
    assert (inject_Z kb * Number.pow2 (-1074) <= inject_Z ka * Number.pow2 (-1074))
      by (apply Qmult_le_compat_r; lra).
    lra. }
  assert (Hd : Number.pow2 (-1074) <= b - a).
  { assert (H1 : 1 <= inject_Z kb - inject_Z ka).
    { unfold Qminus. rewrite <- inject_Z_opp, <- inject_Z_plus. change 1 with (inject_Z 1).
      rewrite <- Zle_Qle. lia. }
    assert (H2 : 1 * Number.pow2 (-1074) <= (inject_Z kb - inject_Z ka) * Number.pow2 (-1074))
      by (apply Qmult_le_compat_r; lra).
    rewrite Ha, Hb. lra. }
  destruct (binary64_ge_double _ _ Hd double_least_subnormal) as [Hi | (v & Hv & Hge & Hdv)].
  - left. exact Hi.
  - right. exists v. split; [exact Hv |]. split; [lra | exact Hdv].
Qed.

(** The rounding is to nearest: the significand is within one half of the
    scaled value, a tie goes to the even significand, and a finite result is
    within half a unit in the last place of the exact value. *)
Lemma rne_nearest x : inject_Z (Number.rne x) - (1 # 2) <= x <= inject_Z (Number.rne x) + (1 # 2).
Proof.
  unfold Number.rne.
  pose proof (Qfloor_le x) as Hf. pose proof (Qlt_floor x) as Hf'.
  rewrite inject_Z_plus in Hf'. change (inject_Z 1) with 1 in Hf'.
  set (f := Qfloor x) in *.
  destruct (Qcompare_spec (x - inject_Z f) (1 # 2)) as [C | C | C];
    [destruct (Z.even f) | |];
    rewrite ?inject_Z_plus; change (inject_Z 1) with 1; split; lra.
Qed.

Lemma rne_tie_even x :
  x - inject_Z (Qfloor x) == 1 # 2 -> Z.even (Number.rne x) = true.
Proof.
  intros H. unfold Number.rne.
  destruct (Qcompare_spec (x - inject_Z (Qfloor x)) (1 # 2)) as [C | C | C];
    [| exfalso; lra | exfalso; lra].
  destruct (Z.even (Qfloor x)) eqn:E; [exact E |].
  rewrite Z.even_add, E. reflexivity.
Qed.

Lemma binary64_pos_error q v :
  0 < q -> Number.binary64_pos q = Num v ->
  q - Number.pow2 (Number.exponent q) / 2 <= v
  /\ v <= q + Number.pow2 (Number.exponent q) / 2.
Proof.
  intros Hq Hv.
  destruct (binary64_pos_range q Hq) as [Hi | (v' & Hi & _ & _ & Hval & _)];
    rewrite Hi in Hv; [discriminate |].
  injection Hv as <-.
  pose proof (pow2_pos (Number.exponent q)) as Hp.
  destruct (rne_nearest (q / Number.pow2 (Number.exponent q))) as [H1 H2].
  fold (significand q) in H1, H2.
  set (m := inject_Z (significand q)) in *. set (u := Number.pow2 (Number.exponent q)) in *.
  assert (Hqu : q == q / u * u) by (field; lra).
  assert (L : (m - (1 # 2)) * u <= q / u * u) by (apply Qmult_le_compat_r; lra).
  assert (U : q / u * u <= (m + (1 # 2)) * u) by (apply Qmult_le_compat_r; lra).
  rewrite <- Hqu in L, U. rewrite Hval. split.
  - apply Qle_trans with ((m + (1 # 2)) * u - u / 2); [lra |].
    apply Qle_lteq. right. field.
  - apply Qle_trans with ((m - (1 # 2)) * u + u / 2); [| lra].
    apply Qle_lteq. right. field.
Qed.

(** The rounding at some landmarks of the format: 0.1, a tie between two
    integers above [2^53], the least subnormal and half of it, the largest
    finite value and the overflow threshold. *)
Lemma binary64_examples :
  Number.binary64 (1 # 10) = Num (3602879701896397 # 36028797018963968)
  /\ Number.binary64 (inject_Z (2 ^ 53 + 1)) = Num (inject_Z (2 ^ 53))
  /\ Number.binary64 (inject_Z (2 ^ 53 + 3)) = Num (inject_Z (2 ^ 53 + 4))
  /\ Number.binary64 (Number.pow2 (-1074)) = Num (Number.pow2 (-1074))
  /\ Number.binary64 (Number.pow2 (-1075)) = Num 0
  /\ Number.binary64 (3 * Number.pow2 (-1075)) = Num (Number.pow2 (-1073))
  /\ Number.binary64 (inject_Z (2 ^ 1024 - 2 ^ 971)) = Num (inject_Z (2 ^ 1024 - 2 ^ 971))
  /\ Number.binary64 (inject_Z (2 ^ 1024 - 2 ^ 970 - 1)) = Num (inject_Z (2 ^ 1024 - 2 ^ 971))
  /\ Number.binary64 (inject_Z (2 ^ 1024 - 2 ^ 970)) = Infinity
  /\ Number.binary64 (- inject_Z (2 ^ 1024)) = NegInfinity.
Proof. repeat split; vm_compute; reflexivity. Qed.


(** The arithmetic on some familiar inputs: 0.1 + 0.2 is
    0.30000000000000004, 1 / 3 and 0.1 * 3 are rounded, a sum past the range
    is Infinity, and the special values follow IEEE 754. *)
Lemma arithmetic_examples :
  Number.add (Number.binary64 (1 # 10)) (Number.binary64 (2 # 10))
  = Num (1351079888211149 # 4503599627370496)
  /\ Number.div (Num 1) (Num 3) = Num (6004799503160661 # 18014398509481984)
  /\ Number.mul (Number.binary64 (1 # 10)) (Num 3)
     = Num (1351079888211149 # 4503599627370496)
  /\ Number.sub (Num (1 # 2)) (Num (1 # 4)) = Num (1 # 4)
  /\ Number.add (Num (inject_Z (2 ^ 1023))) (Num (inject_Z (2 ^ 1023))) = Infinity
  /\ Number.div (Num 1) (Num 0) = Infinity
  /\ Number.div (Num 0) (Num 0) = NaN
  /\ Number.sub Infinity Infinity = NaN
  /\ Number.mul Infinity (Num 0) = NaN
  /\ Number.div (Num 1) NegInfinity = Num 0.
Proof. repeat split; vm_compute; reflexivity. Qed.


Local Open Scope Z_scope.

(** ** Properties of the edit handlers *)

Lemma lookup_map {A B : Type} (f : A -> B) (l : list A) (i : nat) :
  List.map f l !! i = f <$> (l !! i).
Proof. exact (list_lookup_fmap f l i). Qed.

Lemma map_id_ext {A : Type} (f : A -> A) (l : list A) :
  (forall x, In x l -> f x = x) -> List.map f l = l.
Proof.
  induction l as [|a l IH]; intros H; simpl; [reflexivity|].
  rewrite (H a) by (left; reflexivity).
  f_equal. apply IH. intros x Hx. apply H. right. exact Hx.
Qed.

Lemma handleHabitChange_lookup id0 habit value (prev : list DayRecord) i r :
  prev !! i = Some r ->
  handleHabitChange id0 habit value prev !! i =
    Some (if id r =? id0 then
            {| id := id r; dayNumber := dayNumber r; date := date r;
               metrics := metrics r; isFilled := true;
               habits := set_habit (habits r) habit value |}
          else r).
Proof. intros H. unfold handleHabitChange. rewrite lookup_map, H. reflexivity. Qed.

Lemma handleMetricChange_lookup id0 metric value (prev : list DayRecord) i r :
  prev !! i = Some r ->
  handleMetricChange id0 metric value prev !! i =
    Some (if id r =? id0 then
            {| id := id r; dayNumber := dayNumber r; date := date r;
               habits := habits r; isFilled := true;
               metrics := set_metric (metrics r) metric (numValue value) |}
          else r).
Proof. intros H. unfold handleMetricChange. rewrite lookup_map, H. reflexivity. Qed.

Lemma get_set_habit hs habit value k :
  get_habit (set_habit hs habit value) k =
    if decide (k = habit) then value else get_habit hs k.
Proof. destruct habit, k; reflexivity. Qed.

Lemma get_set_metric ms metric value k :
  get_metric (set_metric ms metric value) k =
    if decide (k = metric) then value else get_metric ms k.
Proof. destruct metric, k; reflexivity. Qed.


Lemma apply_edit_keeps_filled (st : AppState) (e : Edit) (i : nat) (r : DayRecord) :
  records st !! i = Some r -> isFilled r = true ->
  exists r', records (apply_edit st e) !! i = Some r'
             /\ isFilled r' = true /\ id r' = id r.
Proof.
  intros Hi Hf. destruct e as [id0 habit value | id0 metric value | m field value]; simpl.
  - rewrite (handleHabitChange_lookup _ _ _ _ _ _ Hi).
    eexists; split; [reflexivity|]. destruct (id r =? id0); simpl; auto.
  - rewrite (handleMetricChange_lookup _ _ _ _ _ _ Hi).
    eexists; split; [reflexivity|]. destruct (id r =? id0); simpl; auto.
  - exists r. auto.
Qed.

Lemma run_keeps_filled (edits : list Edit) :
  forall (st : AppState) (i : nat) (r : DayRecord),
    records st !! i = Some r -> isFilled r = true ->
    exists r', records (run st edits) !! i = Some r'
               /\ isFilled r' = true /\ id r' = id r.
Proof.
  induction edits as [|e edits IH]; intros st i r Hi Hf; simpl.
  - exists r. auto.
  - destruct (apply_edit_keeps_filled st e i r Hi Hf) as (r1 & H1 & Hf1 & Hid1).
    destruct (IH (apply_edit st e) i r1 H1 Hf1) as (r2 & H2 & Hf2 & Hid2).
    exists r2. repeat split; auto. congruence.
Qed.

(** C9. [isFilled] is monotonic: a record that is filled is still filled,
    at the same position and with the same id, after handleHabitChange,
    after handleMetricChange, and after any sequence of edits. *)
Theorem isFilled_monotonic :
  forall (prev : list DayRecord) (i : nat) (r : DayRecord),
    prev !! i = Some r -> isFilled r = true ->
    (forall id0 habit value,
        exists r', handleHabitChange id0 habit value prev !! i = Some r'
                   /\ isFilled r' = true /\ id r' = id r)
    /\ (forall id0 metric value,
        exists r', handleMetricChange id0 metric value prev !! i = Some r'
                   /\ isFilled r' = true /\ id r' = id r)
    /\ (forall goals0 edits,
        exists r', records (run {| records := prev; goals := goals0 |} edits) !! i = Some r'
                   /\ isFilled r' = true /\ id r' = id r).
Proof.
  intros prev i r Hi Hf. split; [|split].
  - intros id0 habit value.
    exact (apply_edit_keeps_filled {| records := prev; goals := ∅ |}
             (HabitChange id0 habit value) i r Hi Hf).
  - intros id0 metric value.
    exact (apply_edit_keeps_filled {| records := prev; goals := ∅ |}
             (MetricChange id0 metric value) i r Hi Hf).
  - intros goals0 edits.
    exact (run_keeps_filled edits {| records := prev; goals := goals0 |} i r Hi Hf).
Qed.

Lemma isFilled_monotonic_witness :
  exists r', handleHabitChange 2 K_workout false sample_week !! 1%nat = Some r'
             /\ isFilled r' = true /\ id r' = 2.
Proof.
  assert (H : exists r, sample_week !! 1%nat = Some r /\ isFilled r = true /\ id r = 2).
  { vm_compute. eexists. split; [reflexivity|]. split; reflexivity. }
  destruct H as (r & Hr & Hf & Hid).
  destruct (isFilled_monotonic sample_week 1 r Hr Hf) as (Hh & _ & _).
  destruct (Hh 2 K_workout false) as (r' & H1 & H2 & H3).
  exists r'. repeat split; auto. congruence.
Defined.

(** C10. Frame of the two record handlers called with day id [id0]: a
    record with another id is returned unchanged at its position; the
    record with that id keeps its id, dayNumber and date, and the handler
    changes, besides isFilled, only the edited habit (resp. metric) entry;
    the collection keeps its length, and is unchanged altogether when no
    record has the id. *)
Theorem handlers_frame :
  forall (id0 : Z) (prev : list DayRecord),
    (forall habit value,
        let next := handleHabitChange id0 habit value prev in
        length next = length prev
        /\ (forall i r, prev !! i = Some r -> id r <> id0 -> next !! i = Some r)
        /\ (forall i r, prev !! i = Some r -> id r = id0 ->
              exists r', next !! i = Some r'
                /\ id r' = id r /\ dayNumber r' = dayNumber r /\ date r' = date r
                /\ metrics r' = metrics r
                /\ (forall k, k <> habit ->
                      get_habit (habits r') k = get_habit (habits r) k))
        /\ ((forall r, In r prev -> id r <> id0) -> next = prev))
    /\ (forall metric value,
        let next := handleMetricChange id0 metric value prev in
        length next = length prev
        /\ (forall i r, prev !! i = Some r -> id r <> id0 -> next !! i = Some r)
        /\ (forall i r, prev !! i = Some r -> id r = id0 ->
              exists r', next !! i = Some r'
                /\ id r' = id r /\ dayNumber r' = dayNumber r /\ date r' = date r
                /\ habits r' = habits r
                /\ (forall k, k <> metric ->
                      get_metric (metrics r') k = get_metric (metrics r) k))
        /\ ((forall r, In r prev -> id r <> id0) -> next = prev)).
Proof.
  intros id0 prev. split.
  - intros habit value next. subst next. repeat split.
    + unfold handleHabitChange. apply length_map.
    + intros i r Hi Hne. rewrite (handleHabitChange_lookup _ _ _ _ _ _ Hi).
      apply Z.eqb_neq in Hne. rewrite Hne. reflexivity.
    + intros i r Hi Heq. rewrite (handleHabitChange_lookup _ _ _ _ _ _ Hi).
      apply Z.eqb_eq in Heq. rewrite Heq.
      eexists. split; [reflexivity|]. simpl. repeat split.
      intros k Hk. rewrite get_set_habit. destruct (decide (k = habit)); congruence.
    + intros Hnone. unfold handleHabitChange, habit_update. apply map_id_ext.
      intros r Hr. apply Hnone in Hr. apply Z.eqb_neq in Hr. rewrite Hr. reflexivity.
  - intros metric value next. subst next. repeat split.
    + unfold handleMetricChange. apply length_map.
    + intros i r Hi Hne. rewrite (handleMetricChange_lookup _ _ _ _ _ _ Hi).
      apply Z.eqb_neq in Hne. rewrite Hne. reflexivity.
    + intros i r Hi Heq. rewrite (handleMetricChange_lookup _ _ _ _ _ _ Hi).
      apply Z.eqb_eq in Heq. rewrite Heq.
      eexists. split; [reflexivity|]. simpl. repeat split.
      intros k Hk. rewrite get_set_metric. destruct (decide (k = metric)); congruence.
    + intros Hnone. unfold handleMetricChange, metric_update. apply map_id_ext.
      intros r Hr. apply Hnone in Hr. apply Z.eqb_neq in Hr. rewrite Hr. reflexivity.
Qed.

Lemma handlers_frame_witness :
  handleMetricChange 9 K_timeWasted "3" sample_week = sample_week
  /\ handleHabitChange 9 K_noPorn true sample_week = sample_week
  /\ handleHabitChange 2 K_noPorn true sample_week !! 0%nat = sample_week !! 0%nat
  /\ (exists r', handleMetricChange 2 K_timeWasted "3" sample_week !! 1%nat = Some r'
                 /\ id r' = 2 /\ dayNumber r' = 2 /\ date r' = "Jan 2, 2025"%string).
Proof.
  destruct (handlers_frame 9 sample_week) as [Hh Hm].
  destruct (handlers_frame 2 sample_week) as [Hh2 Hm2].
  assert (Hnone : forall r, In r sample_week -> id r <> 9).
  { intros r Hr. vm_compute in Hr.
    repeat (destruct Hr as [<- | Hr]; [vm_compute; discriminate|]). destruct Hr. }
  assert (H0 : exists r, sample_week !! 0%nat = Some r /\ id r <> 2).
  { vm_compute. eexists. split; [reflexivity | discriminate]. }
  assert (H1 : exists r, sample_week !! 1%nat = Some r /\ id r = 2
                         /\ dayNumber r = 2 /\ date r = "Jan 2, 2025"%string).
  { vm_compute. eexists. repeat split. }
  split; [|split; [|split]].
  - destruct (Hm K_timeWasted "3"%string) as (_ & _ & _ & H). exact (H Hnone).
  - destruct (Hh K_noPorn true) as (_ & _ & _ & H). exact (H Hnone).
  - destruct H0 as (r & Hr & Hne).
    destruct (Hh2 K_noPorn true) as (_ & H & _). rewrite Hr. exact (H _ _ Hr Hne).
  - destruct H1 as (r & Hr & Hid & Hday & Hdate).
    destruct (Hm2 K_timeWasted "3"%string) as (_ & _ & H & _).
    destruct (H _ _ Hr Hid) as (r' & Hr' & Hid' & Hday' & Hdate' & _).
    exists r'. split; [exact Hr'|]. repeat split; congruence.
Defined.

(** ** The current streak *)

Lemma current_loop_run_length habit (l : list DayRecord) :
  forall n, current_loop habit l n = (n + run_length habit l)%nat.
Proof.
  induction l as [|r rest IH]; intros n; simpl.
  - lia.
  - unfold flag. destruct (get_habit (habits r) habit); [rewrite IH|]; lia.
Qed.

Lemma sort_insert_perm (x : DayRecord) (l : list DayRecord) :
  Permutation (sort_insert x l) (x :: l).
Proof.
  induction l as [|y l IH]; simpl; [reflexivity|].
  destruct (dayNumber y <=? dayNumber x); [reflexivity|].
  rewrite IH. apply perm_swap.
Qed.

Lemma sort_desc_perm (l : list DayRecord) : Permutation (sort_desc l) l.
Proof.
  induction l as [|x l IH]; simpl; [reflexivity|].
  rewrite sort_insert_perm. constructor. exact IH.
Qed.

Lemma sort_insert_descending (x : DayRecord) (l : list DayRecord) :
  descending l -> descending (sort_insert x l).
Proof.
  unfold descending. induction l as [|y l IH]; intros Hs; simpl.
  - constructor; constructor.
  - inversion Hs as [|? ? Hl Hy]; subst.
    destruct (dayNumber y <=? dayNumber x) eqn:Hyx.
    + apply Z.leb_le in Hyx. constructor; [exact Hs|].
      constructor; [exact Hyx|].
      eapply List.Forall_impl; [|exact Hy]. simpl. intros z Hz. lia.
    + apply Z.leb_gt in Hyx. constructor; [apply IH; exact Hl|].
      eapply Permutation_Forall; [symmetry; apply sort_insert_perm|].
      constructor; [lia | exact Hy].
Qed.

Lemma sort_desc_descending (l : list DayRecord) : descending (sort_desc l).
Proof.
  induction l as [|x l IH]; simpl.
  - constructor.
  - apply sort_insert_descending. exact IH.
Qed.

(** The sort is stable: records with the same day number keep the order
    they had. *)
Lemma sort_insert_stable (d : Z) (x : DayRecord) (l : list DayRecord) :
  List.filter (fun r => dayNumber r =? d) (sort_insert x l)
  = List.filter (fun r => dayNumber r =? d) (x :: l).
Proof.
  induction l as [|y l IH]; [reflexivity|]. simpl sort_insert.
  destruct (dayNumber y <=? dayNumber x) eqn:Hyx; [reflexivity|].
  apply Z.leb_gt in Hyx.
  change (List.filter (fun r => dayNumber r =? d) (y :: sort_insert x l))
    with (if dayNumber y =? d
          then y :: List.filter (fun r => dayNumber r =? d) (sort_insert x l)
          else List.filter (fun r => dayNumber r =? d) (sort_insert x l)).
  rewrite IH. simpl.
  destruct (dayNumber y =? d) eqn:Hy, (dayNumber x =? d) eqn:Hx; try reflexivity.
  apply Z.eqb_eq in Hy, Hx. lia.
Qed.

Lemma sort_desc_stable (d : Z) (l : list DayRecord) :
  List.filter (fun r => dayNumber r =? d) (sort_desc l)
  = List.filter (fun r => dayNumber r =? d) l.
Proof.
  induction l as [|x l IH]; [reflexivity|]. simpl sort_desc.
  rewrite sort_insert_stable. simpl. rewrite IH. reflexivity.
Qed.

(** An ordering by strictly decreasing day number is unique. *)
Lemma descending_unique (l1 : list DayRecord) :
  forall l2, strictly_descending l1 -> descending l2 -> Permutation l1 l2 -> l1 = l2.
Proof.
  unfold strictly_descending, descending.
  induction l1 as [|a l1 IH]; intros l2 H1 H2 Hp.
  - apply Permutation_nil in Hp. congruence.
  - destruct l2 as [|b l2]; [symmetry in Hp; apply Permutation_nil in Hp; discriminate|].
    inversion H1 as [|? ? Hs1 Ha]; subst. inversion H2 as [|? ? Hs2 Hb]; subst.
    assert (Hab : a = b).
    { assert (Hin_a : In a (b :: l2)) by (eapply Permutation_in; [exact Hp|left; reflexivity]).
      assert (Hin_b : In b (a :: l1))
        by (eapply Permutation_in; [symmetry; exact Hp|left; reflexivity]).
      destruct Hin_a as [Heq | Hin_a]; [congruence|].
      destruct Hin_b as [Heq | Hin_b]; [congruence|].
      rewrite List.Forall_forall in Ha, Hb.
      specialize (Ha b Hin_b). specialize (Hb a Hin_a). simpl in *. lia. }
    subst b. f_equal. apply IH; auto.
    eapply Permutation_cons_inv. exact Hp.
Qed.

Lemma calculateStreak_current (records0 : list DayRecord) (habit : HabitKey) :
  current (calculateStreak records0 habit) = current_spec records0 habit.
Proof.
  unfold calculateStreak, current_spec.
  destruct (sort_desc (List.filter isFilled records0)) as [|r rest] eqn:Hs; simpl.
  - reflexivity.
  - change (current_loop habit (r :: rest) 0 = run_length habit (r :: rest)).
    rewrite current_loop_run_length. reflexivity.
Qed.

Lemma run_length_stops habit (l1 : list DayRecord) (r : DayRecord) (l2 : list DayRecord) :
  Forall (fun x => flag habit x = true) l1 -> flag habit r = false ->
  run_length habit (l1 ++ r :: l2) = length l1.
Proof.
  intros Hall Hr. induction Hall as [|x l1 Hx Hall IH]; simpl.
  - rewrite Hr. reflexivity.
  - rewrite Hx, IH. reflexivity.
Qed.

Lemma run_length_all habit (l : list DayRecord) :
  Forall (fun x => flag habit x = true) l -> run_length habit l = length l.
Proof.
  intros Hall. induction Hall as [|x l Hx Hall IH]; simpl; [reflexivity|].
  rewrite Hx, IH. reflexivity.
Qed.

(** C1. The [current] field of calculateStreak: the filled records are
    selected and ordered by dayNumber descending (the order is a permutation
    of the filled records with no day number below a later one, it keeps
    records of equal day number in array order, and it is the only such
    order when the day numbers are distinct); [current] is the
    number of records at the head of that order whose habit flag is true,
    that is the count up to the first filled record whose flag is false;
    records that are not filled have no influence on it, and it is 0 when
    no record is filled. *)
Theorem current_streak_of_filled_records :
  forall (records0 : list DayRecord) (habit : HabitKey),
    let filledSorted := sort_desc (List.filter isFilled records0) in
    Permutation filledSorted (List.filter isFilled records0)
    /\ descending filledSorted
    /\ (forall d, List.filter (fun r => dayNumber r =? d) filledSorted
                  = List.filter (fun r => dayNumber r =? d) (List.filter isFilled records0))
    /\ current (calculateStreak records0 habit) = run_length habit filledSorted
    /\ (forall fs, Permutation fs (List.filter isFilled records0) ->
                   strictly_descending fs ->
                   current (calculateStreak records0 habit) = run_length habit fs)
    /\ (forall l1 r l2, filledSorted = l1 ++ r :: l2 ->
                        Forall (fun x => flag habit x = true) l1 ->
                        flag habit r = false ->
                        current (calculateStreak records0 habit) = length l1)
    /\ (Forall (fun x => flag habit x = true) filledSorted ->
        current (calculateStreak records0 habit) = length filledSorted)
    /\ (forall records1, List.filter isFilled records1 = List.filter isFilled records0 ->
                         current (calculateStreak records1 habit)
                         = current (calculateStreak records0 habit))
    /\ (List.filter isFilled records0 = [] ->
        current (calculateStreak records0 habit) = 0%nat).
Proof.
  intros records0 habit filledSorted. subst filledSorted.
  pose proof (calculateStreak_current records0 habit) as Hc. unfold current_spec in Hc.
  repeat match goal with |- _ /\ _ => split end.
  - apply sort_desc_perm.
  - apply sort_desc_descending.
  - intros d. apply sort_desc_stable.
  - exact Hc.
  - intros fs Hp Hs. rewrite Hc. f_equal. symmetry.
    apply descending_unique; [exact Hs | apply sort_desc_descending |].
    rewrite Hp. symmetry. apply sort_desc_perm.
  - intros l1 r l2 Heq Hall Hr. rewrite Hc, Heq. apply run_length_stops; assumption.
  - intros Hall. rewrite Hc. apply run_length_all. exact Hall.
  - intros records1 Heq. rewrite !calculateStreak_current. unfold current_spec.
    rewrite Heq. reflexivity.
  - intros Hnone. rewrite Hc, Hnone. reflexivity.
Qed.


Lemma current_streak_of_filled_records_witness :
  current (calculateStreak sample_year K_workout) = 1%nat
  /\ current (calculateStreak sample_year K_workout)
     = run_length K_workout (rev (List.filter isFilled sample_year))
  /\ current (calculateStreak (records gap_state) K_workout) = 2%nat
  /\ current (calculateStreak (List.filter isFilled sample_year) K_workout)
     = current (calculateStreak sample_year K_workout)
  /\ current (calculateStreak (generateInitialData 2025) K_workout) = 0%nat.
Proof.
  destruct (current_streak_of_filled_records sample_year K_workout)
    as (_ & _ & _ & _ & Hany & Hstop & _ & Hsame & _).
  pose (d := initial_record 2025 0).
  split; [|split; [|split; [|split]]].
  - refine (Hstop [nth 4 sample_year d] (nth 3 sample_year d)
              [nth 1 sample_year d; nth 0 sample_year d] _ _ _).
    + vm_compute. reflexivity.
    + constructor; [vm_compute; reflexivity | constructor].
    + vm_compute. reflexivity.
  - apply Hany.
    + symmetry. apply Permutation_rev.
    + vm_compute. repeat constructor.
  - destruct (current_streak_of_filled_records (records gap_state) K_workout)
      as (_ & _ & _ & _ & _ & _ & Hall & _).
    rewrite Hall; [vm_compute; reflexivity | vm_compute; repeat constructor].
  - apply Hsame. vm_compute. reflexivity.
  - destruct (current_streak_of_filled_records (generateInitialData 2025) K_workout)
      as (_ & _ & _ & _ & _ & _ & _ & _ & Hnone).
    apply Hnone. vm_compute. reflexivity.
Defined.

(** ** The maximum streak *)


(** The loop over the indices reads the records in array order. *)
Lemma max_loop_by_index habit (l : list DayRecord) :
  forall (pre : list DayRecord) (st : nat * nat),
    fold_left (max_loop_body (pre ++ l) habit) (seq (length pre) (length l)) st
    = fold_left (max_step habit) l st.
Proof.
  induction l as [|r l IH]; intros pre st; simpl; [reflexivity|].
  assert (Hr : (pre ++ r :: l) !! length pre = Some r).
  { rewrite lookup_app_r by lia. rewrite Nat.sub_diag. reflexivity. }
  unfold max_loop_body at 2. rewrite Hr. fold (max_step habit st r).
  specialize (IH (pre ++ [r]) (max_step habit st r)).
  rewrite <- app_assoc in IH. simpl in IH.
  rewrite length_app in IH. simpl in IH. rewrite Nat.add_1_r in IH.
  exact IH.
Qed.

Lemma max_fold_scan habit (l : list DayRecord) :
  forall m t,
    (let '(maxStreak, tempStreak) := fold_left (max_step habit) l (m, t) in
     if (maxStreak <? tempStreak)%nat then tempStreak else maxStreak)
    = scan_spec (List.map (flag habit) l) m t.
Proof.
  induction l as [|r l IH]; intros m t; simpl.
  - destruct (m <? t)%nat eqn:Hmt;
      [apply Nat.ltb_lt in Hmt | apply Nat.ltb_ge in Hmt]; lia.
  - unfold flag at 1. destruct (get_habit (habits r) habit).
    + apply IH.
    + rewrite IH. f_equal.
      destruct (m <? t)%nat eqn:Hmt;
        [apply Nat.ltb_lt in Hmt | apply Nat.ltb_ge in Hmt]; lia.
Qed.

Lemma calculateStreak_max (records0 : list DayRecord) (habit : HabitKey) :
  max (calculateStreak records0 habit) = scan_spec (List.map (flag habit) records0) 0 0.
Proof.
  assert (H : max (calculateStreak records0 habit) = maxStreak_of records0 habit).
  { unfold calculateStreak.
    destruct (length (sort_desc (List.filter isFilled records0)) =? 0)%nat; reflexivity. }
  rewrite H. unfold maxStreak_of.
  pose proof (max_loop_by_index habit records0 [] (0%nat, 0%nat)) as Hi.
  simpl in Hi. rewrite Hi. apply max_fold_scan.
Qed.

Lemma scan_spec_break (l1 l2 : list bool) :
  forall m t, scan_spec (l1 ++ false :: l2) m t = scan_spec l2 (scan_spec l1 m t) 0.
Proof.
  induction l1 as [|b l1 IH]; intros m t; simpl; [reflexivity|].
  destruct b; apply IH.
Qed.

Lemma scan_spec_running_max (l : list bool) :
  forall m t, scan_spec l m t = Nat.max m (scan_spec l 0 t).
Proof.
  induction l as [|b l IH]; intros m t; simpl.
  - lia.
  - destruct b.
    + apply IH.
    + rewrite (IH (Nat.max m t)), (IH (Nat.max 0 t)). lia.
Qed.

(** ** The invariants hold in every state of a session *)

Lemma within_or_zero_clamped (n : number) :
  Number.within 0 24
    (Number.min (Number.of_Z 24)
       (Number.max (Number.of_Z 0) (Number.or n (Number.of_Z 0)))).
Proof.
  unfold Number.or, Number.of_Z.
  destruct n as [x | | |]; simpl.
  - destruct (Qeq_bool x 0) eqn:Hx0; simpl.
    + split; [apply Qle_refl | discriminate].
    + destruct (Qle_bool (inject_Z 0) x) eqn:H0x; simpl.
      * apply Qle_bool_iff in H0x.
        destruct (Qle_bool (inject_Z 24) x) eqn:H24; simpl.
        -- split; [discriminate | apply Qle_refl].
        -- split; [exact H0x|].
           destruct (Qlt_le_dec x (inject_Z 24)) as [Hlt | Hle].
           ++ apply Qlt_le_weak. exact Hlt.
           ++ apply Qle_bool_iff in Hle. congruence.
      * split; [apply Qle_refl | discriminate].
  - split; [discriminate | apply Qle_refl].
  - split; [apply Qle_refl | discriminate].
  - split; [apply Qle_refl | discriminate].
Qed.

Lemma numValue_within (value : string) : Number.within 0 24 (numValue value).
Proof. unfold numValue. apply within_or_zero_clamped. Qed.

Lemma or_zero_not_NaN (n : number) : Number.or n (Number.of_Z 0) <> NaN.
Proof. destruct n; simpl; try discriminate. unfold Number.or. simpl.
  destruct (Qeq_bool q 0); discriminate. Qed.

Lemma generateInitialData_inv (year : Z) : records_inv (generateInitialData year).
Proof.
  unfold records_inv, generateInitialData, days.
  split; [|split; [|split]].
  - rewrite List.map_map. reflexivity.
  - rewrite List.map_map. reflexivity.
  - apply List.Forall_forall. intros r Hr. apply in_map_iff in Hr.
    destruct Hr as (i & <- & _). intros _ habit. destruct habit; reflexivity.
  - apply List.Forall_forall. intros r Hr. apply in_map_iff in Hr.
    destruct Hr as (i & <- & _). intros metric.
    destruct metric; simpl; split; discriminate.
Qed.

Lemma handleHabitChange_inv id0 habit value (prev : list DayRecord) :
  records_inv prev -> records_inv (handleHabitChange id0 habit value prev).
Proof.
  intros (Hid & Hday & Hun & Hmet). unfold records_inv, handleHabitChange, habit_update.
  split; [|split; [|split]].
  - rewrite <- Hid, List.map_map. apply List.map_ext. intros r. destruct (id r =? id0); reflexivity.
  - rewrite <- Hday, List.map_map. apply List.map_ext. intros r. destruct (id r =? id0); reflexivity.
  - apply List.Forall_forall. intros r' Hr'. apply in_map_iff in Hr'.
    destruct Hr' as (r & <- & Hr). rewrite List.Forall_forall in Hun.
    destruct (id r =? id0); [simpl; discriminate | apply Hun; exact Hr].
  - apply List.Forall_forall. intros r' Hr'. apply in_map_iff in Hr'.
    destruct Hr' as (r & <- & Hr). rewrite List.Forall_forall in Hmet.
    destruct (id r =? id0); [simpl|]; apply Hmet; exact Hr.
Qed.

Lemma handleMetricChange_inv id0 metric value (prev : list DayRecord) :
  records_inv prev -> records_inv (handleMetricChange id0 metric value prev).
Proof.
  intros (Hid & Hday & Hun & Hmet). unfold records_inv, handleMetricChange, metric_update.
  split; [|split; [|split]].
  - rewrite <- Hid, List.map_map. apply List.map_ext. intros r. destruct (id r =? id0); reflexivity.
  - rewrite <- Hday, List.map_map. apply List.map_ext. intros r. destruct (id r =? id0); reflexivity.
  - apply List.Forall_forall. intros r' Hr'. apply in_map_iff in Hr'.
    destruct Hr' as (r & <- & Hr). rewrite List.Forall_forall in Hun.
    destruct (id r =? id0); [simpl; discriminate | apply Hun; exact Hr].
  - apply List.Forall_forall. intros r' Hr'. apply in_map_iff in Hr'.
    destruct Hr' as (r & <- & Hr). rewrite List.Forall_forall in Hmet.
    destruct (id r =? id0); [simpl | apply Hmet; exact Hr].
    intros k. rewrite get_set_metric. destruct (decide (k = metric)).
    + apply numValue_within.
    + apply Hmet. exact Hr.
Qed.

Lemma initialGoals_inv : goals_inv initialGoals.
Proof.
  intros m Hm. simpl in Hm.
  repeat (destruct Hm as [<- | Hm];
          [eexists; exists (Number.of_Z 150), (Number.of_Z 30);
           split; [vm_compute; reflexivity|];
           split; [reflexivity|]; split; [reflexivity|]; split; discriminate|]).
  destruct Hm.
Qed.

Lemma updateGoal_inv m field value (prev : gmap string MonthlyGoal) :
  goals_inv prev -> goals_inv (updateGoal m field value prev).
Proof.
  intros Hinv m' Hm'. destruct (Hinv m' Hm') as (goal & t & l & Hg & Ht & Hl & Htn & Hln).
  unfold updateGoal. destruct (decide (m = m')) as [-> | Hne].
  - rewrite lookup_insert_eq, Hg. simpl.
    destruct field; simpl.
    + eexists; eexists; exists l. split; [reflexivity|]. simpl.
      split; [reflexivity|]. split; [exact Hl|]. split; [apply or_zero_not_NaN | exact Hln].
    + eexists; exists t; eexists. split; [reflexivity|]. simpl.
      split; [exact Ht|]. split; [reflexivity|]. split; [exact Htn | apply or_zero_not_NaN].
  - rewrite lookup_insert_ne by exact Hne. exists goal, t, l. auto.
Qed.

Lemma run_snoc (st : AppState) (edits : list Edit) (e : Edit) :
  run st (edits ++ [e]) = apply_edit (run st edits) e.
Proof. unfold run. rewrite fold_left_app. reflexivity. Qed.

Lemma reachable_inv (st : AppState) :
  reachable st -> records_inv (records st) /\ goals_inv (goals st).
Proof.
  intros (year & edits & ->). induction edits as [|e edits IH] using rev_ind.
  - simpl. split; [apply generateInitialData_inv | apply initialGoals_inv].
  - rewrite run_snoc. destruct IH as [Hr Hg].
    destruct e as [id0 habit value | id0 metric value | m field value]; simpl.
    + split; [apply handleHabitChange_inv; exact Hr | exact Hg].
    + split; [apply handleMetricChange_inv; exact Hr | exact Hg].
    + split; [exact Hr | apply updateGoal_inv; exact Hg].
Qed.

Lemma reachable_initial (year : Z) : reachable (initialState year).
Proof. exists year, []. reflexivity. Qed.

Lemma reachable_run (year : Z) (edits : list Edit) :
  reachable (run (initialState year) edits).
Proof. exists year, edits. reflexivity. Qed.

Lemma habit_update_id id0 habit value r : id (habit_update id0 habit value r) = id r.
Proof. unfold habit_update. destruct (id r =? id0); reflexivity. Qed.

Lemma habit_update_dayNumber id0 habit value r :
  dayNumber (habit_update id0 habit value r) = dayNumber r.
Proof. unfold habit_update. destruct (id r =? id0); reflexivity. Qed.

Lemma habit_update_hit id0 habit value r :
  id r = id0 ->
  isFilled (habit_update id0 habit value r) = true
  /\ flag habit (habit_update id0 habit value r) = value.
Proof.
  intros H. apply Z.eqb_eq in H. unfold habit_update. rewrite H. simpl. split; [reflexivity|].
  unfold flag. simpl. rewrite get_set_habit. destruct (decide (habit = habit)); congruence.
Qed.

Lemma habit_update_miss id0 habit value r :
  id r <> id0 -> habit_update id0 habit value r = r.
Proof. intros H. apply Z.eqb_neq in H. unfold habit_update. rewrite H. reflexivity. Qed.

Lemma scan_spec_ext_filled habit (l : list DayRecord) :
  Forall (fun r => isFilled r = false -> flag habit r = false) l ->
  List.map (fun r => isFilled r && flag habit r) l = List.map (flag habit) l.
Proof.
  intros H. induction H as [|r l Hr Hl IH]; simpl; [reflexivity|].
  rewrite IH. f_equal. destruct (isFilled r); [reflexivity|].
  rewrite Hr; reflexivity.
Qed.

(** C2. The [max] field of calculateStreak is the result of one scan of the
    records in array order with a running counter: a true habit flag
    increments it, a false flag compares it with the running maximum and
    resets it, and a last comparison follows the scan.  A record whose flag
    is false splits the scan: the maximum is the larger of the maxima on
    either side.  The scan reads the flag only: when the records that are
    not filled have a false flag, it gives the same result with a day that
    is not filled read as false.  In every state of a session the array is
    in day order and a record that is not filled has a false flag, so a day
    that is not filled breaks a streak like an explicit false, and logging
    an explicit false on such a day leaves [max] as it was. *)
Theorem max_streak_scan :
  forall habit : HabitKey,
    (forall records0,
        max (calculateStreak records0 habit)
        = scan_spec (List.map (flag habit) records0) 0 0)
    /\ (forall l1 r l2, flag habit r = false ->
          max (calculateStreak (l1 ++ r :: l2) habit)
          = Nat.max (max (calculateStreak l1 habit)) (max (calculateStreak l2 habit)))
    /\ (forall records0,
          Forall (fun r => isFilled r = false -> flag habit r = false) records0 ->
          max (calculateStreak records0 habit)
          = scan_spec (List.map (fun r => isFilled r && flag habit r) records0) 0 0)
    /\ (forall st, reachable st ->
          List.map dayNumber (records st) = days
          /\ Forall (fun r => isFilled r = false -> flag habit r = false) (records st)
          /\ max (calculateStreak (records st) habit)
             = scan_spec (List.map (fun r => isFilled r && flag habit r) (records st)) 0 0)
    /\ (forall st d, reachable st ->
          (forall r, In r (records st) -> id r = d -> isFilled r = false) ->
          max (calculateStreak (handleHabitChange d habit false (records st)) habit)
          = max (calculateStreak (records st) habit)).
Proof.
  intros habit. split; [|split; [|split; [|split]]].
  - intros records0. apply calculateStreak_max.
  - intros l1 r l2 Hr. rewrite !calculateStreak_max.
    rewrite List.map_app. simpl. rewrite Hr, scan_spec_break.
    apply scan_spec_running_max.
  - intros records0 Hun.
    rewrite calculateStreak_max, (scan_spec_ext_filled habit _ Hun). reflexivity.
  - intros st Hst. destruct (reachable_inv st Hst) as [(_ & Hday & Hun & _) _].
    assert (Hun' : Forall (fun r => isFilled r = false -> flag habit r = false) (records st)).
    { eapply List.Forall_impl; [|exact Hun]. simpl. intros r Hr Hf. apply Hr. exact Hf. }
    split; [exact Hday|]. split; [exact Hun'|].
    rewrite calculateStreak_max, (scan_spec_ext_filled habit _ Hun'). reflexivity.
  - intros st d Hst Hd. destruct (reachable_inv st Hst) as [(_ & _ & Hun & _) _].
    rewrite !calculateStreak_max. f_equal.
    unfold handleHabitChange. rewrite List.map_map. apply List.map_ext_in.
    intros r Hr. destruct (Z.eq_dec (id r) d) as [Heq | Hne].
    + destruct (habit_update_hit d habit false r Heq) as [_ ->].
      rewrite List.Forall_forall in Hun. symmetry. apply (Hun r Hr). apply (Hd r Hr Heq).
    + rewrite habit_update_miss by exact Hne. reflexivity.
Qed.

Lemma max_streak_scan_witness :
  max (calculateStreak sample_year K_workout)
  = scan_spec (List.map (fun r => isFilled r && flag K_workout r) sample_year) 0 0
  /\ max (calculateStreak (firstn 2 sample_year ++ nth 2 sample_year (initial_record 2025 0)
                             :: skipn 3 sample_year) K_workout)
     = Nat.max (max (calculateStreak (firstn 2 sample_year) K_workout))
               (max (calculateStreak (skipn 3 sample_year) K_workout))
  /\ max (calculateStreak
            (handleHabitChange 3 K_workout false (records (initialState 2025))) K_workout)
     = max (calculateStreak (records (initialState 2025)) K_workout).
Proof.
  destruct (max_streak_scan K_workout) as (_ & Hbreak & Hun & Hreach & Hno).
  split; [|split].
  - destruct (Hreach sample_state (reachable_run 2025 _)) as (_ & Hfalse & _).
    exact (Hun sample_year Hfalse).
  - apply Hbreak. vm_compute. reflexivity.
  - apply (Hno (initialState 2025) 3 (reachable_initial 2025)).
    intros r Hr _. change (In r (generateInitialData 2025)) in Hr.
    unfold generateInitialData in Hr. apply in_map_iff in Hr. destruct Hr as (i & <- & _). reflexivity.
Defined.

(** C7. [max >= current] is not guaranteed: after logging a workout on
    day 1 and on day 3 of a fresh year, with day 2 untouched, calculateStreak
    returns current = 2 and max = 1 for the workout habit. *)
Theorem current_can_exceed_max :
  exists (st : AppState) (habit : HabitKey),
    reachable st
    /\ calculateStreak (records st) habit = {| current := 2; max := 1 |}
    /\ (max (calculateStreak (records st) habit)
        < current (calculateStreak (records st) habit))%nat.
Proof.
  exists gap_state, K_workout. split; [apply reachable_run|].
  assert (H : calculateStreak (records gap_state) K_workout = {| current := 2; max := 1 |})
    by (vm_compute; reflexivity).
  rewrite H. simpl. split; [reflexivity | lia].
Qed.

(** ** Toggling the habit of the most recently filled day *)

Lemma head_sort_insert (x : DayRecord) (l : list DayRecord) :
  head (sort_insert x l)
  = match head l with
    | None => Some x
    | Some y => if dayNumber y <=? dayNumber x then Some x else Some y
    end.
Proof.
  destruct l as [|y l]; simpl; [reflexivity|].
  destruct (dayNumber y <=? dayNumber x); reflexivity.
Qed.

Lemma head_sort_desc (l : list DayRecord) : head (sort_desc l) = first_max l.
Proof.
  induction l as [|x l IH]; simpl; [reflexivity|].
  rewrite head_sort_insert, IH. reflexivity.
Qed.

Lemma first_max_in (l : list DayRecord) (y : DayRecord) :
  first_max l = Some y -> In y l.
Proof.
  revert y. induction l as [|x l IH]; intros y; simpl; [discriminate|].
  destruct (first_max l) as [w|].
  - destruct (dayNumber w <=? dayNumber x); intros [= <-]; [left; reflexivity|].
    right. apply IH. reflexivity.
  - intros [= <-]. left. reflexivity.
Qed.

Lemma first_max_ge (l : list DayRecord) (y : DayRecord) :
  first_max l = Some y -> forall u, In u l -> dayNumber u <= dayNumber y.
Proof.
  revert y. induction l as [|x l IH]; intros y; simpl; [discriminate|].
  destruct (first_max l) as [w|] eqn:Hw.
  - specialize (IH w eq_refl).
    destruct (dayNumber w <=? dayNumber x) eqn:Hwx; intros [= <-] u [<- | Hu].
    + lia.
    + apply Z.leb_le in Hwx. specialize (IH u Hu). lia.
    + apply Z.leb_gt in Hwx. lia.
    + apply IH. exact Hu.
  - intros [= <-] u [<- | Hu]; [lia|].
    destruct l as [|x' l']; [destruct Hu|]. simpl in Hw.
    destruct (first_max l') as [w'|]; [destruct (dayNumber w' <=? dayNumber x')|]; discriminate.
Qed.

Lemma first_max_none (l : list DayRecord) : first_max l = None -> l = [].
Proof.
  destruct l as [|x l]; [reflexivity|]. simpl.
  destruct (first_max l) as [w|]; [destruct (dayNumber w <=? dayNumber x)|]; discriminate.
Qed.

(** When the most recently filled day has id [d], it still has after
    handleHabitChange on [d], whatever records the edit fills. *)
Lemma first_max_habit_update d habit value (prev : list DayRecord) :
  forall r0, first_max (List.filter isFilled prev) = Some r0 -> id r0 = d ->
    exists z, first_max (List.filter isFilled (List.map (habit_update d habit value) prev))
              = Some z /\ id z = d.
Proof.
  set (f := habit_update d habit value).
  induction prev as [|x xs IH]; intros r0 Hold Hid; simpl in *; [discriminate|].
  destruct (Z.eq_dec (id x) d) as [Hx | Hx].
  - (* the edit fills and updates [x] *)
    destruct (habit_update_hit d habit value x Hx) as [Hfx _]. fold f in Hfx.
    rewrite Hfx. simpl.
    destruct (first_max (List.filter isFilled (List.map f xs))) as [z|] eqn:Hnew.
    2:{ exists (f x). split; [reflexivity|]. unfold f. rewrite habit_update_id. exact Hx. }
    destruct (dayNumber z <=? dayNumber (f x)) eqn:Hzx.
    { exists (f x). split; [reflexivity|]. unfold f. rewrite habit_update_id. exact Hx. }
    exists z. split; [reflexivity|].
    apply Z.leb_gt in Hzx. unfold f in Hzx. rewrite habit_update_dayNumber in Hzx.
    pose proof (first_max_in _ _ Hnew) as Hin.
    apply List.filter_In in Hin. destruct Hin as [Hin Hzf].
    apply in_map_iff in Hin. destruct Hin as (u & Hfu & Hu).
    destruct (Z.eq_dec (id u) d) as [Hud | Hud].
    { rewrite <- Hfu. unfold f. rewrite habit_update_id. exact Hud. }
    unfold f in Hfu. rewrite (habit_update_miss _ _ _ _ Hud) in Hfu. subst u.
    assert (Hzold : In z (List.filter isFilled xs)) by (apply List.filter_In; auto).
    destruct (first_max (List.filter isFilled xs)) as [w|] eqn:Hw.
    2:{ apply first_max_none in Hw. rewrite Hw in Hzold. destruct Hzold. }
    pose proof (first_max_ge _ _ Hw z Hzold) as Hzw.
    assert (Hw0 : w = r0).
    { destruct (isFilled x); simpl in Hold.
      - rewrite Hw in Hold.
        destruct (dayNumber w <=? dayNumber x) eqn:Hwx.
        + apply Z.leb_le in Hwx. lia.
        + congruence.
      - congruence. }
    subst w. destruct (IH r0 eq_refl Hid) as (z' & Hz' & Hidz'). congruence.
  - (* [x] is left as it is *)
    assert (Hfx_eq : f x = x) by (apply habit_update_miss; exact Hx).
    rewrite !Hfx_eq.
    destruct (isFilled x) eqn:Hfx; simpl in *.
    2:{ apply (IH r0); assumption. }
    destruct (first_max (List.filter isFilled xs)) as [w|] eqn:Hw.
    2:{ injection Hold as <-. contradiction. }
    destruct (dayNumber w <=? dayNumber x) eqn:Hwx.
    { injection Hold as <-. contradiction. }
    injection Hold as <-. apply Z.leb_gt in Hwx.
    destruct (IH w eq_refl Hid) as (z & Hz & Hidz). rewrite Hz.
    assert (Hfw : In (f w) (List.filter isFilled (List.map f xs))).
    { apply first_max_in in Hw. apply List.filter_In in Hw. destruct Hw as [Hw _].
      apply List.filter_In. split; [apply in_map; exact Hw|].
      apply (habit_update_hit d habit value w Hid). }
    pose proof (first_max_ge _ _ Hz _ Hfw) as Hge.
    unfold f in Hge. rewrite habit_update_dayNumber in Hge.
    assert (Hzx : (dayNumber z <=? dayNumber x) = false) by (apply Z.leb_gt; lia).
    rewrite Hzx. exists z. split; [reflexivity | exact Hidz].
Qed.

Lemma filter_map_same_filled (f : DayRecord -> DayRecord) (l : list DayRecord) :
  (forall x, In x l -> isFilled (f x) = isFilled x) ->
  List.filter isFilled (List.map f l) = List.map f (List.filter isFilled l).
Proof.
  induction l as [|x l IH]; intros H; simpl; [reflexivity|].
  rewrite (H x) by (left; reflexivity).
  rewrite IH by (intros y Hy; apply H; right; exact Hy).
  destruct (isFilled x); reflexivity.
Qed.

Lemma sort_insert_map (f : DayRecord -> DayRecord) (x : DayRecord) (l : list DayRecord) :
  (forall y, dayNumber (f y) = dayNumber y) ->
  sort_insert (f x) (List.map f l) = List.map f (sort_insert x l).
Proof.
  intros H. induction l as [|y l IH]; simpl; [reflexivity|].
  rewrite !H. destruct (dayNumber y <=? dayNumber x); simpl; [reflexivity|].
  rewrite IH. reflexivity.
Qed.

Lemma sort_desc_map (f : DayRecord -> DayRecord) (l : list DayRecord) :
  (forall y, dayNumber (f y) = dayNumber y) ->
  sort_desc (List.map f l) = List.map f (sort_desc l).
Proof.
  intros H. induction l as [|x l IH]; simpl; [reflexivity|].
  rewrite IH. apply sort_insert_map. exact H.
Qed.

Lemma NoDup_map_eq {A B : Type} (g : A -> B) (l : list A) :
  List.NoDup (List.map g l) -> forall x y, In x l -> In y l -> g x = g y -> x = y.
Proof.
  induction l as [|a l IH]; intros Hnd x y Hx Hy Hg; [destruct Hx|].
  simpl in Hnd. apply List.NoDup_cons_iff in Hnd. destruct Hnd as [Hna Hnd].
  destruct Hx as [<- | Hx], Hy as [<- | Hy].
  - reflexivity.
  - exfalso. apply Hna. rewrite Hg. apply in_map. exact Hy.
  - exfalso. apply Hna. rewrite <- Hg. apply in_map. exact Hx.
  - apply IH; assumption.
Qed.

(** C6, amended.  When the most recently filled day has the
    habit flag false, [current] is 0; after handleHabitChange sets the flag
    on that day, [current] is at least 1, so it is strictly larger and never
    smaller; with unique ids it is exactly 1 plus the number of consecutive
    true flags on the filled days just before that day, which can be more
    than 1. *)
Theorem toggle_latest_filled_day :
  forall (records0 : list DayRecord) (habit : HabitKey)
         (r : DayRecord) (rest : list DayRecord),
    sort_desc (List.filter isFilled records0) = r :: rest ->
    flag habit r = false ->
    current (calculateStreak records0 habit) = 0%nat
    /\ (current (calculateStreak records0 habit)
        < current (calculateStreak (handleHabitChange (id r) habit true records0) habit))%nat
    /\ (List.NoDup (List.map id records0) ->
        current (calculateStreak (handleHabitChange (id r) habit true records0) habit)
        = S (run_length habit rest)).
Proof.
  intros records0 habit r rest Hsort Hflag.
  assert (H0 : current (calculateStreak records0 habit) = 0%nat).
  { rewrite calculateStreak_current. unfold current_spec. rewrite Hsort. simpl.
    rewrite Hflag. reflexivity. }
  unfold handleHabitChange. set (f := habit_update (id r) habit true).
  split; [exact H0|]. split.
  - rewrite H0, calculateStreak_current. unfold current_spec.
    assert (Hold : first_max (List.filter isFilled records0) = Some r).
    { rewrite <- head_sort_desc, Hsort. reflexivity. }
    destruct (first_max_habit_update (id r) habit true records0 r Hold eq_refl)
      as (z & Hz & Hidz).
    fold f in Hz. rewrite <- head_sort_desc in Hz.
    destruct (sort_desc (List.filter isFilled (List.map f records0))) as [|z' new_rest] eqn:Hnew;
      [discriminate|].
    injection Hz as ->.
    assert (Hin : In z (List.filter isFilled (List.map f records0))).
    { eapply Permutation_in; [apply sort_desc_perm|]. rewrite Hnew. left. reflexivity. }
    apply List.filter_In in Hin. destruct Hin as [Hin _].
    apply in_map_iff in Hin. destruct Hin as (u & <- & _).
    unfold f in Hidz. rewrite habit_update_id in Hidz.
    destruct (habit_update_hit (id r) habit true u Hidz) as [_ Htrue]. fold f in Htrue.
    simpl. rewrite Htrue. lia.
  - intros Hnd.
    assert (Hperm : Permutation (r :: rest) (List.filter isFilled records0))
      by (rewrite <- Hsort; apply sort_desc_perm).
    assert (Hr_in : In r records0 /\ isFilled r = true).
    { apply List.filter_In. eapply Permutation_in; [exact Hperm | left; reflexivity]. }
    destruct Hr_in as [Hr_in Hr_filled].
    assert (Hsame : forall x, In x records0 -> isFilled (f x) = isFilled x).
    { intros x Hx. destruct (Z.eq_dec (id x) (id r)) as [Heq | Hne].
      - assert (x = r) by (eapply NoDup_map_eq; eauto). subst x.
        rewrite Hr_filled. apply (habit_update_hit (id r) habit true r eq_refl).
      - unfold f. rewrite habit_update_miss by exact Hne. reflexivity. }
    rewrite calculateStreak_current. unfold current_spec.
    rewrite (filter_map_same_filled f records0 Hsame).
    rewrite (sort_desc_map f) by (intros y; apply habit_update_dayNumber).
    rewrite Hsort. simpl.
    destruct (habit_update_hit (id r) habit true r eq_refl) as [_ Htrue]. fold f in Htrue.
    rewrite Htrue. f_equal. f_equal.
    apply map_id_ext. intros x Hx. unfold f. apply habit_update_miss. intros Heq.
    assert (Hnd_sorted : List.NoDup (r :: rest)).
    { eapply Permutation_NoDup; [symmetry; exact Hperm|].
      apply List.NoDup_filter. eapply List.NoDup_map_inv. exact Hnd. }
    apply List.NoDup_cons_iff in Hnd_sorted. destruct Hnd_sorted as [Hnot _].
    assert (Hx_in : In x records0).
    { assert (Hx' : In x (List.filter isFilled records0))
        by (eapply Permutation_in; [exact Hperm | right; exact Hx]).
      apply List.filter_In in Hx'. tauto. }
    assert (x = r) by (eapply NoDup_map_eq; eauto). subst x. contradiction.
Qed.

Lemma toggle_latest_filled_day_witness :
  current (calculateStreak sample_week K_noPorn) = 0%nat
  /\ current (calculateStreak (handleHabitChange 2 K_noPorn true sample_week) K_noPorn)
     = 1%nat.
Proof.
  pose (d := initial_record 2025 0).
  assert (Hsort : sort_desc (List.filter isFilled sample_week)
                  = nth 1 sample_week d :: [nth 0 sample_week d])
    by (vm_compute; reflexivity).
  assert (Hflag : flag K_noPorn (nth 1 sample_week d) = false) by (vm_compute; reflexivity).
  destruct (toggle_latest_filled_day sample_week K_noPorn _ _ Hsort Hflag) as (H0 & _ & H1).
  split; [exact H0|].
  assert (Hnd : List.NoDup (List.map id sample_week)).
  { vm_compute. repeat (constructor; [simpl; intuition discriminate|]). constructor. }
  exact (H1 Hnd).
Defined.

(** C6 as the specification states it fails: with workouts logged on days
    1 and 2 and a missed workout logged on day 3, the most recently filled
    day is day 3 with the flag false and [current] is 0; toggling the
    workout of day 3 to true makes [current] 3, neither 0 nor 1. *)
Lemma toggle_adds_three :
  (exists r rest,
      sort_desc (List.filter isFilled (records three_day_state)) = r :: rest
      /\ id r = 3 /\ flag K_workout r = false)
  /\ current (calculateStreak (records three_day_state) K_workout) = 0%nat
  /\ current (calculateStreak
                (handleHabitChange 3 K_workout true (records three_day_state)) K_workout)
     = 3%nat.
Proof.
  split; [|split].
  - eexists. eexists. split; [vm_compute; reflexivity|]. split; reflexivity.
  - vm_compute. reflexivity.
  - vm_compute. reflexivity.
Qed.

(** ** The metric handler *)

Lemma Qle_bool_false (x y : Q) : Qle_bool x y = false -> (y < x)%Q.
Proof.
  intros H. destruct (Qlt_le_dec y x) as [Hlt | Hle]; [exact Hlt|].
  apply Qle_bool_iff in Hle. congruence.
Qed.

Ltac qbools :=
  repeat match goal with
    | H : Qle_bool _ _ = true |- _ => apply Qle_bool_iff in H
    | H : Qle_bool _ _ = false |- _ => apply Qle_bool_false in H
    | H : Qeq_bool _ _ = true |- _ => apply Qeq_bool_iff in H
    | H : Qeq_bool _ _ = false |- _ => apply Qeq_bool_neq in H
    end.

Lemma numValue_clamp (value : string) :
  numValue value = Num (clamp_0_24 (parseFloat value)).
Proof.
  unfold numValue, Number.or, Number.of_Z.
  destruct (parseFloat value) as [x | | |]; simpl; try reflexivity.
  change (inject_Z 0) with 0%Q. change (inject_Z 24) with 24%Q.
  destruct (Qeq_bool x 0) eqn:H1; simpl.
  - destruct (Qle_bool x 0) eqn:H2; [reflexivity|]. qbools. lra.
  - destruct (Qle_bool 0 x) eqn:H3; simpl.
    + destruct (Qle_bool x 0) eqn:H2; [qbools; lra|].
      destruct (Qle_bool 24 x) eqn:H4; reflexivity.
    + destruct (Qle_bool x 0) eqn:H2; [reflexivity|]. qbools. lra.
Qed.

(** C8. handleMetricChange parses the input to a number, with input that is
    not a number (the empty string for one) counting as 0, clamps it to
    [0, 24], stores it as the edited metric of the record with the given id
    and marks that record filled; the stored value is a finite number in
    [0, 24], the handler keeps every metric of the collection in [0, 24], and
    so is every metric in every state of a session. *)
Theorem metric_edit_clamped :
  forall (id0 : Z) (metric : MetricKey) (value : string) (prev : list DayRecord),
    numValue value = Num (clamp_0_24 (parseFloat value))
    /\ Number.within 0 24 (numValue value)
    /\ (parseFloat value = NaN -> numValue value = Num 0)
    /\ parseFloat "" = NaN
    /\ (forall i r, prev !! i = Some r -> id r = id0 ->
          exists r', handleMetricChange id0 metric value prev !! i = Some r'
            /\ get_metric (metrics r') metric = numValue value
            /\ isFilled r' = true)
    /\ (Forall (fun r => forall k, Number.within 0 24 (get_metric (metrics r) k)) prev ->
        Forall (fun r => forall k, Number.within 0 24 (get_metric (metrics r) k))
          (handleMetricChange id0 metric value prev))
    /\ (forall st, reachable st ->
          Forall (fun r => forall k, Number.within 0 24 (get_metric (metrics r) k))
            (records st)).
Proof.
  intros id0 metric value prev.
  split; [apply numValue_clamp|]. split; [apply numValue_within|].
  split; [intros H; rewrite numValue_clamp, H; reflexivity|].
  split; [reflexivity|]. split; [|split].
  - intros i r Hi Hid. rewrite (handleMetricChange_lookup _ _ _ _ _ _ Hi).
    apply Z.eqb_eq in Hid. rewrite Hid. eexists. split; [reflexivity|]. simpl.
    split; [|reflexivity]. rewrite get_set_metric.
    destruct (decide (metric = metric)); congruence.
  - intros Hprev. apply List.Forall_forall. intros r' Hr'.
    unfold handleMetricChange, metric_update in Hr'. apply in_map_iff in Hr'.
    destruct Hr' as (r & <- & Hr). rewrite List.Forall_forall in Hprev.
    destruct (id r =? id0); [simpl | apply Hprev; exact Hr].
    intros k. rewrite get_set_metric. destruct (decide (k = metric)).
    + apply numValue_within.
    + apply Hprev. exact Hr.
  - intros st Hst. destruct (reachable_inv st Hst) as [(_ & _ & _ & H) _]. exact H.
Qed.

Lemma metric_edit_clamped_witness :
  (exists r', handleMetricChange 2 K_studyHours "30" sample_year !! 1%nat = Some r'
              /\ get_metric (metrics r') K_studyHours = Num 24 /\ isFilled r' = true)
  /\ numValue "abc" = Num 0
  /\ Forall (fun r => forall k, Number.within 0 24 (get_metric (metrics r) k)) sample_year
  /\ Forall (fun r => forall k, Number.within 0 24 (get_metric (metrics r) k))
       (handleMetricChange 2 K_studyHours "30" sample_year).
Proof.
  destruct (metric_edit_clamped 2 K_studyHours "30" sample_year)
    as (_ & _ & _ & _ & Hstore & Hkeep & Hreach).
  destruct (metric_edit_clamped 2 K_studyHours "abc" sample_year)
    as (_ & _ & Hnan & _).
  pose proof (Hreach sample_state (reachable_run 2025 _)) as Hsample.
  split; [|split; [|split]].
  - assert (H : exists r, sample_year !! 1%nat = Some r /\ id r = 2).
    { vm_compute. eexists. split; reflexivity. }
    destruct H as (r & Hr & Hid).
    destruct (Hstore 1%nat r Hr Hid) as (r' & H1 & H2 & H3).
    exists r'. split; [exact H1|]. split; [|exact H3].
    rewrite H2. vm_compute. reflexivity.
  - apply Hnan. vm_compute. reflexivity.
  - exact Hsample.
  - exact (Hkeep Hsample).
Defined.

(** ** Goal compliance *)

Lemma double_of_Z (z : Z) : Z.abs z <= 2 ^ 53 -> double (inject_Z z).
Proof. apply double_inject. Qed.

Lemma double_0 : double 0.
Proof. reflexivity. Qed.

Lemma double_1 : double 1.
Proof. vm_compute. reflexivity. Qed.

Lemma double_100 : double 100.
Proof. vm_compute. reflexivity. Qed.

Lemma of_Z_max (z : Z) :
  Number.max (Number.of_Z 0) (Number.of_Z z) = Number.of_Z (Z.max 0 z).
Proof.
  unfold Number.max, Number.of_Z, Number.le.
  destruct (Qle_bool (inject_Z 0) (inject_Z z)) eqn:H.
  - apply Qle_bool_iff in H. rewrite <- Zle_Qle in H. rewrite Z.max_r by exact H. reflexivity.
  - apply Qle_bool_false in H. rewrite <- Zlt_Qlt in H. rewrite Z.max_l by lia. reflexivity.
Qed.

Lemma within_of_Z (lo hi z : Z) :
  lo <= z <= hi -> Number.within (inject_Z lo) (inject_Z hi) (Number.of_Z z).
Proof. intros [H1 H2]. unfold Number.within, Number.of_Z. rewrite <- !Zle_Qle. auto. Qed.

(** [Math.round] keeps a value between two integers between them. *)
Lemma round_between (p : Q) (lo hi : Z) :
  (inject_Z lo <= p)%Q -> (p <= inject_Z hi)%Q -> lo <= Qfloor (p + (1 # 2)) <= hi.
Proof.
  intros Hlo Hhi. split.
  - apply Z.le_trans with (Qfloor (inject_Z lo)); [rewrite Qfloor_Z; lia |].
    apply Qfloor_resp_le. lra.
  - assert (H : Qfloor (p + (1 # 2)) < hi + 1).
    { rewrite Zlt_Qlt. eapply Qle_lt_trans; [apply Qfloor_le |].
      rewrite inject_Z_plus. change (inject_Z 1) with 1%Q. lra. }
    lia.
Qed.

(** The rounded sum of two numbers stays between integer bounds of the
    exact sum, and is a binary64 value. *)
Lemma add_between (s x : Q) (lo hi : Z) :
  Z.abs lo <= 2 ^ 53 -> Z.abs hi <= 2 ^ 53 ->
  (inject_Z lo <= s + x)%Q -> (s + x <= inject_Z hi)%Q ->
  exists s', Number.add (Num s) (Num x) = Num s'
             /\ (inject_Z lo <= s')%Q /\ (s' <= inject_Z hi)%Q /\ double s'.
Proof.
  intros Hlo Hhi H1 H2. unfold Number.add.
  apply binary64_between; auto using double_of_Z.
Qed.

(** [Math.round(x / y * 100)] for [0 <= x <= y]: both roundings keep the
    ratio in [0, 1] and the product in [0, 100]. *)
Lemma percent_of_ratio (x y : Q) :
  (0 <= x)%Q -> (x <= y)%Q -> (0 < y)%Q ->
  exists z, Number.round (Number.mul (Number.div (Num x) (Num y)) (Number.of_Z 100))
            = Number.of_Z z
            /\ 0 <= z <= 100.
Proof.
  intros Hx Hxy Hy. unfold Number.div.
  assert (Hy0 : Qeq_bool y 0 = false).
  { destruct (Qeq_bool y 0) eqn:H; [| reflexivity]. apply Qeq_bool_iff in H. lra. }
  rewrite Hy0.
  destruct (binary64_between (x / y) 0 1) as (r & Hr & Hr0 & Hr1 & _).
  - apply Qle_shift_div_l; [exact Hy | lra].
  - apply Qle_shift_div_r; [exact Hy | lra].
  - exact double_0.
  - exact double_1.
  - rewrite Hr. unfold Number.mul, Number.of_Z at 1.
    destruct (binary64_between (r * inject_Z 100) 0 100) as (p & Hp & Hp0 & Hp1 & _).
    + change (inject_Z 100) with 100%Q. lra.
    + change (inject_Z 100) with 100%Q. lra.
    + exact double_0.
    + exact double_100.
    + rewrite Hp. unfold Number.round. eexists. split; [reflexivity |].
      apply round_between; [exact Hp0 | exact Hp1].
Qed.

(** The achievement of a finite non-negative total is a whole number from
    0 to 100, whatever the target, [NaN] apart. *)
Lemma achievement_of_percent (a : Q) (t : number) :
  (0 <= a)%Q -> t <> NaN ->
  exists z, achievement_of (Num a) t = Number.of_Z z /\ 0 <= z <= 100.
Proof.
  intros Ha Ht. destruct t as [y | | |]; [| | | congruence].
  - unfold achievement_of, Number.ge, Number.le.
    destruct (Qle_bool y a) eqn:Hya; [exists 100; split; [reflexivity | lia] |].
    apply Qle_bool_false in Hya.
    apply percent_of_ratio; lra.
  - exists 0. split; [| lia]. vm_compute. reflexivity.
  - exists 100. split; [| lia]. reflexivity.
Qed.

(** The last steps of line 88 on a ratio complement that is at most 1. *)
Lemma waste_percent_tail (n : number) :
  n = NegInfinity \/ (exists s, n = Num s /\ (s <= 1)%Q) ->
  exists z, Number.max (Number.of_Z 0) (Number.round (Number.mul n (Number.of_Z 100)))
            = Number.of_Z z
            /\ 0 <= z <= 100.
Proof.
  intros [-> | (s & -> & Hs)].
  - exists 0. split; [reflexivity | lia].
  - unfold Number.mul, Number.of_Z at 2.
    destruct (binary64_le_double (s * inject_Z 100) 100) as [Hp | (p & Hp & Hp1 & _)].
    + change (inject_Z 100) with 100%Q. lra.
    + exact double_100.
    + rewrite Hp. exists 0. split; [reflexivity | lia].
    + rewrite Hp. unfold Number.round. rewrite of_Z_max. eexists. split; [reflexivity |].
      assert (H : Qfloor (p + (1 # 2)) < 100 + 1).
      { rewrite Zlt_Qlt. eapply Qle_lt_trans; [apply Qfloor_le |].
        change (inject_Z (100 + 1)) with 101%Q. lra. }
      lia.
Qed.

(** The wasteCompliance of a finite non-negative total against a limit
    that is not negative is a whole number from 0 to 100: an overflow of the
    ratio gives 0. *)
Lemma wasteCompliance_of_percent (w : Q) (l : number) :
  (0 <= w)%Q -> double w -> Number.nonneg l \/ l = Infinity ->
  exists z, wasteCompliance_of (Num w) l = Number.of_Z z /\ 0 <= z <= 100.
Proof.
  intros Hw Dw [Hl | ->]; [| exists 100; split; [reflexivity | lia]].
  destruct l as [y | | |]; [| destruct Hl ..]. simpl in Hl.
  unfold wasteCompliance_of, Number.le.
  destruct (Qle_bool w y) eqn:Hwy; [exists 100; split; [reflexivity | lia] |].
  apply Qle_bool_false in Hwy.
  apply waste_percent_tail.
  assert (Hsub : Number.sub (Num w) (Num y) = Number.binary64 (w + - y)) by reflexivity.
  destruct (Qeq_bool y 0) eqn:Hy0.
  - assert (Hy0' := Hy0). apply Qeq_bool_iff in Hy0.
    rewrite (binary64_comp (w + - y) w) in Hsub by lra. rewrite Dw in Hsub.
    assert (Hs : Number.sgn w = Gt) by (unfold Number.sgn; apply Qgt_alt; lra).
    assert (Hdiv : Number.div (Num w) (Num y) = Infinity)
      by (unfold Number.div; rewrite Hy0', Hs; reflexivity).
    rewrite Hsub, Hdiv. left. reflexivity.
  - assert (Hy0' := Hy0). apply Qeq_bool_neq in Hy0. assert (Hy : (0 < y)%Q) by lra.
    assert (Hy1 : Qle_bool 0 y = true) by (apply Qle_bool_iff; lra).
    assert (Hinf : Number.div Infinity (Num y) = Infinity)
      by (unfold Number.div; rewrite Hy1; reflexivity).
    destruct (binary64_ge_double (w + - y) 0) as [Hv | (v & Hv & Hv0 & _)];
      [lra | exact double_0 | |]; rewrite Hv in Hsub; rewrite Hsub.
    + rewrite Hinf. left. reflexivity.
    + assert (Hdiv : Number.div (Num v) (Num y) = Number.binary64 (v / y))
        by (unfold Number.div; rewrite Hy0'; reflexivity).
      destruct (binary64_ge_double (v / y) 0) as [Hr | (r & Hr & Hr0 & _)];
        [apply Qle_shift_div_l; [exact Hy | lra] | exact double_0 | |];
        rewrite Hr in Hdiv; rewrite Hdiv.
      * left. reflexivity.
      * assert (Hone : Number.sub (Number.of_Z 1) (Num r) = Number.binary64 (1 + - r))
          by reflexivity.
        destruct (binary64_le_double (1 + - r) 1) as [Hs | (s & Hs & Hs1 & _)];
          [lra | exact double_1 | |]; rewrite Hs in Hone; rewrite Hone.
        -- left. reflexivity.
        -- right. exists s. split; [reflexivity | exact Hs1].
Qed.

Lemma wasteCompliance_of_within (w : Q) (l : number) :
  (0 <= w)%Q -> double w -> Number.nonneg l \/ l = Infinity ->
  Number.within 0 100 (wasteCompliance_of (Num w) l).
Proof.
  intros Hw Dw Hl. destruct (wasteCompliance_of_percent w l Hw Dw Hl) as (z & -> & Hz).
  apply (within_of_Z 0 100). exact Hz.
Qed.

(** The two sums of a month, started from binary64 values that are at
    most 24 hours for each of [k] days: every partial sum is a binary64 value
    within 24 hours per day. *)
Lemma stats_fold_bounds (l : list DayRecord) :
  Forall (fun r => forall k, Number.within 0 24 (get_metric (metrics r) k)) l ->
  forall (s0 w0 : Q) (k : Z),
    0 <= k -> 24 * (k + Z.of_nat (length l)) <= 2 ^ 53 ->
    (0 <= s0)%Q -> (s0 <= inject_Z (24 * k))%Q ->
    (0 <= w0)%Q -> (w0 <= inject_Z (24 * k))%Q ->
    double s0 -> double w0 ->
    exists s w,
      fold_left (fun acc r =>
          {| study := Number.add (study acc) (studyHours (metrics r));
             wasted := Number.add (wasted acc) (timeWasted (metrics r)) |})
        l {| study := Num s0; wasted := Num w0 |}
      = {| study := Num s; wasted := Num w |}
      /\ (0 <= s)%Q /\ (0 <= w)%Q /\ double s /\ double w.
Proof.
  induction l as [|r l IH]; intros Hl s0 w0 k Hk Hlen Hs0 Hs1 Hw0 Hw1 Ds Dw;
    cbn [fold_left].
  - exists s0, w0. auto.
  - inversion Hl as [|? ? Hr Hl']; subst.
    pose proof (Hr K_studyHours) as Hs. pose proof (Hr K_timeWasted) as Hw. simpl in Hs, Hw.
    destruct (studyHours (metrics r)) as [x | | |]; [| destruct Hs ..].
    destruct (timeWasted (metrics r)) as [y | | |]; [| destruct Hw ..].
    simpl in Hs, Hw. destruct Hs as [Hx0 Hx1], Hw as [Hy0 Hy1].
    simpl length in Hlen. rewrite Nat2Z.inj_succ in Hlen.
    assert (Hk1 : (inject_Z (24 * (k + 1)) == inject_Z (24 * k) + 24)%Q).
    { replace (24 * (k + 1)) with (24 * k + 24) by lia.
      rewrite inject_Z_plus. reflexivity. }
    destruct (add_between s0 x 0 (24 * (k + 1))) as (s1 & Hs1eq & Hs1lo & Hs1hi & Ds1);
      [lia | lia | change (inject_Z 0) with 0%Q; lra | rewrite Hk1; lra |].
    destruct (add_between w0 y 0 (24 * (k + 1))) as (w1 & Hw1eq & Hw1lo & Hw1hi & Dw1);
      [lia | lia | change (inject_Z 0) with 0%Q; lra | rewrite Hk1; lra |].
    cbn [study wasted]. rewrite Hs1eq, Hw1eq.
    apply (IH Hl' s1 w1 (k + 1)); auto; lia.
Qed.

Section MonthlyDataFacts.

Variable getMonthName : string -> string.

Lemma monthStats_bounds (rs : list DayRecord) (m : string) :
  (length rs <= 365)%nat ->
  Forall (fun r => forall k, Number.within 0 24 (get_metric (metrics r) k)) rs ->
  exists s w, monthStats getMonthName rs m = {| study := Num s; wasted := Num w |}
              /\ (0 <= s)%Q /\ (0 <= w)%Q /\ double s /\ double w.
Proof.
  intros Hlen Hall. unfold monthStats, Number.zero.
  apply (stats_fold_bounds _) with (k := 0).
  - apply List.Forall_forall. intros r Hr. apply List.filter_In in Hr.
    rewrite List.Forall_forall in Hall. apply Hall. tauto.
  - lia.
  - pose proof (List.filter_length_le (fun r => String.eqb (getMonthName (date r)) m) rs) as Hf.
    assert (H : 24 * (0 + 365) <= 2 ^ 53) by (vm_compute; discriminate).
    unfold monthStats in *. lia.
  - lra.
  - change (inject_Z (24 * 0)) with 0%Q. lra.
  - lra.
  - change (inject_Z (24 * 0)) with 0%Q. lra.
  - exact double_0.
  - exact double_0.
Qed.

Lemma monthlyData_entries (rs : list DayRecord) (g : gmap string MonthlyGoal)
    (entries : list MonthEntry) :
  monthlyData getMonthName rs g = Some entries ->
  List.map entry_month entries = monthsList
  /\ Forall (fun e => exists goal, g !! entry_month e = Some goal
               /\ e = monthEntry (entry_month e)
                        (monthStats getMonthName rs (entry_month e)) goal) entries.
Proof.
  unfold monthlyData. intros H. apply mapM_Some_1 in H.
  induction H as [|m e ms es Hme _ IH]; [split; constructor|].
  destruct IH as [IHm IHe].
  destruct (g !! m) as [goal|] eqn:Hg; [|discriminate]. injection Hme as <-.
  split; [simpl; f_equal; exact IHm|].
  constructor; [|exact IHe]. exists goal. simpl. auto.
Qed.

Lemma monthlyData_total (rs : list DayRecord) (g : gmap string MonthlyGoal) :
  goals_inv g -> exists entries, monthlyData getMonthName rs g = Some entries.
Proof.
  intros Hg. unfold monthlyData.
  match goal with |- exists _, ?x = _ => enough (H : is_Some x) by exact H end.
  apply mapM_is_Some_2. apply List.Forall_forall. intros m Hm.
  destruct (Hg m Hm) as (goal & t & l & Hlook & _). simpl. rewrite Hlook. eauto.
Qed.

End MonthlyDataFacts.

Lemma records_inv_length (rs : list DayRecord) : records_inv rs -> length rs = 365%nat.
Proof.
  intros (Hid & _). apply (f_equal (@length Z)) in Hid.
  rewrite List.length_map in Hid. exact Hid.
Qed.

(** In every state of a session the grid is computed without a fault, has
    the twelve months in order, and each entry combines finite non-negative
    totals with goal values that are present and not NaN. *)
Lemma monthlyData_reachable (getMonthName : string -> string) (st : AppState) :
  reachable st ->
  exists entries,
    monthlyData getMonthName (records st) (goals st) = Some entries
    /\ List.map entry_month entries = monthsList
    /\ Forall (fun e => exists a w t l,
                 actualStudy e = Num a /\ (0 <= a)%Q
                 /\ actualWaste e = Num w /\ (0 <= w)%Q
                 /\ goalStudy e = Some t /\ t <> NaN
                 /\ limitWaste e = Some l /\ l <> NaN
                 /\ achievement e = achievement_of (Num a) t
                 /\ wasteCompliance e = wasteCompliance_of (Num w) l) entries.
Proof.
  intros Hst. destruct (reachable_inv st Hst) as [Hrec Hgoals].
  pose proof (records_inv_length _ Hrec) as Hlen.
  destruct Hrec as (_ & _ & _ & Hmet).
  destruct (monthlyData_total getMonthName (records st) (goals st) Hgoals) as (entries & He).
  exists entries. split; [exact He|].
  destruct (monthlyData_entries getMonthName _ _ _ He) as [Hmonths Hall].
  split; [exact Hmonths|].
  apply List.Forall_forall. intros e Hin.
  rewrite List.Forall_forall in Hall. destruct (Hall e Hin) as (goal & Hg & Hentry).
  assert (Hm : In (entry_month e) monthsList).
  { rewrite <- Hmonths. apply in_map. exact Hin. }
  destruct (Hgoals _ Hm) as (goal' & t & l & Hg' & Ht & Hl & Htn & Hln).
  assert (goal' = goal) by congruence. subst goal'.
  destruct (monthStats_bounds getMonthName (records st) (entry_month e)) as
    (s & w & Hstats & Hs & Hw & _); [lia | exact Hmet |].
  exists s, w, t, l. rewrite Hentry. simpl. rewrite Hstats, Ht, Hl. simpl.
  repeat split; auto.
Qed.

(** The totals of the grid are binary64 values. *)
Lemma monthlyData_doubles (getMonthName : string -> string) (st : AppState)
    (entries : list MonthEntry) :
  reachable st ->
  monthlyData getMonthName (records st) (goals st) = Some entries ->
  Forall (fun e => exists a w, actualStudy e = Num a /\ double a
                               /\ actualWaste e = Num w /\ double w) entries.
Proof.
  intros Hst He. destruct (reachable_inv st Hst) as [Hrec _].
  pose proof (records_inv_length _ Hrec) as Hlen.
  destruct Hrec as (_ & _ & _ & Hmet).
  destruct (monthlyData_entries getMonthName _ _ _ He) as [_ Hall].
  eapply List.Forall_impl; [| exact Hall]. simpl.
  intros e (goal & _ & Hentry).
  destruct (monthStats_bounds getMonthName (records st) (entry_month e)) as
    (s & w & Hstats & _ & _ & Ds & Dw); [lia | exact Hmet |].
  exists s, w. rewrite Hentry. simpl. rewrite Hstats. simpl. auto.
Qed.

(** The achievement of every entry is a whole number from 0 to 100 in every
    state of a session, and so is the wasteCompliance of an entry whose
    limit is not negative. *)
Lemma compliance_percentages (getMonthName : string -> string) (st : AppState) :
  reachable st ->
  exists entries,
    monthlyData getMonthName (records st) (goals st) = Some entries
    /\ Forall (fun e =>
         (exists z, achievement e = Number.of_Z z /\ 0 <= z <= 100)
         /\ (Number.nonneg (to_number (limitWaste e)) \/ limitWaste e = Some Infinity ->
             exists z, wasteCompliance e = Number.of_Z z /\ 0 <= z <= 100)) entries.
Proof.
  intros Hst.
  destruct (monthlyData_reachable getMonthName st Hst) as (entries & He & _ & Hall).
  pose proof (monthlyData_doubles getMonthName st entries Hst He) as Hd.
  exists entries. split; [exact He|].
  apply List.Forall_forall. intros e Hin.
  rewrite List.Forall_forall in Hall, Hd.
  destruct (Hall e Hin) as (a & w & t & l & _ & Ha0 & Hw & Hw0 & _ & Htn & Hl & _ & Hach & Hwc).
  destruct (Hd e Hin) as (_ & w' & _ & _ & Hw' & Dw).
  assert (w' = w) by congruence. subst w'.
  split.
  - rewrite Hach. apply achievement_of_percent; assumption.
  - intros Hlim. rewrite Hwc. apply wasteCompliance_of_percent; [exact Hw0 | exact Dw |].
    rewrite Hl in Hlim. simpl in Hlim.
    destruct Hlim as [Hlim | Hlim]; [left; exact Hlim | right; congruence].
Qed.

Lemma compliance_ranges (getMonthName : string -> string) (st : AppState) :
  reachable st ->
  exists entries,
    monthlyData getMonthName (records st) (goals st) = Some entries
    /\ Forall (fun e =>
         Number.within 0 100 (achievement e)
         /\ (Number.nonneg (to_number (limitWaste e)) \/ limitWaste e = Some Infinity ->
             Number.within 0 100 (wasteCompliance e))) entries.
Proof.
  intros Hst.
  destruct (compliance_percentages getMonthName st Hst) as (entries & He & Hall).
  exists entries. split; [exact He|].
  eapply List.Forall_impl; [|exact Hall]. simpl.
  intros e [(z & Hz & Hzr) Hw]. split.
  - rewrite Hz. apply (within_of_Z 0 100). exact Hzr.
  - intros Hlim. destruct (Hw Hlim) as (z' & Hz' & Hzr').
    rewrite Hz'. apply (within_of_Z 0 100). exact Hzr'.
Qed.

(** C4. Achievement is exactly 100 when actualStudy >= studyTarget and
    otherwise round(actualStudy / studyTarget * 100), the quotient and the
    product being the binary64 ones of line 87: 11.5 hours of a target of 20
    give 57.  It is 100 when the total equals the target and 0 for a total
    of 0 against a target of 150.  Every entry of monthlyData gets its
    achievement by this rule from the month's study total and the month's
    studyTarget, and in every state of a session it is a whole number from
    0 to 100. *)
Theorem achievement_rule :
  (forall a t : number,
      Number.ge a t = true -> achievement_of a t = Number.of_Z 100)
  /\ (forall a t : number,
      Number.ge a t = false ->
      achievement_of a t
      = Number.round (Number.mul (Number.div a t) (Number.of_Z 100)))
  /\ (forall a t : Q, (a == t)%Q -> achievement_of (Num a) (Num t) = Number.of_Z 100)
  /\ achievement_of (Num 0) (Num 150) = Num 0
  /\ achievement_of (Num (23 # 2)) (Num 20) = Num 57
  /\ (forall getMonthName records0 goals0 entries,
      monthlyData getMonthName records0 goals0 = Some entries ->
      Forall (fun e => exists goal,
                goals0 !! entry_month e = Some goal
                /\ actualStudy e = study (monthStats getMonthName records0 (entry_month e))
                /\ goalStudy e = studyTarget goal
                /\ achievement e
                   = achievement_of (actualStudy e) (to_number (goalStudy e))) entries)
  /\ (forall getMonthName st,
      reachable st ->
      exists entries,
        monthlyData getMonthName (records st) (goals st) = Some entries
        /\ Forall (fun e => exists (a : Q) (t : number) (z : Z),
                     actualStudy e = Num a /\ (0 <= a)%Q
                     /\ goalStudy e = Some t
                     /\ achievement e = achievement_of (Num a) t
                     /\ achievement e = Number.of_Z z /\ 0 <= z <= 100)
             entries).
Proof.
  repeat match goal with |- _ /\ _ => split end.
  - intros a t H. unfold achievement_of. rewrite H. reflexivity.
  - intros a t H. unfold achievement_of. rewrite H. reflexivity.
  - intros a t Hat. unfold achievement_of, Number.ge, Number.le.
    assert (H : Qle_bool t a = true) by (apply Qle_bool_iff; lra).
    rewrite H. reflexivity.
  - vm_compute. reflexivity.
  - vm_compute. reflexivity.
  - intros getMonthName records0 goals0 entries He.
    destruct (monthlyData_entries getMonthName _ _ _ He) as [_ Hall].
    eapply List.Forall_impl; [|exact Hall]. simpl.
    intros e (goal & Hg & Hentry). exists goal. split; [exact Hg|].
    rewrite Hentry. simpl. auto.
  - intros getMonthName st Hst.
    destruct (monthlyData_reachable getMonthName st Hst) as (entries & He & _ & Hall).
    exists entries. split; [exact He|].
    eapply List.Forall_impl; [|exact Hall]. simpl.
    intros e (a & w & t & l & Ha & Ha0 & _ & _ & Ht & Htn & _ & _ & Hach & _).
    destruct (achievement_of_percent a t Ha0 Htn) as (z & Hz & Hzr).
    exists a, t, z. split; [exact Ha|]. split; [exact Ha0|]. split; [exact Ht|].
    split; [exact Hach|]. split; [rewrite Hach; exact Hz | exact Hzr].
Qed.

Lemma achievement_rule_witness :
  achievement_of (Num 75) (Num 150) = Num 50
  /\ achievement_of (Num 150) (Num 150) = Num 100
  /\ achievement_of (Num (300 # 2)) (Num 150) = Num 100
  /\ achievement_of (Num 24) NaN = NaN
  /\ (exists entries,
        monthlyData getMonthName_en (records sample_state) (goals sample_state)
        = Some entries
        /\ Forall (fun e => achievement e
                            = achievement_of (actualStudy e) (to_number (goalStudy e)))
             entries
        /\ Forall (fun e => Number.within 0 100 (achievement e)) entries).
Proof.
  destruct achievement_rule as (Hmet & Helse & Heq & _ & _ & Hent & Hreach).
  split; [|split; [|split; [|split]]].
  - rewrite (Helse (Num 75) (Num 150)) by (vm_compute; reflexivity). vm_compute. reflexivity.
  - rewrite (Hmet (Num 150) (Num 150)) by (vm_compute; reflexivity). reflexivity.
  - rewrite (Heq (300 # 2) 150)%Q by reflexivity. reflexivity.
  - rewrite (Helse (Num 24) NaN) by (vm_compute; reflexivity). reflexivity.
  - destruct (Hreach getMonthName_en sample_state (reachable_run 2025 _))
      as (entries & He & Hall).
    exists entries. split; [exact He|]. split.
    + eapply List.Forall_impl; [|exact (Hent _ _ _ _ He)]. simpl.
      intros e (goal & _ & _ & _ & H). exact H.
    + eapply List.Forall_impl; [|exact Hall]. simpl.
      intros e (a & t & z & _ & _ & _ & _ & Hz & Hzr).
      rewrite Hz. apply (within_of_Z 0 100). exact Hzr.
Defined.

(** C3, amended.  wasteCompliance is exactly 100 when
    actualWaste <= wasteLimit and otherwise
    max(0, round((1 - (actualWaste - wasteLimit) / wasteLimit) * 100)) with
    the limit as it is in the denominator and every operation the binary64
    one of line 88: when the limit is 0 and is exceeded the ratio is
    +Infinity and the result is 0, and 28.5 hours against a limit of 20 give
    57.  For a limit that is not negative the result is a whole number from
    0 to 100, never NaN or Infinity; in every state of a session the grid is
    computed without a fault; for actualWaste = 0 and wasteLimit = 0 the
    result is 100. *)
Theorem wasteCompliance_rule :
  (forall w l : number,
      Number.le w l = true -> wasteCompliance_of w l = Number.of_Z 100)
  /\ (forall w l : number,
      Number.le w l = false ->
      wasteCompliance_of w l
      = Number.max (Number.of_Z 0)
          (Number.round
             (Number.mul
                (Number.sub (Number.of_Z 1) (Number.div (Number.sub w l) l))
                (Number.of_Z 100))))
  /\ (forall w : Q,
      (0 < w)%Q -> double w -> wasteCompliance_of (Num w) (Num 0) = Num 0)
  /\ wasteCompliance_of (Num 0) (Num 0) = Num 100
  /\ wasteCompliance_of (Num (57 # 2)) (Num 20) = Num 57
  /\ (forall (w : Q) (l : number),
      (0 <= w)%Q -> double w -> Number.nonneg l \/ l = Infinity ->
      exists z, wasteCompliance_of (Num w) l = Number.of_Z z /\ 0 <= z <= 100)
  /\ (forall getMonthName st,
      reachable st ->
      exists entries,
        monthlyData getMonthName (records st) (goals st) = Some entries
        /\ Forall (fun e => exists (w : Q) (l : number),
                     actualWaste e = Num w /\ (0 <= w)%Q /\ double w
                     /\ limitWaste e = Some l /\ l <> NaN
                     /\ wasteCompliance e = wasteCompliance_of (Num w) l
                     /\ (Number.nonneg l \/ l = Infinity ->
                         exists z, wasteCompliance e = Number.of_Z z /\ 0 <= z <= 100))
             entries).
Proof.
  repeat match goal with |- _ /\ _ => split end.
  - intros w l H. unfold wasteCompliance_of. rewrite H. reflexivity.
  - intros w l H. unfold wasteCompliance_of. rewrite H. reflexivity.
  - intros w Hw Dw. unfold wasteCompliance_of, Number.le.
    assert (H : Qle_bool w 0 = false).
    { destruct (Qle_bool w 0) eqn:H; [|reflexivity]. apply Qle_bool_iff in H. lra. }
    rewrite H. unfold Number.sub at 2. cbn [Number.neg Number.add].
    assert (Hsub : Number.binary64 (w + - 0) = Num w).
    { rewrite (binary64_comp (w + - 0) w) by lra. exact Dw. }
    rewrite Hsub. unfold Number.div. change (Qeq_bool 0 0) with true. cbv iota.
    assert (Hs : Number.sgn w = Gt) by (unfold Number.sgn; apply Qgt_alt; lra).
    rewrite Hs. reflexivity.
  - vm_compute. reflexivity.
  - vm_compute. reflexivity.
  - apply wasteCompliance_of_percent.
  - intros getMonthName st Hst.
    destruct (monthlyData_reachable getMonthName st Hst) as (entries & He & _ & Hall).
    pose proof (monthlyData_doubles getMonthName st entries Hst He) as Hd.
    exists entries. split; [exact He|].
    apply List.Forall_forall. intros e Hin.
    rewrite List.Forall_forall in Hall, Hd.
    destruct (Hall e Hin) as (a & w & t & l & _ & _ & Hw & Hw0 & _ & _ & Hl & Hln & _ & Hwc).
    destruct (Hd e Hin) as (_ & w' & _ & _ & Hw' & Dw).
    assert (w' = w) by congruence. subst w'.
    exists w, l. repeat (split; [assumption |]).
    intros Hlim. rewrite Hwc. apply wasteCompliance_of_percent; assumption.
Qed.

Lemma wasteCompliance_rule_witness :
  wasteCompliance_of (Num 45) (Num 30) = Num 50
  /\ wasteCompliance_of (Num 10) Infinity = Num 100
  /\ wasteCompliance_of (Num 3) (Num 0) = Num 0
  /\ (exists z, wasteCompliance_of (Num (5 # 2)) (Num (3 # 4)) = Number.of_Z z
                /\ 0 <= z <= 100)
  /\ (exists entries,
        monthlyData getMonthName_en (records zero_limit_state) (goals zero_limit_state)
        = Some entries).
Proof.
  destruct wasteCompliance_rule as (Hle & Helse & Hzero & _ & _ & Hrange & Hreach).
  split; [|split; [|split; [|split]]].
  - rewrite (Helse (Num 45) (Num 30)) by (vm_compute; reflexivity). vm_compute. reflexivity.
  - apply Hle. reflexivity.
  - apply Hzero; [reflexivity | vm_compute; reflexivity].
  - apply Hrange; [discriminate | vm_compute | left; simpl; discriminate].
    reflexivity.
  - destruct (Hreach getMonthName_en zero_limit_state (reachable_run 2025 _))
      as (entries & He & _).
    exists entries. exact He.
Defined.

(** C3 as the specification states it fails: with half an hour wasted in
    January and the January limit set to 0, line 88 divides by the limit as
    it is and monthlyData reports a wasteCompliance of 0; the formula with
    the limit clamped to 1 in the denominator gives 50, under either reading
    of the clamp. *)
Lemma wasteCompliance_zero_limit_unguarded :
  (exists e rest,
      monthlyData getMonthName_en (records zero_limit_state) (goals zero_limit_state)
      = Some (e :: rest)
      /\ entry_month e = "January"%string
      /\ actualWaste e = Num (1 # 2)
      /\ limitWaste e = Some (Num 0)
      /\ wasteCompliance e = Num 0)
  /\ wasteCompliance_of (Num (1 # 2)) (Num 0) = Num 0
  /\ wasteCompliance_guarded guard_zero (1 # 2) 0 = 50
  /\ wasteCompliance_guarded guard_min_one (1 # 2) 0 = 50.
Proof.
  split; [|split; [|split]]; try (vm_compute; reflexivity).
  eexists. eexists. split; [vm_compute; reflexivity|].
  repeat split.
Qed.

(** An infinite negative limit, which the goal editor parses from
    "-Infinity", makes the ratio Infinity / -Infinity: the result is NaN. *)
Lemma wasteCompliance_negative_infinity :
  Number.or (parseFloat "-Infinity") (Number.of_Z 0) = NegInfinity
  /\ wasteCompliance_of (Num 0) NegInfinity = NaN.
Proof. split; vm_compute; reflexivity. Qed.

(** A finite negative limit can make the ratio overflow: with the limit
    parsed from "-1e-307" and a waste of 24 hours, line 88 gives Infinity. *)
Lemma wasteCompliance_tiny_negative_limit :
  exists l : Q,
    Number.or (parseFloat "-1e-307") (Number.of_Z 0) = Num l
    /\ (l < 0)%Q
    /\ wasteCompliance_of (Num 24) (Num l) = Infinity.
Proof.
  eexists. split; [vm_compute; reflexivity |].
  split; [reflexivity | vm_compute; reflexivity].
Qed.

(** C5 at the failing input: the goal editor accepts "-10" as the January
    waste limit, and monthlyData then reports a January wasteCompliance of
    200 for a fresh year, which is outside [0, 100]. *)
Theorem wasteCompliance_negative_limit :
  reachable negative_limit_state
  /\ exists e rest,
       monthlyData getMonthName_en (records negative_limit_state)
         (goals negative_limit_state) = Some (e :: rest)
       /\ entry_month e = "January"%string
       /\ actualWaste e = Num 0
       /\ limitWaste e = Some (Num (-10))
       /\ wasteCompliance e = Num 200
       /\ ~ Number.within 0 100 (wasteCompliance e).
Proof.
  split; [apply reachable_run|].
  eexists. eexists. split; [vm_compute; reflexivity|].
  repeat split. simpl. intros [_ H]. apply H. reflexivity.
Qed.

(** * Further properties of the code *)

(** ** The maximum streak as the longest run *)

Lemma scan_spec_lower (l : list bool) :
  forall m t, (Nat.max m t <= scan_spec l m t)%nat.
Proof.
  induction l as [|b l IH]; intros m t; simpl; [lia|].
  destruct b.
  - specialize (IH m (S t)). lia.
  - specialize (IH (Nat.max m t) 0%nat). lia.
Qed.

Lemma scan_spec_absorb (l : list bool) (m t : nat) :
  scan_spec l (Nat.max m t) t = scan_spec l m t.
Proof.
  rewrite (scan_spec_running_max l (Nat.max m t) t), (scan_spec_running_max l m t).
  pose proof (scan_spec_lower l 0 t). lia.
Qed.

Lemma scan_spec_run habit (run0 : list DayRecord) (rest : list bool) :
  Forall (fun r => flag habit r = true) run0 ->
  forall m t,
    scan_spec (List.map (flag habit) run0 ++ rest) m t
    = scan_spec rest m (t + length run0).
Proof.
  intros Hrun. induction Hrun as [|r run0 Hr _ IH]; intros m t; simpl.
  - rewrite Nat.add_0_r. reflexivity.
  - rewrite Hr, IH. f_equal. lia.
Qed.

Lemma scan_spec_bounds_run habit (l1 run0 l2 : list DayRecord) :
  Forall (fun r => flag habit r = true) run0 ->
  forall m t,
    (length run0 <= scan_spec (List.map (flag habit) (l1 ++ run0 ++ l2)) m t)%nat.
Proof.
  intros Hrun. induction l1 as [|x l1 IH]; intros m t.
  - simpl. rewrite List.map_app, (scan_spec_run habit run0 _ Hrun).
    pose proof (scan_spec_lower (List.map (flag habit) l2) m (t + length run0)). lia.
  - simpl. destruct (flag habit x); apply IH.
Qed.

Lemma scan_spec_attained habit (l : list DayRecord) :
  forall m t,
    (scan_spec (List.map (flag habit) l) m t <= m)%nat
    \/ (exists run0 rest, l = run0 ++ rest
          /\ Forall (fun r => flag habit r = true) run0
          /\ scan_spec (List.map (flag habit) l) m t = (t + length run0)%nat)
    \/ (exists l1 run0 l2, l = l1 ++ run0 ++ l2
          /\ Forall (fun r => flag habit r = true) run0
          /\ scan_spec (List.map (flag habit) l) m t = length run0).
Proof.
  induction l as [|x l IH]; intros m t; simpl.
  - destruct (Nat.le_gt_cases t m) as [Htm | Htm].
    + left. lia.
    + right. left. exists [], []. repeat split; [constructor | simpl; lia].
  - destruct (flag habit x) eqn:Hx.
    + destruct (IH m (S t)) as [H | [(run0 & rest & -> & Hrun & H) | (l1 & run0 & l2 & -> & Hrun & H)]].
      * left. exact H.
      * right. left. exists (x :: run0), rest.
        repeat split; [constructor; assumption | simpl; lia].
      * right. right. exists (x :: l1), run0, l2. repeat split; assumption.
    + pose proof (scan_spec_lower (List.map (flag habit) l) (Nat.max m t) 0) as Hlow.
      destruct (IH (Nat.max m t) 0%nat)
        as [H | [(run0 & rest & -> & Hrun & H) | (l1 & run0 & l2 & -> & Hrun & H)]].
      * destruct (Nat.le_gt_cases t m) as [Htm | Htm].
        -- left. lia.
        -- right. left. exists [], (x :: l). repeat split; [constructor | simpl; lia].
      * right. right. exists [x], run0, rest. repeat split; [assumption | simpl in H; lia].
      * right. right. exists (x :: l1), run0, l2. repeat split; assumption.
Qed.

(** X1. [max] is the length of the longest run of consecutive records, in
    array order, whose habit flag is true: no such run is longer, and one of
    them has exactly that length. *)
Theorem max_streak_is_longest_run :
  forall (records0 : list DayRecord) (habit : HabitKey),
    (forall l1 run0 l2,
        records0 = l1 ++ run0 ++ l2 ->
        Forall (fun r => flag habit r = true) run0 ->
        (length run0 <= max (calculateStreak records0 habit))%nat)
    /\ (exists l1 run0 l2,
          records0 = l1 ++ run0 ++ l2
          /\ Forall (fun r => flag habit r = true) run0
          /\ length run0 = max (calculateStreak records0 habit)).
Proof.
  intros records0 habit. rewrite calculateStreak_max. split.
  - intros l1 run0 l2 -> Hrun. apply scan_spec_bounds_run. exact Hrun.
  - destruct (scan_spec_attained habit records0 0 0)
      as [H | [(run0 & rest & Heq & Hrun & H) | (l1 & run0 & l2 & Heq & Hrun & H)]].
    + exists [], [], records0. repeat split; [constructor | simpl; lia].
    + exists [], run0, rest. repeat split; [exact Heq | exact Hrun | simpl in H; lia].
    + exists l1, run0, l2. repeat split; [exact Heq | exact Hrun | lia].
Qed.

Lemma max_streak_is_longest_run_witness :
  (2 <= max (calculateStreak (records three_day_state) K_workout))%nat.
Proof.
  destruct (max_streak_is_longest_run (records three_day_state) K_workout) as [Hle _].
  pose (d := initial_record 2025 0).
  apply (Hle [] [nth 0 (records three_day_state) d; nth 1 (records three_day_state) d]
            (skipn 2 (records three_day_state))).
  - vm_compute. reflexivity.
  - repeat constructor.
Defined.

(** ** How the edits move the maximum streak *)

Lemma scan_spec_mono (l l' : list bool) :
  Forall2 (fun b b' => b = true -> b' = true) l l' ->
  forall m t m' t', (m <= m')%nat -> (t <= t')%nat ->
    (scan_spec l m t <= scan_spec l' m' t')%nat.
Proof.
  intros H. induction H as [|b b' l l' Hb _ IH]; intros m t m' t' Hm Ht; simpl; [lia|].
  destruct b, b'.
  - apply IH; lia.
  - specialize (Hb eq_refl). discriminate.
  - rewrite <- (scan_spec_absorb l' m' (S t')). apply IH; lia.
  - apply IH; lia.
Qed.

Lemma flag_habit_update d habit value k (r : DayRecord) :
  flag k (habit_update d habit value r)
  = if id r =? d then (if decide (k = habit) then value else flag k r) else flag k r.
Proof.
  unfold habit_update. destruct (id r =? d); [|reflexivity].
  unfold flag. simpl. apply get_set_habit.
Qed.

Lemma flag_metric_update d metric v k (r : DayRecord) :
  flag k (metric_update d metric v r) = flag k r.
Proof. unfold metric_update. destruct (id r =? d); reflexivity. Qed.

(** X2. The maximum streak of a habit depends on that habit's flags only:
    handleHabitChange on another habit and handleMetricChange leave it as it
    was; setting the habit's flag to true on a day never lowers it and
    setting it to false never raises it. *)
Theorem max_streak_under_edits :
  forall (d : Z) (habit : HabitKey) (prev : list DayRecord),
    (max (calculateStreak prev habit)
     <= max (calculateStreak (handleHabitChange d habit true prev) habit))%nat
    /\ (max (calculateStreak (handleHabitChange d habit false prev) habit)
        <= max (calculateStreak prev habit))%nat
    /\ (forall other value, other <> habit ->
          max (calculateStreak (handleHabitChange d other value prev) habit)
          = max (calculateStreak prev habit))
    /\ (forall metric value,
          max (calculateStreak (handleMetricChange d metric value prev) habit)
          = max (calculateStreak prev habit)).
Proof.
  intros d habit prev. rewrite !calculateStreak_max. split; [|split; [|split]].
  - apply scan_spec_mono; [|lia|lia]. unfold handleHabitChange.
    induction prev as [|r prev IH]; simpl; constructor; [|exact IH].
    rewrite flag_habit_update. destruct (id r =? d); [|auto].
    destruct (decide (habit = habit)); [auto | congruence].
  - apply scan_spec_mono; [|lia|lia]. unfold handleHabitChange.
    induction prev as [|r prev IH]; simpl; constructor; [|exact IH].
    rewrite flag_habit_update. destruct (id r =? d); [|auto].
    destruct (decide (habit = habit)); [discriminate | congruence].
  - intros other value Hne. rewrite calculateStreak_max. f_equal.
    unfold handleHabitChange. rewrite List.map_map. apply List.map_ext.
    intros r. rewrite flag_habit_update. destruct (id r =? d); [|reflexivity].
    destruct (decide (habit = other)); congruence.
  - intros metric value. rewrite calculateStreak_max. f_equal.
    unfold handleMetricChange. rewrite List.map_map. apply List.map_ext.
    intros r. apply flag_metric_update.
Qed.

Lemma max_streak_under_edits_witness :
  max (calculateStreak (handleHabitChange 2 K_noPorn true sample_year) K_workout)
  = max (calculateStreak sample_year K_workout).
Proof.
  destruct (max_streak_under_edits 2 K_workout sample_year) as (_ & _ & H & _).
  apply H. discriminate.
Defined.

(** ** When the current streak cannot exceed the maximum *)

Lemma StronglySorted_app {A : Type} (R : A -> A -> Prop) (l1 l2 : list A) :
  StronglySorted R l1 -> StronglySorted R l2 ->
  (forall x y, In x l1 -> In y l2 -> R x y) ->
  StronglySorted R (l1 ++ l2).
Proof.
  intros H1 H2 H12. induction H1 as [|a l1 Hl1 IH Ha]; simpl; [exact H2|].
  constructor.
  - apply IH. intros x y Hx Hy. apply H12; [right; exact Hx | exact Hy].
  - apply List.Forall_app. split; [exact Ha|].
    apply List.Forall_forall. intros y Hy. apply H12; [left; reflexivity | exact Hy].
Qed.

Lemma rev_strictly_descending (l : list DayRecord) :
  StronglySorted (fun a b => dayNumber a < dayNumber b) l ->
  strictly_descending (rev l).
Proof.
  unfold strictly_descending. intros H. induction H as [|a l Hl IH Ha]; simpl.
  - constructor.
  - apply StronglySorted_app; [exact IH | repeat constructor |].
    intros x y Hx [<- | []]. apply List.in_rev in Hx.
    rewrite List.Forall_forall in Ha. apply Ha. exact Hx.
Qed.

Lemma strictly_descending_descending (l : list DayRecord) :
  strictly_descending l -> descending l.
Proof.
  unfold strictly_descending, descending. intros H.
  induction H as [|a l Hl IH Ha]; constructor; [exact IH|].
  eapply List.Forall_impl; [|exact Ha]. simpl. intros. lia.
Qed.

Lemma sort_desc_ascending (l : list DayRecord) :
  StronglySorted (fun a b => dayNumber a < dayNumber b) l -> sort_desc l = rev l.
Proof.
  intros H. symmetry. apply descending_unique.
  - apply rev_strictly_descending. exact H.
  - apply sort_desc_descending.
  - rewrite sort_desc_perm. symmetry. apply Permutation_rev.
Qed.

Lemma filter_all_filled (l : list DayRecord) :
  Forall (fun r => isFilled r = true) l -> List.filter isFilled l = l.
Proof.
  intros H. induction H as [|r l Hr _ IH]; simpl; [reflexivity|]. rewrite Hr, IH. reflexivity.
Qed.

Lemma filter_none_filled (l : list DayRecord) :
  Forall (fun r => isFilled r = false) l -> List.filter isFilled l = [].
Proof.
  intros H. induction H as [|r l Hr _ IH]; simpl; [reflexivity|]. rewrite Hr, IH. reflexivity.
Qed.

Lemma run_length_prefix habit (l : list DayRecord) :
  exists p s, l = p ++ s /\ Forall (fun r => flag habit r = true) p
              /\ length p = run_length habit l.
Proof.
  induction l as [|r l (p & s & -> & Hp & Hlen)]; simpl.
  - exists [], []. repeat split. constructor.
  - destruct (flag habit r) eqn:Hr.
    + exists (r :: p), s. repeat split; [constructor; assumption | simpl; lia].
    + exists [], (r :: p ++ s). repeat split. constructor.
Qed.

Lemma StronglySorted_map_inv {A B : Type} (R : B -> B -> Prop) (f : A -> B) (l : list A) :
  StronglySorted R (List.map f l) -> StronglySorted (fun a b => R (f a) (f b)) l.
Proof.
  induction l as [|a l IH]; intros H; [constructor|].
  simpl in H. inversion H as [|? ? Hl Ha]; subst. constructor; [apply IH; exact Hl|].
  apply List.Forall_forall. intros x Hx. rewrite List.Forall_forall in Ha.
  apply Ha. apply in_map. exact Hx.
Qed.

Lemma seq_strictly_increasing (n : nat) :
  forall a, StronglySorted Z.lt (List.map Z.of_nat (seq a n)).
Proof.
  induction n as [|n IH]; intros a; simpl; constructor; [apply IH|].
  apply List.Forall_forall. intros x Hx. apply in_map_iff in Hx.
  destruct Hx as (k & <- & Hk). apply in_seq in Hk. lia.
Qed.

Lemma reachable_ascending (st : AppState) :
  reachable st ->
  StronglySorted (fun a b => dayNumber a < dayNumber b) (records st).
Proof.
  intros Hst. destruct (reachable_inv st Hst) as [(_ & Hday & _) _].
  apply (StronglySorted_map_inv Z.lt dayNumber). rewrite Hday. apply seq_strictly_increasing.
Qed.

Lemma StronglySorted_app_inv_mid {A : Type} (R : A -> A -> Prop) (l1 l2 l3 : list A) :
  StronglySorted R (l1 ++ l2 ++ l3) -> StronglySorted R l2.
Proof.
  intros H. induction l1 as [|a l1 IH]; simpl in H.
  - induction l2 as [|b l2 IH2]; [constructor|].
    simpl in H. inversion H as [|? ? Hl Hb]; subst. constructor; [apply IH2; exact Hl|].
    apply List.Forall_app in Hb. tauto.
  - inversion H; subst. apply IH. assumption.
Qed.

(** X3. When no record that is not filled lies between two filled ones (the
    filled records are one block of the array, in increasing day order),
    [current] is at most [max]: the current streak is then the run of true
    flags at the end of that block.  In a session this is the case whenever
    the logged days have no gap. *)
Theorem current_at_most_max_without_gaps :
  (forall (pre mid post : list DayRecord) (habit : HabitKey),
      Forall (fun r => isFilled r = false) pre ->
      Forall (fun r => isFilled r = true) mid ->
      Forall (fun r => isFilled r = false) post ->
      StronglySorted (fun a b => dayNumber a < dayNumber b) mid ->
      (current (calculateStreak (pre ++ mid ++ post) habit)
       <= max (calculateStreak (pre ++ mid ++ post) habit))%nat)
  /\ (forall (st : AppState) (pre mid post : list DayRecord) (habit : HabitKey),
      reachable st ->
      records st = pre ++ mid ++ post ->
      Forall (fun r => isFilled r = false) pre ->
      Forall (fun r => isFilled r = true) mid ->
      Forall (fun r => isFilled r = false) post ->
      (current (calculateStreak (records st) habit)
       <= max (calculateStreak (records st) habit))%nat).
Proof.
  assert (Hgen : forall (pre mid post : list DayRecord) (habit : HabitKey),
      Forall (fun r => isFilled r = false) pre ->
      Forall (fun r => isFilled r = true) mid ->
      Forall (fun r => isFilled r = false) post ->
      StronglySorted (fun a b => dayNumber a < dayNumber b) mid ->
      (current (calculateStreak (pre ++ mid ++ post) habit)
       <= max (calculateStreak (pre ++ mid ++ post) habit))%nat).
  { intros pre mid post habit Hpre Hmid Hpost Hasc.
    rewrite calculateStreak_current. unfold current_spec.
    rewrite !List.filter_app, (filter_none_filled pre Hpre), (filter_all_filled mid Hmid),
      (filter_none_filled post Hpost), app_nil_r. simpl.
    rewrite (sort_desc_ascending mid Hasc).
    destruct (run_length_prefix habit (rev mid)) as (p & s & Hrev & Hp & Hlen).
    rewrite <- Hlen.
    assert (Hmid_eq : mid = rev s ++ rev p).
    { rewrite <- (rev_involutive mid), Hrev. apply rev_app_distr. }
    rewrite <- (length_rev p), calculateStreak_max.
    assert (Hsplit : pre ++ mid ++ post = (pre ++ rev s) ++ rev p ++ post)
      by (rewrite Hmid_eq, <- !app_assoc; reflexivity).
    rewrite Hsplit. apply scan_spec_bounds_run. apply List.Forall_rev. exact Hp. }
  split; [exact Hgen|].
  intros st pre mid post habit Hst Heq Hpre Hmid Hpost. rewrite Heq.
  apply Hgen; try assumption.
  apply (StronglySorted_app_inv_mid _ pre mid post). rewrite <- Heq.
  apply reachable_ascending. exact Hst.
Qed.

Lemma current_at_most_max_without_gaps_witness :
  (current (calculateStreak (records three_day_state) K_workout)
   <= max (calculateStreak (records three_day_state) K_workout))%nat.
Proof.
  destruct current_at_most_max_without_gaps as [_ H].
  apply (H three_day_state [] (firstn 3 (records three_day_state))
           (skipn 3 (records three_day_state)) K_workout).
  - apply reachable_run.
  - symmetry. apply (firstn_skipn 3).
  - constructor.
  - vm_compute. repeat constructor.
  - apply List.Forall_forall. intros r Hr.
    assert (Hall : forallb (fun r => negb (isFilled r)) (skipn 3 (records three_day_state)) = true)
      by (vm_compute; reflexivity).
    rewrite forallb_forall in Hall. specialize (Hall r Hr).
    destruct (isFilled r); [discriminate | reflexivity].
Defined.

(** ** Logging a day later than every logged day *)

Lemma StronglySorted_filter {A : Type} (R : A -> A -> Prop) (p : A -> bool) (l : list A) :
  StronglySorted R l -> StronglySorted R (List.filter p l).
Proof.
  intros H. induction H as [|a l Hl IH Ha]; simpl; [constructor|].
  destruct (p a); [|exact IH]. constructor; [exact IH|].
  apply List.Forall_forall. intros x Hx. apply List.filter_In in Hx.
  rewrite List.Forall_forall in Ha. apply Ha. tauto.
Qed.

Lemma StronglySorted_lt_NoDup (l : list Z) : StronglySorted Z.lt l -> List.NoDup l.
Proof.
  intros H. induction H as [|a l Hl IH Ha]; constructor; [|exact IH].
  intros Hin. rewrite List.Forall_forall in Ha. specialize (Ha a Hin). lia.
Qed.

Lemma reachable_ids (st : AppState) :
  reachable st ->
  List.NoDup (List.map id (records st))
  /\ (forall r, In r (records st) -> id r = dayNumber r).
Proof.
  intros Hst. destruct (reachable_inv st Hst) as [(Hid & Hday & _) _]. split.
  - rewrite Hid. apply StronglySorted_lt_NoDup. apply seq_strictly_increasing.
  - assert (Heq : List.map id (records st) = List.map dayNumber (records st)) by congruence.
    clear Hid Hday. induction (records st) as [|x l IH]; intros r Hr; [destruct Hr|].
    simpl in Heq. injection Heq as Hx Hl. destruct Hr as [<- | Hr]; [exact Hx | auto].
Qed.

(** Filling the record [r], which is later than every filled record, puts
    it at the head of the sorted filled records. *)
Lemma sort_desc_after_filling_latest (f : DayRecord -> DayRecord)
    (rs : list DayRecord) (r : DayRecord) :
  StronglySorted (fun a b => dayNumber a < dayNumber b) rs ->
  List.NoDup (List.map id rs) ->
  In r rs -> isFilled r = false ->
  isFilled (f r) = true -> dayNumber (f r) = dayNumber r ->
  (forall x, id x <> id r -> f x = x) ->
  (forall x, In x rs -> isFilled x = true -> dayNumber x < dayNumber r) ->
  sort_desc (List.filter isFilled (List.map f rs))
  = f r :: sort_desc (List.filter isFilled rs).
Proof.
  intros Hasc Hnd Hin Hr Hfr Hday Hmiss Hlater. symmetry.
  assert (Hold : sort_desc (List.filter isFilled rs) = rev (List.filter isFilled rs)).
  { apply sort_desc_ascending. apply StronglySorted_filter. exact Hasc. }
  apply descending_unique.
  - unfold strictly_descending. constructor.
    + rewrite Hold. apply rev_strictly_descending. apply StronglySorted_filter. exact Hasc.
    + apply List.Forall_forall. intros x Hx. rewrite Hday.
      assert (Hx' : In x (List.filter isFilled rs))
        by (eapply Permutation_in; [apply sort_desc_perm | exact Hx]).
      apply List.filter_In in Hx'. apply Hlater; tauto.
  - apply sort_desc_descending.
  - rewrite !sort_desc_perm.
    destruct (in_split r rs Hin) as (l1 & l2 & ->).
    assert (Hother : forall x, In x (l1 ++ l2) -> f x = x).
    { intros x Hx. apply Hmiss. intros Heq.
      rewrite List.map_app in Hnd. simpl in Hnd. apply List.NoDup_remove_2 in Hnd.
      apply Hnd. rewrite <- List.map_app, <- Heq. apply in_map. exact Hx. }
    rewrite List.map_app. simpl.
    rewrite (map_id_ext f l1) by (intros x Hx; apply Hother; apply in_or_app; auto).
    rewrite (map_id_ext f l2) by (intros x Hx; apply Hother; apply in_or_app; auto).
    rewrite !List.filter_app. simpl. rewrite Hr, Hfr.
    apply Permutation_middle.
Qed.

(** X4. In a session, on a day that is not filled and is later than every
    filled day: logging a habit as done extends that habit's current streak
    by exactly one and resets the current streak of every other habit to 0;
    logging a habit as not done, or entering a metric, resets the current
    streak of every habit to 0. *)
Theorem logging_a_later_day :
  forall (st : AppState) (r : DayRecord),
    reachable st -> In r (records st) -> isFilled r = false ->
    (forall x, In x (records st) -> isFilled x = true -> dayNumber x < dayNumber r) ->
    (forall habit,
        current (calculateStreak (handleHabitChange (id r) habit true (records st)) habit)
        = S (current (calculateStreak (records st) habit)))
    /\ (forall habit k, k <> habit ->
        current (calculateStreak (handleHabitChange (id r) habit true (records st)) k)
        = 0%nat)
    /\ (forall habit k,
        current (calculateStreak (handleHabitChange (id r) habit false (records st)) k)
        = 0%nat)
    /\ (forall metric value k,
        current (calculateStreak (handleMetricChange (id r) metric value (records st)) k)
        = 0%nat).
Proof.
  intros st r Hst Hin Hr Hlater.
  pose proof (reachable_ascending st Hst) as Hasc.
  destruct (reachable_ids st Hst) as [Hnd _].
  destruct (reachable_inv st Hst) as [(_ & _ & Hun & _) _].
  rewrite List.Forall_forall in Hun. pose proof (Hun r Hin Hr) as Hfalse.
  assert (Hhabit : forall habit value k,
    current (calculateStreak (handleHabitChange (id r) habit value (records st)) k)
    = if flag k (habit_update (id r) habit value r)
      then S (current (calculateStreak (records st) k)) else 0%nat).
  { intros habit value k. rewrite !calculateStreak_current. unfold current_spec, handleHabitChange.
    rewrite (sort_desc_after_filling_latest _ _ r Hasc Hnd Hin Hr);
      [reflexivity | apply (habit_update_hit _ _ _ _ eq_refl) | apply habit_update_dayNumber
      | intros x Hx; apply habit_update_miss; exact Hx | exact Hlater]. }
  assert (Hmetric : forall metric value k,
    current (calculateStreak (handleMetricChange (id r) metric value (records st)) k)
    = if flag k (metric_update (id r) metric (numValue value) r)
      then S (current (calculateStreak (records st) k)) else 0%nat).
  { intros metric value k. rewrite !calculateStreak_current.
    unfold current_spec, handleMetricChange.
    rewrite (sort_desc_after_filling_latest _ _ r Hasc Hnd Hin Hr);
      [reflexivity | | | | exact Hlater]; unfold metric_update.
    - rewrite Z.eqb_refl. reflexivity.
    - destruct (id r =? id r); reflexivity.
    - intros x Hx. apply Z.eqb_neq in Hx. rewrite Hx. reflexivity. }
  split; [|split; [|split]].
  - intros habit. rewrite Hhabit, flag_habit_update, Z.eqb_refl.
    destruct (decide (habit = habit)); [reflexivity | congruence].
  - intros habit k Hk. rewrite Hhabit, flag_habit_update, Z.eqb_refl.
    destruct (decide (k = habit)); [congruence|]. rewrite Hfalse. reflexivity.
  - intros habit k. rewrite Hhabit, flag_habit_update, Z.eqb_refl.
    destruct (decide (k = habit)); [reflexivity|]. rewrite Hfalse. reflexivity.
  - intros metric value k. rewrite Hmetric, flag_metric_update, Hfalse. reflexivity.
Qed.

Lemma logging_a_later_day_witness :
  current (calculateStreak (handleHabitChange 4 K_workout true (records gap_state)) K_workout)
  = 3%nat
  /\ current (calculateStreak
                (handleMetricChange 4 K_studyHours "2" (records gap_state)) K_workout)
     = 0%nat.
Proof.
  pose (r := nth 3 (records gap_state) (initial_record 2025 0)).
  assert (Hin : In r (records gap_state)).
  { apply nth_In. vm_compute. lia. }
  assert (Hr : isFilled r = false) by (vm_compute; reflexivity).
  assert (Hlater : forall x, In x (records gap_state) -> isFilled x = true ->
                             dayNumber x < dayNumber r).
  { assert (Hall : forallb (fun x => negb (isFilled x) || (dayNumber x <? dayNumber r))
                     (records gap_state) = true) by (vm_compute; reflexivity).
    rewrite forallb_forall in Hall. intros x Hx Hf. specialize (Hall x Hx).
    rewrite Hf in Hall. simpl in Hall. apply Z.ltb_lt. exact Hall. }
  destruct (logging_a_later_day gap_state r (reachable_run 2025 _) Hin Hr Hlater)
    as (Hext & _ & _ & Hmet).
  split.
  - change 4 with (id r). rewrite Hext. vm_compute. reflexivity.
  - change 4 with (id r). apply Hmet.
Defined.

(** ** How the record edits compose *)

Lemma set_habit_twice hs h v1 v2 : set_habit (set_habit hs h v1) h v2 = set_habit hs h v2.
Proof. destruct h; reflexivity. Qed.

Lemma set_habit_swap hs h1 h2 v1 v2 :
  h1 <> h2 ->
  set_habit (set_habit hs h2 v2) h1 v1 = set_habit (set_habit hs h1 v1) h2 v2.
Proof. intros H. destruct h1, h2; try congruence; reflexivity. Qed.

Lemma set_metric_twice ms m v1 v2 : set_metric (set_metric ms m v1) m v2 = set_metric ms m v2.
Proof. destruct m; reflexivity. Qed.

Lemma set_metric_swap ms m1 m2 v1 v2 :
  m1 <> m2 ->
  set_metric (set_metric ms m2 v2) m1 v1 = set_metric (set_metric ms m1 v1) m2 v2.
Proof. intros H. destruct m1, m2; try congruence; reflexivity. Qed.

Lemma habit_update_twice d h v1 v2 r :
  habit_update d h v2 (habit_update d h v1 r) = habit_update d h v2 r.
Proof.
  unfold habit_update. destruct (id r =? d) eqn:E; simpl; rewrite E; [|reflexivity].
  rewrite set_habit_twice. reflexivity.
Qed.

Lemma habit_update_swap d1 h1 v1 d2 h2 v2 r :
  d1 <> d2 \/ h1 <> h2 ->
  habit_update d1 h1 v1 (habit_update d2 h2 v2 r)
  = habit_update d2 h2 v2 (habit_update d1 h1 v1 r).
Proof.
  intros H. unfold habit_update.
  destruct (id r =? d1) eqn:E1, (id r =? d2) eqn:E2; simpl; rewrite ?E1, ?E2; try reflexivity.
  apply Z.eqb_eq in E1, E2. destruct H as [H | H]; [congruence|].
  rewrite (set_habit_swap _ h1 h2) by exact H. reflexivity.
Qed.

Lemma metric_update_twice d m v1 v2 r :
  metric_update d m v2 (metric_update d m v1 r) = metric_update d m v2 r.
Proof.
  unfold metric_update. destruct (id r =? d) eqn:E; simpl; rewrite E; [|reflexivity].
  rewrite set_metric_twice. reflexivity.
Qed.

Lemma metric_update_swap d1 m1 v1 d2 m2 v2 r :
  d1 <> d2 \/ m1 <> m2 ->
  metric_update d1 m1 v1 (metric_update d2 m2 v2 r)
  = metric_update d2 m2 v2 (metric_update d1 m1 v1 r).
Proof.
  intros H. unfold metric_update.
  destruct (id r =? d1) eqn:E1, (id r =? d2) eqn:E2; simpl; rewrite ?E1, ?E2; try reflexivity.
  apply Z.eqb_eq in E1, E2. destruct H as [H | H]; [congruence|].
  rewrite (set_metric_swap _ m1 m2) by exact H. reflexivity.
Qed.

Lemma habit_metric_update_swap d1 h v d2 m n r :
  habit_update d1 h v (metric_update d2 m n r)
  = metric_update d2 m n (habit_update d1 h v r).
Proof.
  unfold habit_update, metric_update.
  destruct (id r =? d1) eqn:E1, (id r =? d2) eqn:E2; simpl; rewrite ?E1, ?E2; reflexivity.
Qed.

(** X5. Composition of the record edits.  A second handleHabitChange on
    the same day and habit overrides the first (so repeating an edit changes
    nothing), and likewise for handleMetricChange on the same day and metric;
    two habit edits, or two metric edits, on different days or different
    keys can be made in either order; a habit edit and a metric edit can
    always be made in either order. *)
Theorem record_edits_compose :
  forall prev : list DayRecord,
    (forall d h v1 v2,
        handleHabitChange d h v2 (handleHabitChange d h v1 prev)
        = handleHabitChange d h v2 prev)
    /\ (forall d m s1 s2,
        handleMetricChange d m s2 (handleMetricChange d m s1 prev)
        = handleMetricChange d m s2 prev)
    /\ (forall d1 h1 v1 d2 h2 v2,
        d1 <> d2 \/ h1 <> h2 ->
        handleHabitChange d1 h1 v1 (handleHabitChange d2 h2 v2 prev)
        = handleHabitChange d2 h2 v2 (handleHabitChange d1 h1 v1 prev))
    /\ (forall d1 m1 s1 d2 m2 s2,
        d1 <> d2 \/ m1 <> m2 ->
        handleMetricChange d1 m1 s1 (handleMetricChange d2 m2 s2 prev)
        = handleMetricChange d2 m2 s2 (handleMetricChange d1 m1 s1 prev))
    /\ (forall d1 h v d2 m s,
        handleHabitChange d1 h v (handleMetricChange d2 m s prev)
        = handleMetricChange d2 m s (handleHabitChange d1 h v prev)).
Proof.
  intros prev. unfold handleHabitChange, handleMetricChange.
  repeat match goal with |- _ /\ _ => split end; intros; rewrite !List.map_map;
    apply List.map_ext; intros r.
  - apply habit_update_twice.
  - apply metric_update_twice.
  - apply habit_update_swap. assumption.
  - apply metric_update_swap. assumption.
  - apply habit_metric_update_swap.
Qed.

Lemma record_edits_compose_witness :
  handleHabitChange 1 K_workout true (handleHabitChange 2 K_workout false sample_week)
  = handleHabitChange 2 K_workout false (handleHabitChange 1 K_workout true sample_week)
  /\ handleMetricChange 1 K_studyHours "3" (handleMetricChange 1 K_timeWasted "1" sample_week)
     = handleMetricChange 1 K_timeWasted "1" (handleMetricChange 1 K_studyHours "3" sample_week).
Proof.
  destruct (record_edits_compose sample_week) as (_ & _ & Hh & Hm & _).
  split.
  - apply Hh. left. discriminate.
  - apply Hm. right. discriminate.
Defined.

(** ** Clicking a habit toggle twice *)

Lemma set_habit_get hs h : set_habit hs h (get_habit hs h) = hs.
Proof. destruct hs, h; reflexivity. Qed.

(** X6. A HabitToggle clicked twice writes the habit's original value
    back: the result is handleHabitChange with the value the record had, so
    the day ends up filled with its flags as they were; when the day was
    already filled and ids are unique, the collection is exactly what it was
    before the two clicks. *)
Theorem toggle_click_twice :
  forall (prev : list DayRecord) (record : DayRecord) (habit : HabitKey),
    let clicked := habit_update (id record) habit (negb (flag habit record)) record in
    toggle_click clicked habit (toggle_click record habit prev)
    = handleHabitChange (id record) habit (flag habit record) prev
    /\ (List.NoDup (List.map id prev) -> In record prev -> isFilled record = true ->
        toggle_click clicked habit (toggle_click record habit prev) = prev).
Proof.
  intros prev record habit clicked.
  assert (Htwice : toggle_click clicked habit (toggle_click record habit prev)
                   = handleHabitChange (id record) habit (flag habit record) prev).
  { unfold toggle_click. subst clicked. rewrite habit_update_id.
    fold (flag habit (habit_update (id record) habit (negb (flag habit record)) record)).
    destruct (habit_update_hit (id record) habit (negb (flag habit record)) record eq_refl)
      as [_ ->].
    rewrite negb_involutive. fold (flag habit record).
    unfold handleHabitChange. rewrite List.map_map. apply List.map_ext.
    intros x. apply habit_update_twice. }
  split; [exact Htwice|].
  intros Hnd Hin Hfilled. rewrite Htwice. unfold handleHabitChange.
  apply map_id_ext. intros x Hx. unfold habit_update.
  destruct (id x =? id record) eqn:E; [|reflexivity].
  apply Z.eqb_eq in E.
  assert (x = record) by (eapply NoDup_map_eq; eauto). subst x.
  unfold flag. rewrite set_habit_get. destruct record; simpl in *. subst. reflexivity.
Qed.

Lemma toggle_click_twice_witness :
  toggle_click (habit_update 2 K_workout false (nth 1 sample_week (initial_record 2025 0)))
    K_workout (toggle_click (nth 1 sample_week (initial_record 2025 0)) K_workout sample_week)
  = sample_week.
Proof.
  pose (r := nth 1 sample_week (initial_record 2025 0)).
  destruct (toggle_click_twice sample_week r K_workout) as [_ H].
  apply H.
  - vm_compute. repeat (constructor; [simpl; intuition discriminate|]). constructor.
  - apply nth_In. vm_compute. lia.
  - vm_compute. reflexivity.
Defined.

(** ** The count of logged days *)

Section UpdateById.

Variable f : DayRecord -> DayRecord.
Variable d : Z.
Hypothesis f_miss : forall x, id x <> d -> f x = x.
Hypothesis f_hit : forall x, id x = d -> isFilled (f x) = true.

Lemma update_keeps_filled (x : DayRecord) : isFilled x = true -> isFilled (f x) = true.
Proof.
  intros Hx. destruct (Z.eq_dec (id x) d) as [Heq | Hne]; [apply f_hit; exact Heq|].
  rewrite f_miss by exact Hne. exact Hx.
Qed.

Lemma update_completed_le (l : list DayRecord) :
  (completedDays l <= completedDays (List.map f l))%nat.
Proof.
  unfold completedDays. induction l as [|x l IH]; simpl; [lia|].
  destruct (isFilled x) eqn:Hx.
  - rewrite (update_keeps_filled x Hx). simpl. lia.
  - destruct (isFilled (f x)); simpl; lia.
Qed.

Lemma update_completed_same (l : list DayRecord) :
  (forall r, In r l -> id r = d -> isFilled r = true) ->
  completedDays (List.map f l) = completedDays l.
Proof.
  intros H. unfold completedDays. rewrite filter_map_same_filled; [apply length_map|].
  intros x Hx. destruct (Z.eq_dec (id x) d) as [Heq | Hne].
  - rewrite (H x Hx Heq). apply f_hit. exact Heq.
  - rewrite f_miss by exact Hne. reflexivity.
Qed.

Lemma update_completed_succ (l : list DayRecord) (r : DayRecord) :
  List.NoDup (List.map id l) -> In r l -> id r = d -> isFilled r = false ->
  completedDays (List.map f l) = S (completedDays l).
Proof.
  intros Hnd Hin Hid Hr. destruct (in_split r l Hin) as (l1 & l2 & ->).
  assert (Hother : forall x, In x (l1 ++ l2) -> f x = x).
  { intros x Hx. apply f_miss. intros Heq.
    rewrite List.map_app in Hnd. simpl in Hnd. apply List.NoDup_remove_2 in Hnd.
    apply Hnd. rewrite <- List.map_app, Hid, <- Heq. apply in_map. exact Hx. }
  unfold completedDays. rewrite List.map_app. simpl.
  rewrite (map_id_ext f l1) by (intros x Hx; apply Hother; apply in_or_app; auto).
  rewrite (map_id_ext f l2) by (intros x Hx; apply Hother; apply in_or_app; auto).
  rewrite !List.filter_app. simpl. rewrite Hr, (f_hit r Hid).
  rewrite !length_app. simpl. lia.
Qed.

End UpdateById.

Lemma habit_update_hit_filled d habit value x :
  id x = d -> isFilled (habit_update d habit value x) = true.
Proof. intros H. apply (habit_update_hit d habit value x H). Qed.

Lemma metric_update_miss d metric v x : id x <> d -> metric_update d metric v x = x.
Proof. intros H. apply Z.eqb_neq in H. unfold metric_update. rewrite H. reflexivity. Qed.

Lemma metric_update_hit_filled d metric v x :
  id x = d -> isFilled (metric_update d metric v x) = true.
Proof. intros H. apply Z.eqb_eq in H. unfold metric_update. rewrite H. reflexivity. Qed.

Lemma reachable_length (st : AppState) : reachable st -> length (records st) = 365%nat.
Proof.
  intros Hst. destruct (reachable_inv st Hst) as [(Hid & _) _].
  rewrite <- (length_map id), Hid. unfold days. rewrite length_map, length_seq. reflexivity.
Qed.

(** X7. completedDays never decreases under an edit.  A record edit on a
    day id whose records are already filled leaves it unchanged, and in a
    session an edit on a day that is not filled raises it by exactly one; it
    never exceeds 365 in a session. *)
Theorem completedDays_under_edits :
  (forall st e,
      (completedDays (records st) <= completedDays (records (apply_edit st e)))%nat)
  /\ (forall prev d,
      (forall r, In r prev -> id r = d -> isFilled r = true) ->
      (forall habit value,
          completedDays (handleHabitChange d habit value prev) = completedDays prev)
      /\ (forall metric value,
          completedDays (handleMetricChange d metric value prev) = completedDays prev))
  /\ (forall st r,
      reachable st -> In r (records st) -> isFilled r = false ->
      (forall habit value,
          completedDays (handleHabitChange (id r) habit value (records st))
          = S (completedDays (records st)))
      /\ (forall metric value,
          completedDays (handleMetricChange (id r) metric value (records st))
          = S (completedDays (records st))))
  /\ (forall st, reachable st -> (completedDays (records st) <= 365)%nat).
Proof.
  split; [|split; [|split]].
  - intros st [d habit value | d metric value | m field value]; simpl; [| |lia].
    + apply (update_completed_le _ d);
        [apply habit_update_miss | apply habit_update_hit_filled].
    + apply (update_completed_le _ d);
        [apply metric_update_miss | apply metric_update_hit_filled].
  - intros prev d Hfilled. split; intros.
    + apply (update_completed_same _ d);
        [apply habit_update_miss | apply habit_update_hit_filled | exact Hfilled].
    + apply (update_completed_same _ d);
        [apply metric_update_miss | apply metric_update_hit_filled | exact Hfilled].
  - intros st r Hst Hin Hr. destruct (reachable_ids st Hst) as [Hnd _]. split; intros.
    + apply (update_completed_succ _ (id r) (habit_update_miss _ _ _)
               (habit_update_hit_filled _ _ _) _ r); auto.
    + apply (update_completed_succ _ (id r) (metric_update_miss _ _ _)
               (metric_update_hit_filled _ _ _) _ r); auto.
  - intros st Hst. rewrite <- (reachable_length st Hst).
    unfold completedDays. apply List.filter_length_le.
Qed.

Lemma completedDays_under_edits_witness :
  completedDays (handleMetricChange 5 K_studyHours "1" sample_year) = completedDays sample_year
  /\ completedDays (handleMetricChange 6 K_studyHours "1" sample_year)
     = S (completedDays sample_year)
  /\ (completedDays sample_year <= 365)%nat.
Proof.
  destruct completedDays_under_edits as (_ & Hsame & Hsucc & Hmax).
  pose (d := initial_record 2025 0).
  split; [|split].
  - apply (Hsame sample_year 5). intros r Hr Hid.
    assert (Hall : forallb (fun x => negb (id x =? 5) || isFilled x) sample_year = true)
      by (vm_compute; reflexivity).
    rewrite forallb_forall in Hall. specialize (Hall r Hr).
    apply Z.eqb_eq in Hid. rewrite Hid in Hall. exact Hall.
  - change 6 with (id (nth 5 sample_year d)).
    apply (Hsucc sample_state (nth 5 sample_year d) (reachable_run 2025 _)).
    + apply nth_In. vm_compute. lia.
    + vm_compute. reflexivity.
  - apply (Hmax sample_state (reachable_run 2025 _)).
Defined.

(** ** Totals and scores *)

Lemma reachable_untouched_metrics (st : AppState) :
  reachable st ->
  Forall (fun r => isFilled r = false ->
                   studyHours (metrics r) = Num 0 /\ timeWasted (metrics r) = Num 0)
    (records st).
Proof.
  intros (year & edits & ->). induction edits as [|e edits IH] using rev_ind.
  - simpl. apply List.Forall_forall. intros r Hr.
    unfold generateInitialData in Hr. apply in_map_iff in Hr.
    destruct Hr as (i & <- & _). intros _. split; reflexivity.
  - rewrite run_snoc. rewrite List.Forall_forall in IH.
    destruct e as [d habit value | d metric value | m field value]; simpl;
      [| |apply List.Forall_forall; exact IH].
    + apply List.Forall_forall. intros r' Hr'. unfold handleHabitChange in Hr'.
      apply in_map_iff in Hr'. destruct Hr' as (r & <- & Hr). unfold habit_update.
      destruct (id r =? d); [simpl; discriminate | apply IH; exact Hr].
    + apply List.Forall_forall. intros r' Hr'. unfold handleMetricChange in Hr'.
      apply in_map_iff in Hr'. destruct Hr' as (r & <- & Hr). unfold metric_update.
      destruct (id r =? d); [simpl; discriminate | apply IH; exact Hr].
Qed.

(** A sum of one metric over records whose unfilled records hold 0 and
    whose values lie in [0, 24] is a binary64 value of at most 24 per filled
    record: the bound of each partial sum is an integer, which the rounding
    does not pass. *)
Lemma metric_sum_bounds (get : DayRecord -> number) (l : list DayRecord) :
  Forall (fun r => Number.within 0 24 (get r)) l ->
  Forall (fun r => isFilled r = false -> get r = Num 0) l ->
  forall (a : Q) (k : Z),
    0 <= k -> 24 * (k + Z.of_nat (completedDays l)) <= 2 ^ 53 ->
    (0 <= a)%Q -> (a <= inject_Z (24 * k))%Q -> double a ->
    exists s, fold_left (fun acc r => Number.add acc (get r)) l (Num a) = Num s
              /\ (0 <= s)%Q
              /\ (s <= inject_Z (24 * (k + Z.of_nat (completedDays l))))%Q
              /\ double s.
Proof.
  intros Hin Hun. induction l as [|r l IH]; intros a k Hk Hlen Ha0 Ha1 Da;
    cbn [fold_left].
  - exists a. change (Z.of_nat (completedDays [])) with 0. rewrite Z.add_0_r. auto.
  - inversion Hin as [|? ? Hr Hin']; subst. inversion Hun as [|? ? Hr0 Hun']; subst.
    destruct (get r) as [x | | |] eqn:Hget; [|destruct Hr ..]. simpl in Hr.
    unfold completedDays in *. cbn [List.filter] in *.
    destruct (isFilled r) eqn:Hf.
    + cbn [length] in *. rewrite Nat2Z.inj_succ in *.
      assert (Hk1 : (inject_Z (24 * (k + 1)) == inject_Z (24 * k) + 24)%Q).
      { replace (24 * (k + 1)) with (24 * k + 24) by lia.
        rewrite inject_Z_plus. reflexivity. }
      destruct (add_between a x 0 (24 * (k + 1))) as (a' & Ha' & Ha'0 & Ha'1 & Da');
        [lia | lia | change (inject_Z 0) with 0%Q; lra | rewrite Hk1; lra |].
      rewrite Ha'.
      destruct (IH Hin' Hun' a' (k + 1)) as (s & Hs & Hs0 & Hs1 & Ds);
        [lia | lia | exact Ha'0 | exact Ha'1 | exact Da' |].
      exists s. split; [exact Hs|]. split; [exact Hs0|]. split; [|exact Ds].
      replace (k + Z.succ (Z.of_nat (length (List.filter isFilled l))))
        with (k + 1 + Z.of_nat (length (List.filter isFilled l))) by lia.
      exact Hs1.
    + specialize (Hr0 eq_refl). injection Hr0 as Hx0.
      assert (Hx : (x == 0)%Q) by (rewrite Hx0; reflexivity).
      destruct (add_between a x 0 (24 * k)) as (a' & Ha' & Ha'0 & Ha'1 & Da');
        [lia | lia | change (inject_Z 0) with 0%Q; lra | lra |].
      rewrite Ha'.
      apply (IH Hin' Hun' a' k); assumption.
Qed.

(** The two totals of a session. *)
Lemma session_totals (st : AppState) :
  reachable st ->
  exists s w : Q,
    totalStudyHours (records st) = Num s
    /\ totalWastedHours (records st) = Num w
    /\ (0 <= s)%Q /\ (s <= 24 * inject_Z (Z.of_nat (completedDays (records st))))%Q
    /\ (0 <= w)%Q /\ (w <= 24 * inject_Z (Z.of_nat (completedDays (records st))))%Q
    /\ double s /\ double w
    /\ (completedDays (records st) <= 365)%nat.
Proof.
  intros Hst. destruct (reachable_inv st Hst) as [(_ & _ & _ & Hmet) _].
  pose proof (reachable_untouched_metrics st Hst) as Hun.
  assert (Hn : (completedDays (records st) <= 365)%nat).
  { rewrite <- (reachable_length st Hst). unfold completedDays. apply List.filter_length_le. }
  assert (Hbig : 24 * 365 <= 2 ^ 53) by (vm_compute; discriminate).
  destruct (metric_sum_bounds (fun r => studyHours (metrics r)) (records st))
    with (a := 0%Q) (k := 0) as (s & Hs & Hs0 & Hs1 & Ds).
  { eapply List.Forall_impl; [|exact Hmet]. intros r Hr. exact (Hr K_studyHours). }
  { eapply List.Forall_impl; [|exact Hun]. intros r Hr Hf. apply Hr. exact Hf. }
  { lia. } { lia. } { lra. } { change (inject_Z (24 * 0)) with 0%Q. lra. } { exact double_0. }
  destruct (metric_sum_bounds (fun r => timeWasted (metrics r)) (records st))
    with (a := 0%Q) (k := 0) as (w & Hw & Hw0 & Hw1 & Dw).
  { eapply List.Forall_impl; [|exact Hmet]. intros r Hr. exact (Hr K_timeWasted). }
  { eapply List.Forall_impl; [|exact Hun]. intros r Hr Hf. apply Hr. exact Hf. }
  { lia. } { lia. } { lra. } { change (inject_Z (24 * 0)) with 0%Q. lra. } { exact double_0. }
  rewrite Z.add_0_l, inject_Z_mult in Hs1, Hw1. change (inject_Z 24) with 24%Q in Hs1, Hw1.
  exists s, w. unfold totalStudyHours, totalWastedHours.
  split; [exact Hs|]. split; [exact Hw|]. auto 10.
Qed.

(** X8. In a session the two totals are finite, not negative and at most
    24 hours per logged day: records that were never edited contribute
    nothing. *)
Theorem totals_bounded_by_logged_days :
  forall st : AppState,
    reachable st ->
    exists s w : Q,
      totalStudyHours (records st) = Num s
      /\ totalWastedHours (records st) = Num w
      /\ (0 <= s)%Q /\ (s <= 24 * inject_Z (Z.of_nat (completedDays (records st))))%Q
      /\ (0 <= w)%Q /\ (w <= 24 * inject_Z (Z.of_nat (completedDays (records st))))%Q.
Proof.
  intros st Hst.
  destruct (session_totals st Hst) as (s & w & Hs & Hw & Hs0 & Hs1 & Hw0 & Hw1 & _).
  exists s, w. auto 10.
Qed.

Lemma totals_bounded_by_logged_days_witness :
  exists s w : Q,
    totalStudyHours (records zero_limit_state) = Num s
    /\ totalWastedHours (records zero_limit_state) = Num w
    /\ (0 <= s)%Q /\ (s <= 24 * inject_Z (Z.of_nat (completedDays (records zero_limit_state))))%Q
    /\ (0 <= w)%Q /\ (w <= 24 * inject_Z (Z.of_nat (completedDays (records zero_limit_state))))%Q.
Proof. exact (totals_bounded_by_logged_days zero_limit_state (reachable_run 2025 _)). Defined.

(** X9. In a session productivityScore is a finite whole number in
    [0, 100], never NaN: 0 when nothing has been logged or no study hours
    were, and 100 when study hours were logged and no wasted ones. *)
Theorem productivityScore_in_range :
  forall st : AppState,
    reachable st ->
    exists (s w : Q) (score : Z),
      totalStudyHours (records st) = Num s
      /\ totalWastedHours (records st) = Num w
      /\ productivityScore (records st) = Number.of_Z score
      /\ 0 <= score <= 100
      /\ ((s == 0)%Q -> score = 0)
      /\ ((0 < s)%Q -> (w == 0)%Q -> score = 100).
Proof.
  intros st Hst.
  destruct (session_totals st Hst)
    as (s & w & Hs & Hw & Hs0 & Hs1 & Hw0 & Hw1 & Ds & Dw & Hn).
  exists s, w. unfold productivityScore. cbv zeta. rewrite Hs, Hw.
  assert (Hcd : (inject_Z (Z.of_nat (completedDays (records st))) <= 365)%Q).
  { change 365%Q with (inject_Z 365). rewrite <- Zle_Qle. lia. }
  destruct (binary64_between (s + w) s 17520) as (t & Ht & Hts & Ht1 & Dt);
    [lra | lra | exact Ds | vm_compute; reflexivity |].
  change (Number.add (Num s) (Num w)) with (Number.binary64 (s + w)). rewrite Ht.
  change (strict_equal (Num t) (Number.of_Z 0)) with (Qeq_bool t 0).
  destruct (Qeq_bool t 0) eqn:Hsum.
  - apply Qeq_bool_iff in Hsum. exists 0.
    split; [reflexivity|]. split; [reflexivity|]. split; [reflexivity|].
    split; [lia|]. split; [reflexivity|]. intros Hpos _. exfalso. lra.
  - apply Qeq_bool_neq in Hsum. assert (Hpos : (0 < t)%Q) by lra.
    destruct (percent_of_ratio s t Hs0 Hts Hpos) as (z & Hz & Hzr).
    exists z. split; [reflexivity|]. split; [reflexivity|]. split; [exact Hz|].
    split; [exact Hzr|]. split.
    + intros Hzero.
      assert (H0 : Number.round (Number.mul (Number.div (Num s) (Num t)) (Number.of_Z 100))
                   = Number.of_Z 0).
      { unfold Number.div.
        destruct (Qeq_bool t 0) eqn:Ht0; [apply Qeq_bool_iff in Ht0; lra|].
        rewrite (binary64_comp (s / t) 0) by (rewrite Hzero; field; exact Hsum).
        reflexivity. }
      rewrite H0 in Hz. unfold Number.of_Z in Hz. injection Hz as Hz. lia.
    + intros Hspos Hwz.
      assert (Hteq : (t == s)%Q).
      { rewrite (binary64_comp (s + w) s) in Ht by lra. rewrite Ds in Ht.
        injection Ht as <-. reflexivity. }
      assert (H100 : Number.round (Number.mul (Number.div (Num s) (Num t)) (Number.of_Z 100))
                     = Number.of_Z 100).
      { unfold Number.div.
        destruct (Qeq_bool t 0) eqn:Ht0; [apply Qeq_bool_iff in Ht0; lra|].
        rewrite (binary64_comp (s / t) 1) by (rewrite Hteq; field; lra).
        reflexivity. }
      rewrite H100 in Hz. unfold Number.of_Z in Hz. injection Hz as Hz. lia.
Qed.

Lemma productivityScore_in_range_witness :
  exists (s w : Q) (score : Z),
    totalStudyHours (records zero_limit_state) = Num s
    /\ totalWastedHours (records zero_limit_state) = Num w
    /\ productivityScore (records zero_limit_state) = Number.of_Z score
    /\ 0 <= score <= 100
    /\ ((s == 0)%Q -> score = 0)
    /\ ((0 < s)%Q -> (w == 0)%Q -> score = 100).
Proof. exact (productivityScore_in_range zero_limit_state (reachable_run 2025 _)). Defined.

(** ** The two progress percentages *)

(** For every count of days from 0 to 365 the binary64 quotient and product
    round to the whole percentage of the exact ratio. *)
Lemma annual_percentages_checked :
  forallb (fun n =>
      match Number.round
              (Number.mul (Number.div (Number.of_Z (Z.of_nat n)) (Number.of_Z 365))
                 (Number.of_Z 100)) with
      | Num (Qmake p 1) => p =? Qfloor (inject_Z (Z.of_nat n) / 365 * 100 + (1 # 2))
      | _ => false
      end) (seq 0 366) = true.
Proof. vm_compute. reflexivity. Qed.

Lemma percentage_of_counts (n : nat) :
  (n <= 365)%nat ->
  let p := Qfloor (inject_Z (Z.of_nat n) / 365 * 100 + (1 # 2)) in
  Number.round
    (Number.mul (Number.div (Number.of_Z (Z.of_nat n)) (Number.of_Z 365)) (Number.of_Z 100))
  = Number.of_Z p
  /\ percentage (Number.of_Z (Z.of_nat n)) (Number.of_Z 365) = Number.of_Z p
  /\ 0 <= p <= 100.
Proof.
  intros Hn p.
  pose proof annual_percentages_checked as Hall.
  rewrite forallb_forall in Hall. specialize (Hall n).
  assert (Hin : In n (seq 0 366)) by (apply in_seq; lia).
  specialize (Hall Hin).
  assert (Hround : Number.round
            (Number.mul (Number.div (Number.of_Z (Z.of_nat n)) (Number.of_Z 365))
               (Number.of_Z 100))
          = Number.of_Z p).
  { destruct (Number.round _) as [[a d] | | |]; try discriminate.
    destruct d; try discriminate. apply Z.eqb_eq in Hall. subst a. reflexivity. }
  assert (Hq0 : (0 <= inject_Z (Z.of_nat n))%Q)
    by (change 0%Q with (inject_Z 0); rewrite <- Zle_Qle; lia).
  assert (Hqn : (inject_Z (Z.of_nat n) <= 365)%Q)
    by (change 365%Q with (inject_Z 365); rewrite <- Zle_Qle; lia).
  assert (Hp : 0 <= p <= 100).
  { unfold p. set (r := (inject_Z (Z.of_nat n) / 365)%Q).
    assert (H0 : (0 <= r)%Q) by (apply Qle_shift_div_l; lra).
    assert (H1 : (r <= 1)%Q) by (apply Qle_shift_div_r; lra).
    apply (round_between (r * 100) 0 100);
      [change (inject_Z 0) with 0%Q | change (inject_Z 100) with 100%Q]; lra. }
  split; [exact Hround|]. split; [|exact Hp].
  unfold percentage. rewrite Hround. unfold Number.min, Number.of_Z, Number.le.
  destruct (Qle_bool (inject_Z 100) (inject_Z p)) eqn:Hle; [|reflexivity].
  apply Qle_bool_iff in Hle. rewrite <- Zle_Qle in Hle.
  assert (p = 100) by lia. congruence.
Qed.

(** X10. In a session the sidebar's annual goal and the ProgressTracker
    show the same whole percentage of the 365 days, between 0 and 100: the
    tracker's cap at 100 never applies.  Whatever its inputs, the tracker
    shows NaN or a value that is at most 100. *)
Theorem progress_percentages :
  (forall st : AppState,
      reachable st ->
      exists p : Z,
        annualGoal (records st) = Number.of_Z p
        /\ progressTracker (records st) = Number.of_Z p
        /\ 0 <= p <= 100
        /\ p = Qfloor (inject_Z (Z.of_nat (completedDays (records st))) / 365 * 100
                       + (1 # 2)))
  /\ (forall completedDays0 totalDays : number,
      percentage completedDays0 totalDays <> NaN ->
      Number.le (percentage completedDays0 totalDays) (Number.of_Z 100) = true).
Proof.
  split.
  - intros st Hst.
    assert (Hn : (completedDays (records st) <= 365)%nat).
    { rewrite <- (reachable_length st Hst). unfold completedDays. apply List.filter_length_le. }
    destruct (percentage_of_counts (completedDays (records st)) Hn)
      as (Hround & Hperc & Hp).
    eexists. split; [exact Hround|]. split; [exact Hperc|]. split; [exact Hp | reflexivity].
  - intros c t. unfold percentage.
    destruct (Number.round (Number.mul (Number.div c t) (Number.of_Z 100))) as [x | | |];
      intros Hnan; simpl in *; try reflexivity; try congruence.
    destruct (Qle_bool (inject_Z 100) x) eqn:Hle; simpl; [reflexivity|].
    apply Qle_bool_false in Hle. apply Qle_bool_iff. lra.
Qed.

Lemma progress_percentages_witness :
  annualGoal sample_year = Num 1 /\ progressTracker sample_year = Num 1.
Proof.
  destruct progress_percentages as [H _].
  destruct (H sample_state (reachable_run 2025 _)) as (p & Ha & Hp & _ & Heq).
  assert (Hp1 : p = 1) by (rewrite Heq; vm_compute; reflexivity).
  subst p. split; [exact Ha | exact Hp].
Defined.

(** ** The goal editor *)

Lemma get_set_goal_field goal field num k :
  get_goal_field (set_goal_field goal field num) k
  = if decide (k = field) then Some num else get_goal_field goal k.
Proof. destruct field, k; reflexivity. Qed.

Lemma set_goal_field_twice goal field n1 n2 :
  set_goal_field (set_goal_field goal field n1) field n2 = set_goal_field goal field n2.
Proof. destruct field; reflexivity. Qed.

Lemma set_goal_field_swap goal f1 f2 n1 n2 :
  f1 <> f2 ->
  set_goal_field (set_goal_field goal f2 n2) f1 n1
  = set_goal_field (set_goal_field goal f1 n1) f2 n2.
Proof. intros H. destruct f1, f2; try congruence; reflexivity. Qed.

(** X11. updateGoal read back: the edited month has an entry whose edited
    field is the parsed input, with input that is not a number stored as 0
    (never NaN); its other field and its month name are what the entry had
    before (absent when the month had no entry), and every other month is
    left as it was. *)
Theorem updateGoal_read_back :
  forall (m : string) (field : GoalField) (value : string)
         (prev : gmap string MonthlyGoal),
    (forall m', m' <> m -> updateGoal m field value prev !! m' = prev !! m')
    /\ (exists goal,
          updateGoal m field value prev !! m = Some goal
          /\ get_goal_field goal field
             = Some (Number.or (parseFloat value) (Number.of_Z 0))
          /\ get_goal_field goal field <> Some NaN
          /\ (parseFloat value = NaN -> get_goal_field goal field = Some (Num 0))
          /\ (forall k, k <> field ->
                get_goal_field goal k = get_goal_field (spread_goal (prev !! m)) k)
          /\ month goal = month (spread_goal (prev !! m))
          /\ (prev !! m = None ->
              month goal = None /\ forall k, k <> field -> get_goal_field goal k = None)).
Proof.
  intros m field value prev. unfold updateGoal. split.
  - intros m' Hne. apply lookup_insert_ne. congruence.
  - eexists. split; [apply lookup_insert_eq|].
    split; [rewrite get_set_goal_field; destruct (decide (field = field)); congruence|].
    split.
    { rewrite get_set_goal_field. destruct (decide (field = field)); [|congruence].
      intros [= H]. exact (or_zero_not_NaN _ H). }
    split.
    { intros Hnan. rewrite get_set_goal_field, Hnan.
      destruct (decide (field = field)); [reflexivity | congruence]. }
    split.
    { intros k Hk. rewrite get_set_goal_field. destruct (decide (k = field)); congruence. }
    split; [destruct field; reflexivity|].
    intros Hnone. rewrite Hnone. split; [destruct field; reflexivity|].
    intros k Hk. rewrite get_set_goal_field.
    destruct (decide (k = field)); [congruence|]. destruct k; reflexivity.
Qed.

Lemma updateGoal_read_back_witness :
  (exists goal, updateGoal "March" K_studyTarget "abc" initialGoals !! "March"%string
                = Some goal
                /\ studyTarget goal = Some (Num 0)
                /\ wasteLimit goal = Some (Num 30))
  /\ updateGoal "March" K_studyTarget "abc" initialGoals !! "April"%string
     = initialGoals !! "April"%string
  /\ (exists goal, updateGoal "Smarch" K_wasteLimit "7" initialGoals !! "Smarch"%string
                   = Some goal
                   /\ studyTarget goal = None /\ month goal = None).
Proof.
  destruct (updateGoal_read_back "March" K_studyTarget "abc" initialGoals)
    as (Hother & goal & Hg & _ & _ & Hnan & Hkeep & _).
  destruct (updateGoal_read_back "Smarch" K_wasteLimit "7" initialGoals)
    as (_ & goal' & Hg' & _ & _ & _ & _ & _ & Hnew).
  split; [|split].
  - exists goal. split; [exact Hg|]. split.
    + apply Hnan. vm_compute. reflexivity.
    + change (get_goal_field goal K_wasteLimit = Some (Num 30)).
      rewrite (Hkeep K_wasteLimit) by discriminate. vm_compute. reflexivity.
  - apply Hother. discriminate.
  - exists goal'. split; [exact Hg'|].
    destruct Hnew as [Hmonth Hfields]; [vm_compute; reflexivity|].
    split; [apply (Hfields K_studyTarget); discriminate | exact Hmonth].
Defined.

(** X12. Composition of goal edits: a second updateGoal on the same month
    and field overrides the first; two edits of different months, or of
    different fields of one month, can be made in either order. *)
Theorem updateGoal_compose :
  forall prev : gmap string MonthlyGoal,
    (forall m field v1 v2,
        updateGoal m field v2 (updateGoal m field v1 prev) = updateGoal m field v2 prev)
    /\ (forall m1 f1 v1 m2 f2 v2,
        m1 <> m2 \/ f1 <> f2 ->
        updateGoal m1 f1 v1 (updateGoal m2 f2 v2 prev)
        = updateGoal m2 f2 v2 (updateGoal m1 f1 v1 prev)).
Proof.
  intros prev. split.
  - intros m field v1 v2. unfold updateGoal.
    rewrite lookup_insert_eq, insert_insert_eq. simpl.
    rewrite set_goal_field_twice. reflexivity.
  - intros m1 f1 v1 m2 f2 v2 H. unfold updateGoal.
    destruct (decide (m1 = m2)) as [-> | Hm].
    + destruct H as [H | H]; [congruence|].
      rewrite !lookup_insert_eq, !insert_insert_eq. simpl.
      rewrite (set_goal_field_swap _ f1 f2) by exact H. reflexivity.
    + rewrite (lookup_insert_ne _ m2 m1) by congruence.
      rewrite (lookup_insert_ne _ m1 m2) by congruence.
      apply insert_insert_ne. congruence.
Qed.

Lemma updateGoal_compose_witness :
  updateGoal "May" K_studyTarget "120" (updateGoal "May" K_wasteLimit "10" initialGoals)
  = updateGoal "May" K_wasteLimit "10" (updateGoal "May" K_studyTarget "120" initialGoals).
Proof.
  destruct (updateGoal_compose initialGoals) as [_ H]. apply H. right. discriminate.
Defined.

(** ** When the monthly grid can be computed *)

(** X13. monthlyData faults exactly when one of the twelve months has no
    goal entry; otherwise it has one entry per month, in calendar order.
    updateGoal never removes an entry, so a grid that can be computed can
    still be computed after any goal edit and for any records. *)
Theorem monthlyData_fault :
  forall (getMonthName : string -> string) (records0 : list DayRecord)
         (goals0 : gmap string MonthlyGoal),
    (monthlyData getMonthName records0 goals0 = None
     <-> exists m, In m monthsList /\ goals0 !! m = None)
    /\ (forall entries,
          monthlyData getMonthName records0 goals0 = Some entries ->
          List.map entry_month entries = monthsList /\ length entries = 12%nat)
    /\ (forall m field value records1,
          is_Some (monthlyData getMonthName records0 goals0) ->
          is_Some (monthlyData getMonthName records1 (updateGoal m field value goals0))).
Proof.
  intros gm rs g.
  assert (Hsome : forall rs' g', is_Some (monthlyData gm rs' g')
                                 <-> forall m, In m monthsList -> is_Some (g' !! m)).
  { intros rs' g'. unfold monthlyData. rewrite mapM_is_Some, List.Forall_forall.
    split; intros H m Hm; specialize (H m Hm); simpl in *;
      destruct (g' !! m); eauto; destruct H; discriminate. }
  split; [|split].
  - rewrite eq_None_not_Some, Hsome. split.
    + intros Hnot. destruct (List.Forall_Exists_dec (fun m => is_Some (g !! m))
                               (fun m => is_Some_dec (g !! m)) monthsList) as [Hall | Hex].
      * exfalso. apply Hnot. rewrite List.Forall_forall in Hall. exact Hall.
      * apply List.Exists_exists in Hex. destruct Hex as (m & Hm & Hn).
        exists m. split; [exact Hm|]. apply eq_None_not_Some. exact Hn.
    + intros (m & Hm & Hnone) Hall. specialize (Hall m Hm). rewrite Hnone in Hall.
      destruct Hall; discriminate.
  - intros entries He. destruct (monthlyData_entries gm rs g entries He) as [Hm _].
    split; [exact Hm|]. rewrite <- (length_map entry_month), Hm. reflexivity.
  - intros m field value rs1 H. rewrite Hsome in H. apply Hsome. intros m' Hm'.
    unfold updateGoal. destruct (decide (m = m')) as [-> | Hne].
    + rewrite lookup_insert_eq. eauto.
    + rewrite lookup_insert_ne by exact Hne. apply H. exact Hm'.
Qed.

Lemma monthlyData_fault_witness :
  monthlyData getMonthName_en sample_year (delete "June"%string initialGoals) = None
  /\ is_Some (monthlyData getMonthName_en sample_year
                (updateGoal "June" K_wasteLimit "5" initialGoals)).
Proof.
  split.
  - destruct (monthlyData_fault getMonthName_en sample_year
                (delete "June"%string initialGoals)) as [[_ H] _].
    apply H. exists "June"%string. split; [vm_compute; tauto | apply lookup_delete_eq].
  - destruct (monthlyData_fault getMonthName_en (generateInitialData 2025) initialGoals)
      as (_ & _ & H).
    apply H. vm_compute. eauto.
Defined.

(** ** The monthly grid against the daily log *)

Lemma stats_fold_split (l : list DayRecord) :
  forall a b : number,
    fold_left (fun acc r =>
        {| study := Number.add (study acc) (studyHours (metrics r));
           wasted := Number.add (wasted acc) (timeWasted (metrics r)) |})
      l {| study := a; wasted := b |}
    = {| study := fold_left (fun acc r => Number.add acc (studyHours (metrics r))) l a;
         wasted := fold_left (fun acc r => Number.add acc (timeWasted (metrics r))) l b |}.
Proof. induction l as [|r l IH]; intros a b; simpl; [reflexivity | apply IH]. Qed.

Lemma monthStats_totals (getMonthName : string -> string) (rs : list DayRecord) (m : string) :
  m <> "All"%string ->
  monthStats getMonthName rs m
  = {| study := totalStudyHours (filteredRecords getMonthName rs m);
       wasted := totalWastedHours (filteredRecords getMonthName rs m) |}.
Proof.
  intros Hm. unfold monthStats, filteredRecords, totalStudyHours, totalWastedHours.
  apply String.eqb_neq in Hm. rewrite Hm. apply stats_fold_split.
Qed.

(** X14. The grid and the daily log agree: the study and waste totals that
    monthlyData reports for a month are totalStudyHours and totalWastedHours
    of the records the daily log shows when that month is selected; with
    'All' selected the log shows every record, and a month's view is the
    records of that month in their order. *)
Theorem monthly_totals_match_filtered_log :
  forall (getMonthName : string -> string) (records0 : list DayRecord),
    filteredRecords getMonthName records0 "All" = records0
    /\ (forall m, m <> "All"%string ->
          filteredRecords getMonthName records0 m
          = List.filter (fun r => String.eqb (getMonthName (date r)) m) records0)
    /\ (forall goals0 entries,
          monthlyData getMonthName records0 goals0 = Some entries ->
          Forall (fun e =>
                    actualStudy e
                    = totalStudyHours (filteredRecords getMonthName records0 (entry_month e))
                    /\ actualWaste e
                       = totalWastedHours
                           (filteredRecords getMonthName records0 (entry_month e)))
            entries).
Proof.
  intros gm rs. split; [reflexivity|]. split.
  - intros m Hm. unfold filteredRecords. apply String.eqb_neq in Hm. rewrite Hm. reflexivity.
  - intros g entries He. destruct (monthlyData_entries gm rs g entries He) as [Hmonths Hall].
    apply List.Forall_forall. intros e Hin.
    rewrite List.Forall_forall in Hall. destruct (Hall e Hin) as (goal & _ & Hentry).
    assert (Hm : In (entry_month e) monthsList) by (rewrite <- Hmonths; apply in_map; exact Hin).
    assert (Hne : entry_month e <> "All"%string).
    { intros Heq. rewrite Heq in Hm. simpl in Hm. intuition discriminate. }
    rewrite Hentry. simpl. rewrite (monthStats_totals gm rs _ Hne). split; reflexivity.
Qed.

Lemma monthly_totals_match_filtered_log_witness :
  exists entries,
    monthlyData getMonthName_en (records zero_limit_state) (goals zero_limit_state)
    = Some entries
    /\ Forall (fun e =>
                 actualWaste e
                 = totalWastedHours
                     (filteredRecords getMonthName_en (records zero_limit_state)
                        (entry_month e))) entries.
Proof.
  destruct (monthlyData_reachable getMonthName_en zero_limit_state (reachable_run 2025 _))
    as (entries & He & _).
  exists entries. split; [exact He|].
  destruct (monthly_totals_match_filtered_log getMonthName_en (records zero_limit_state))
    as (_ & _ & H).
  eapply List.Forall_impl; [|exact (H _ _ He)]. simpl. tauto.
Defined.

(** ** The dates of a session *)

(** Every generated date falls in one of the twelve months. *)
Lemma generated_dates_en (year : Z) :
  forallb (fun r => existsb (String.eqb (getMonthName_en (date r))) monthsList)
    (generateInitialData year) = true.
Proof.
  unfold generateInitialData, initial_record, setDate_from_new_year, month_lengths.
  generalize (Date_year year). intros y.
  destruct (is_leap_year y); vm_compute; reflexivity.
Qed.

Lemma run_keeps_dates (edits : list Edit) (st : AppState) :
  List.map date (records (run st edits)) = List.map date (records st).
Proof.
  induction edits as [|e edits IH] using rev_ind; [reflexivity|].
  rewrite run_snoc, <- IH.
  destruct e as [d habit value | d metric value | m field value]; simpl; [| |reflexivity].
  - unfold handleHabitChange. rewrite List.map_map. apply List.map_ext.
    intros r. unfold habit_update. destruct (id r =? d); reflexivity.
  - unfold handleMetricChange. rewrite List.map_map. apply List.map_ext.
    intros r. unfold metric_update. destruct (id r =? d); reflexivity.
Qed.

(** Under an English default locale every record of a session falls in one
    of the twelve months. *)
Lemma reachable_months_en (st : AppState) :
  reachable st ->
  forall r, In r (records st) -> In (getMonthName_en (date r)) monthsList.
Proof.
  intros (year & edits & ->) r Hr.
  assert (Hd : In (date r) (List.map date (generateInitialData year))).
  { change (generateInitialData year) with (records (initialState year)).
    rewrite <- (run_keeps_dates edits). apply in_map. exact Hr. }
  apply in_map_iff in Hd. destruct Hd as (r0 & Hdate & Hr0).
  pose proof (generated_dates_en year) as Hall. rewrite forallb_forall in Hall.
  specialize (Hall r0 Hr0). rewrite Hdate in Hall.
  apply existsb_exists in Hall. destruct Hall as (m & Hm & Heq).
  apply String.eqb_eq in Heq. rewrite Heq. exact Hm.
Qed.

(** ** The months against the year *)

(** A sum over a part of the records, started no higher, ends no higher
    than the sum over all of them: each rounded addition is monotone and
    adding a value that is not negative does not lower a binary64 sum. *)
Lemma filtered_sum_le (get : DayRecord -> number) (p : DayRecord -> bool)
    (l : list DayRecord) :
  Forall (fun r => Number.within 0 24 (get r)) l ->
  forall (a b : Q) (k : Z),
    0 <= k -> 24 * (k + Z.of_nat (length l)) <= 2 ^ 53 ->
    (0 <= a)%Q -> (a <= b)%Q -> (b <= inject_Z (24 * k))%Q -> double b ->
    exists s t,
      fold_left (fun acc r => Number.add acc (get r)) (List.filter p l) (Num a) = Num s
      /\ fold_left (fun acc r => Number.add acc (get r)) l (Num b) = Num t
      /\ (0 <= s)%Q /\ (s <= t)%Q.
Proof.
  intros Hin. induction Hin as [|r l Hr _ IH]; intros a b k Hk Hlen Ha Hab Hb Db.
  - exists a, b. simpl. auto.
  - cbn [List.filter fold_left length] in *. rewrite Nat2Z.inj_succ in Hlen.
    destruct (get r) as [x | | |] eqn:Hget; [|destruct Hr ..]. simpl in Hr.
    assert (Hk1 : (inject_Z (24 * (k + 1)) == inject_Z (24 * k) + 24)%Q).
    { replace (24 * (k + 1)) with (24 * k + 24) by lia.
      rewrite inject_Z_plus. reflexivity. }
    destruct (binary64_between (b + x) b (inject_Z (24 * (k + 1))))
      as (b' & Hb' & Hbb' & Hb'1 & Db');
      [lra | rewrite Hk1; lra | exact Db | apply double_of_Z; lia |].
    change (Number.add (Num b) (Num x)) with (Number.binary64 (b + x)). rewrite Hb'.
    destruct (p r).
    + cbn [fold_left]. rewrite Hget.
      destruct (add_between a x 0 (24 * (k + 1))) as (a' & Ha' & Ha'0 & _);
        [lia | lia | change (inject_Z 0) with 0%Q; lra | rewrite Hk1; lra |].
      rewrite Ha'.
      assert (Hle : (a' <= b')%Q).
      { pose proof (binary64_monotone (a + x) (b + x) ltac:(lra)) as Hm.
        change (Number.binary64 (a + x)) with (Number.add (Num a) (Num x)) in Hm.
        rewrite Ha', Hb' in Hm. apply Qle_bool_iff. exact Hm. }
      apply (IH a' b' (k + 1)); auto; lia.
    + apply (IH a b' (k + 1)); auto; try lia. lra.
Qed.

(** X15. In a session no month's study or waste total exceeds the year's
    total: the month's sum runs over a part of the records of the year's
    sum, in the same order, and the rounded addition is monotone.  The
    months need not add up to the year: with 0.1 and 0.1 hours in January
    and 0.4 in February, January holds 0.2, February 0.4 and the year's
    total is the binary64 value above their sum. *)
Theorem month_totals_within_year :
  (forall (getMonthName : string -> string) (st : AppState) (entries : list MonthEntry),
      reachable st ->
      monthlyData getMonthName (records st) (goals st) = Some entries ->
      exists s w : Q,
        totalStudyHours (records st) = Num s
        /\ totalWastedHours (records st) = Num w
        /\ Forall (fun e => exists a b : Q,
                     actualStudy e = Num a /\ actualWaste e = Num b
                     /\ (0 <= a)%Q /\ (a <= s)%Q /\ (0 <= b)%Q /\ (b <= w)%Q) entries)
  /\ (exists (jan feb : MonthEntry) (rest : list MonthEntry) (a1 a2 s : Q),
        monthlyData getMonthName_en (records tenths_state) (goals tenths_state)
        = Some (jan :: feb :: rest)
        /\ actualStudy jan = Num a1 /\ actualStudy feb = Num a2
        /\ Forall (fun e => actualStudy e = Num 0) rest
        /\ totalStudyHours (records tenths_state) = Num s
        /\ (a1 + a2 < s)%Q).
Proof.
  split.
  - intros gm st entries Hst He.
    destruct (reachable_inv st Hst) as [Hrec _].
    pose proof (records_inv_length _ Hrec) as Hlen.
    destruct Hrec as (_ & _ & _ & Hmet).
    assert (Hbig : 24 * (0 + 365) <= 2 ^ 53) by (vm_compute; discriminate).
    assert (Hsum : forall (get : DayRecord -> number) (p : DayRecord -> bool),
               Forall (fun r => Number.within 0 24 (get r)) (records st) ->
               exists a t,
                 fold_left (fun acc r => Number.add acc (get r))
                   (List.filter p (records st)) (Num 0) = Num a
                 /\ fold_left (fun acc r => Number.add acc (get r)) (records st) (Num 0)
                    = Num t
                 /\ (0 <= a)%Q /\ (a <= t)%Q).
    { intros get p Hget.
      apply (filtered_sum_le get p (records st) Hget 0 0 0);
        [lia | rewrite Hlen; exact Hbig | lra | lra
         | change (inject_Z (24 * 0)) with 0%Q; lra | exact double_0]. }
    assert (Hstudy : Forall (fun r => Number.within 0 24 (studyHours (metrics r)))
                       (records st)).
    { eapply List.Forall_impl; [|exact Hmet]. intros r Hr. exact (Hr K_studyHours). }
    assert (Hwaste : Forall (fun r => Number.within 0 24 (timeWasted (metrics r)))
                       (records st)).
    { eapply List.Forall_impl; [|exact Hmet]. intros r Hr. exact (Hr K_timeWasted). }
    destruct (Hsum (fun r => studyHours (metrics r)) (fun _ => false) Hstudy)
      as (_ & s & _ & Hs & _).
    destruct (Hsum (fun r => timeWasted (metrics r)) (fun _ => false) Hwaste)
      as (_ & w & _ & Hw & _).
    exists s, w. split; [exact Hs|]. split; [exact Hw|].
    destruct (monthlyData_entries gm _ _ _ He) as [_ Hall].
    eapply List.Forall_impl; [|exact Hall]. simpl.
    intros e (goal & _ & Hentry).
    destruct (Hsum (fun r => studyHours (metrics r))
                (fun r => String.eqb (gm (date r)) (entry_month e)) Hstudy)
      as (a & s' & Ha & Hs' & Ha0 & Has).
    destruct (Hsum (fun r => timeWasted (metrics r))
                (fun r => String.eqb (gm (date r)) (entry_month e)) Hwaste)
      as (b & w' & Hb & Hw' & Hb0 & Hbw).
    assert (s' = s) by congruence. assert (w' = w) by congruence. subst s' w'.
    exists a, b. rewrite Hentry. cbn [actualStudy actualWaste monthEntry].
    unfold monthStats. rewrite stats_fold_split. cbn [study wasted].
    unfold Number.zero. rewrite Ha, Hb. auto 10.
  - do 6 eexists. split; [vm_compute; reflexivity|].
    split; [reflexivity|]. split; [reflexivity|].
    split; [repeat (constructor; [reflexivity|]); constructor|].
    split; [vm_compute; reflexivity|]. reflexivity.
Qed.

Lemma month_totals_within_year_witness :
  exists (entries : list MonthEntry) (s w : Q),
    monthlyData getMonthName_en (records tenths_state) (goals tenths_state) = Some entries
    /\ totalStudyHours (records tenths_state) = Num s
    /\ totalWastedHours (records tenths_state) = Num w
    /\ Forall (fun e => exists a b : Q,
                 actualStudy e = Num a /\ actualWaste e = Num b
                 /\ (0 <= a)%Q /\ (a <= s)%Q /\ (0 <= b)%Q /\ (b <= w)%Q) entries.
Proof.
  destruct (monthlyData_reachable getMonthName_en tenths_state (reachable_run 2025 _))
    as (entries & He & _).
  destruct month_totals_within_year as [H _].
  destruct (H getMonthName_en tenths_state entries (reachable_run 2025 _) He)
    as (s & w & Hs & Hw & Hall).
  exists entries, s, w. auto.
Defined.

(** ** The generated year *)




(** ** Top Month *)

Lemma sorts_after_finite (a b : MonthEntry) (qa qb : Q) :
  actualStudy a = Num qa -> actualStudy b = Num qb -> double qa -> double qb ->
  sorts_after a b = negb (Qle_bool qb qa).
Proof.
  intros Ha Hb Da Db. unfold sorts_after. rewrite Ha, Hb.
  change (Number.sub (Num qb) (Num qa)) with (Number.binary64 (qb + - qa)).
  destruct (Qle_bool qb qa) eqn:Hle.
  - apply Qle_bool_iff in Hle.
    destruct (binary64_le_double (qb + - qa) 0) as [Hv | (v & Hv & Hv0 & _)];
      [lra | exact double_0 | |]; rewrite Hv; simpl; [reflexivity |].
    apply negb_false_iff. apply Qle_bool_iff. exact Hv0.
  - apply Qle_bool_false in Hle.
    destruct (binary64_sub_positive qa qb Da Db Hle) as [Hv | (v & Hv & Hv0 & _)];
      unfold Qminus in Hv; rewrite Hv; simpl; [reflexivity |].
    apply negb_true_iff. destruct (Qle_bool v 0) eqn:H; [| reflexivity].
    apply Qle_bool_iff in H. lra.
Qed.

Lemma entry_insert_perm (x : MonthEntry) (l : list MonthEntry) :
  Permutation (entry_insert x l) (x :: l).
Proof.
  induction l as [|y l IH]; simpl; [reflexivity|].
  destruct (sorts_after x y); [|reflexivity]. rewrite IH. apply perm_swap.
Qed.

Lemma sort_by_study_perm (l : list MonthEntry) : Permutation (sort_by_study l) l.
Proof.
  induction l as [|x l IH]; simpl; [reflexivity|].
  rewrite entry_insert_perm. constructor. exact IH.
Qed.

Lemma head_entry_insert (x : MonthEntry) (l : list MonthEntry) :
  head (entry_insert x l)
  = match head l with
    | None => Some x
    | Some y => if sorts_after x y then Some y else Some x
    end.
Proof. destruct l as [|y l]; simpl; [reflexivity|]. destruct (sorts_after x y); reflexivity. Qed.

(** The head of the sorted array is the first entry, in the order given,
    among those with the largest study total. *)
Lemma head_sort_by_study (l : list MonthEntry) :
  Forall (fun e => actualStudy e = Num (finite_part (actualStudy e))
                   /\ double (finite_part (actualStudy e))) l ->
  l <> [] ->
  exists pre e post,
    l = pre ++ e :: post
    /\ head (sort_by_study l) = Some e
    /\ (forall x, In x pre ->
          (finite_part (actualStudy x) < finite_part (actualStudy e))%Q)
    /\ (forall x, In x post ->
          (finite_part (actualStudy x) <= finite_part (actualStudy e))%Q).
Proof.
  intros Hfin. induction Hfin as [|x l [Hx Dx] Hl IH]; intros Hne; [congruence|].
  destruct l as [|y l'].
  - exists [], x, []. repeat split; [intros ? [] | intros ? []].
  - destruct IH as (pre & e & post & Heq & Hhead & Hpre & Hpost); [discriminate|].
    assert (He : actualStudy e = Num (finite_part (actualStudy e))
                 /\ double (finite_part (actualStudy e))).
    { rewrite List.Forall_forall in Hl. apply Hl. rewrite Heq. apply in_elt. }
    destruct He as [He De].
    simpl sort_by_study. rewrite head_entry_insert.
    change (entry_insert y (sort_by_study l')) with (sort_by_study (y :: l')).
    rewrite Hhead, (sorts_after_finite x e _ _ Hx He Dx De).
    destruct (Qle_bool (finite_part (actualStudy e)) (finite_part (actualStudy x))) eqn:Hle;
      simpl; qbools.
    + exists [], x, (y :: l'). repeat split; [intros ? [] |].
      intros z Hz. rewrite Heq in Hz. apply in_app_or in Hz.
      destruct Hz as [Hz | [<- | Hz]].
      * specialize (Hpre z Hz). lra.
      * exact Hle.
      * specialize (Hpost z Hz). lra.
    + exists (x :: pre), e, post. rewrite Heq. repeat split; [|exact Hpost].
      intros z [<- | Hz]; [exact Hle | apply Hpre; exact Hz].
Qed.

(** X17. Top Month in a session: the sort succeeds and leaves the grid as
    a permutation of itself; the month shown is the first month of the
    calendar among those with the largest study total, so every earlier month
    has a strictly smaller total and no month has a larger one. *)
Theorem topMonth_is_first_largest :
  forall (getMonthName : string -> string) (st : AppState) (entries : list MonthEntry),
    reachable st ->
    monthlyData getMonthName (records st) (goals st) = Some entries ->
    exists (pre : list MonthEntry) (e : MonthEntry) (post sorted : list MonthEntry),
      topMonth entries = Some (entry_month e, sorted)
      /\ Permutation sorted entries
      /\ entries = pre ++ e :: post
      /\ (forall x, In x pre ->
            (finite_part (actualStudy x) < finite_part (actualStudy e))%Q)
      /\ (forall x, In x post ->
            (finite_part (actualStudy x) <= finite_part (actualStudy e))%Q).
Proof.
  intros gm st entries Hst He.
  destruct (monthlyData_reachable gm st Hst) as (entries' & He' & Hnames & Hall).
  assert (entries' = entries) by congruence. subst entries'.
  assert (Hfin : Forall (fun e => actualStudy e = Num (finite_part (actualStudy e))
                                  /\ double (finite_part (actualStudy e))) entries).
  { eapply List.Forall_impl; [|exact (monthlyData_doubles gm st entries Hst He)]. simpl.
    intros e (a & w & Ha & Da & _). rewrite Ha. split; [reflexivity | exact Da]. }
  assert (Hne : entries <> []).
  { intros ->. discriminate Hnames. }
  destruct (head_sort_by_study entries Hfin Hne) as (pre & e & post & Heq & Hhead & Hpre & Hpost).
  exists pre, e, post, (sort_by_study entries).
  split.
  - unfold topMonth. destruct (sort_by_study entries) as [|e' rest]; [discriminate|].
    simpl in Hhead. injection Hhead as ->. reflexivity.
  - split; [apply sort_by_study_perm|]. auto.
Qed.

Lemma topMonth_is_first_largest_witness :
  exists sorted,
    option_map (fun entries => topMonth entries)
      (monthlyData getMonthName_en (records sample_state) (goals sample_state))
    = Some (Some ("January"%string, sorted)).
Proof.
  destruct (monthlyData_reachable getMonthName_en sample_state (reachable_run 2025 _))
    as (entries & He & Hnames & _).
  destruct (topMonth_is_first_largest getMonthName_en sample_state entries
              (reachable_run 2025 _) He)
    as (pre & e & post & sorted & Htop & _ & Heq & Hpre & _).
  exists sorted. rewrite He. simpl. rewrite Htop. repeat f_equal.
  assert (Hjan : exists e0 rest, entries = e0 :: rest /\ entry_month e0 = "January"%string
                                 /\ Forall (fun x => actualStudy x = Num 0) entries).
  { assert (Hv : monthlyData getMonthName_en (records sample_state) (goals sample_state)
                 = Some entries) by exact He.
    vm_compute in Hv. injection Hv as <-. eexists. eexists.
    split; [reflexivity|]. split; [reflexivity|]. repeat constructor. }
  destruct Hjan as (e0 & rest & Hent & Hname & Hzero).
  destruct pre as [|p pre].
  - rewrite Hent in Heq. injection Heq as <- _. exact Hname.
  - exfalso. rewrite List.Forall_forall in Hzero.
    assert (Hp : (finite_part (actualStudy p) < finite_part (actualStudy e))%Q)
      by (apply Hpre; left; reflexivity).
    rewrite (Hzero p), (Hzero e) in Hp; [simpl in Hp; lra | |];
      rewrite Heq; [apply in_elt | left; reflexivity].
Defined.

(** ** Overall waste compliance *)

Lemma percent_sum_bounds (l : list MonthEntry) :
  Forall (fun e => Number.within 0 100 (wasteCompliance e)) l ->
  forall (a : Q) (k : Z),
    0 <= k -> 100 * (k + Z.of_nat (length l)) <= 2 ^ 53 ->
    (0 <= a)%Q -> (a <= inject_Z (100 * k))%Q ->
    exists s, fold_left (fun acc m => Number.add acc (wasteCompliance m)) l (Num a) = Num s
              /\ (0 <= s)%Q
              /\ (s <= inject_Z (100 * (k + Z.of_nat (length l))))%Q.
Proof.
  intros H. induction H as [|e l He _ IH]; intros a k Hk Hlen Ha0 Ha1.
  - exists a. change (Z.of_nat (length (@nil MonthEntry))) with 0. rewrite Z.add_0_r. auto.
  - cbn [fold_left]. destruct (wasteCompliance e) as [x | | |]; [|destruct He ..].
    simpl in He. cbn [length] in *. rewrite Nat2Z.inj_succ in *.
    assert (Hk1 : (inject_Z (100 * (k + 1)) == inject_Z (100 * k) + 100)%Q).
    { replace (100 * (k + 1)) with (100 * k + 100) by lia.
      rewrite inject_Z_plus. reflexivity. }
    destruct (add_between a x 0 (100 * (k + 1))) as (a' & Ha' & Ha'0 & Ha'1 & _);
      [lia | lia | change (inject_Z 0) with 0%Q; lra | rewrite Hk1; lra |].
    rewrite Ha'.
    destruct (IH a' (k + 1)) as (s & Hs & Hs0 & Hs1); [lia | lia | exact Ha'0 | exact Ha'1 |].
    exists s. split; [exact Hs|]. split; [exact Hs0|].
    replace (k + Z.succ (Z.of_nat (length l))) with (k + 1 + Z.of_nat (length l)) by lia.
    exact Hs1.
Qed.

(** X18. In a session in which no month has a negative waste limit, the
    overall waste compliance of the summary is a whole number in [0, 100]. *)
Theorem overallWasteCompliance_in_range :
  forall (getMonthName : string -> string) (st : AppState) (entries : list MonthEntry),
    reachable st ->
    monthlyData getMonthName (records st) (goals st) = Some entries ->
    Forall (fun e => Number.nonneg (to_number (limitWaste e))
                     \/ limitWaste e = Some Infinity) entries ->
    exists p : Z, overallWasteCompliance entries = Number.of_Z p /\ 0 <= p <= 100.
Proof.
  intros gm st entries Hst He Hlim.
  destruct (monthlyData_reachable gm st Hst) as (entries' & He' & Hnames & Hall).
  assert (entries' = entries) by congruence. subst entries'.
  assert (Hlen : length entries = 12%nat).
  { rewrite <- (length_map entry_month), Hnames. reflexivity. }
  pose proof (monthlyData_doubles gm st entries Hst He) as Hd.
  assert (Hin : Forall (fun e => Number.within 0 100 (wasteCompliance e)) entries).
  { apply List.Forall_forall. intros e Hine.
    rewrite List.Forall_forall in Hall, Hlim, Hd.
    destruct (Hall e Hine) as (a & w & t & l & _ & _ & Hw & Hw0 & _ & _ & Hl & _ & _ & Hwc).
    destruct (Hd e Hine) as (_ & w' & _ & _ & Hw' & Dw).
    assert (w' = w) by congruence. subst w'.
    rewrite Hwc. apply wasteCompliance_of_within; [exact Hw0 | exact Dw |].
    specialize (Hlim e Hine). rewrite Hl in Hlim. simpl in Hlim.
    destruct Hlim as [H | H]; [left; exact H | right; congruence]. }
  destruct (percent_sum_bounds entries Hin 0 0) as (s & Hs & Hlo & Hhi);
    [lia | rewrite Hlen; vm_compute; discriminate | lra
     | change (inject_Z (100 * 0)) with 0%Q; lra |].
  rewrite Hlen in Hhi. change (inject_Z (100 * (0 + Z.of_nat 12))) with 1200%Q in Hhi.
  destruct (binary64_between (s / 12) 0 100) as (q & Hq & Hq0 & Hq1 & _);
    [apply Qle_shift_div_l; lra | apply Qle_shift_div_r; lra
     | exact double_0 | exact double_100 |].
  exists (Qfloor (q + (1 # 2))). split.
  - unfold overallWasteCompliance.
    change (Number.of_Z 0) with (Num 0). rewrite Hs.
    change (Number.div (Num s) (Number.of_Z 12)) with (Number.binary64 (s / 12)).
    rewrite Hq. reflexivity.
  - apply round_between; [exact Hq0 | exact Hq1].
Qed.

Lemma overallWasteCompliance_in_range_witness :
  exists (entries : list MonthEntry) (p : Z),
    monthlyData getMonthName_en (records zero_limit_state) (goals zero_limit_state)
    = Some entries
    /\ overallWasteCompliance entries = Number.of_Z p /\ 0 <= p <= 100.
Proof.
  destruct (monthlyData_reachable getMonthName_en zero_limit_state (reachable_run 2025 _))
    as (entries & He & _).
  assert (Hlim : Forall (fun e => Number.nonneg (to_number (limitWaste e))
                                  \/ limitWaste e = Some Infinity) entries).
  { assert (Hv : monthlyData getMonthName_en (records zero_limit_state)
                   (goals zero_limit_state) = Some entries) by exact He.
    vm_compute in Hv. injection Hv as <-.
    repeat (constructor; [left; simpl; discriminate|]). constructor. }
  destruct (overallWasteCompliance_in_range getMonthName_en zero_limit_state entries
              (reachable_run 2025 _) He Hlim) as (p & Hp).
  exists entries, p. split; [exact He | exact Hp].
Defined.

(** ** Jump to today *)








(** ** Edits that change no streak *)

Lemma run_length_map (f : DayRecord -> DayRecord) (k : HabitKey) (l : list DayRecord) :
  (forall x, flag k (f x) = flag k x) ->
  run_length k (List.map f l) = run_length k l.
Proof.
  intros H. induction l as [|x l IH]; simpl; [reflexivity|]. rewrite H, IH. reflexivity.
Qed.

Lemma calculateStreak_unchanged (f : DayRecord -> DayRecord) (k : HabitKey)
    (prev : list DayRecord) :
  (forall x, flag k (f x) = flag k x) ->
  (forall x, dayNumber (f x) = dayNumber x) ->
  (forall x, In x prev -> isFilled (f x) = isFilled x) ->
  calculateStreak (List.map f prev) k = calculateStreak prev k.
Proof.
  intros Hflag Hday Hfilled.
  assert (Hc : current (calculateStreak (List.map f prev) k)
               = current (calculateStreak prev k)).
  { rewrite !calculateStreak_current. unfold current_spec.
    rewrite (filter_map_same_filled f prev Hfilled), (sort_desc_map f _ Hday).
    apply run_length_map. exact Hflag. }
  assert (Hm : max (calculateStreak (List.map f prev) k) = max (calculateStreak prev k)).
  { rewrite !calculateStreak_max. f_equal. rewrite List.map_map.
    apply List.map_ext. exact Hflag. }
  destruct (calculateStreak (List.map f prev) k), (calculateStreak prev k).
  simpl in Hc, Hm. subst. reflexivity.
Qed.

(** X20. On a day that is already filled, entering a metric changes no
    streak of any habit, and changing one habit changes no streak of the
    other habits. *)
Theorem edits_on_a_filled_day_keep_streaks :
  forall (prev : list DayRecord) (d : Z),
    (forall r, In r prev -> id r = d -> isFilled r = true) ->
    (forall metric value k,
        calculateStreak (handleMetricChange d metric value prev) k = calculateStreak prev k)
    /\ (forall habit value k, k <> habit ->
          calculateStreak (handleHabitChange d habit value prev) k = calculateStreak prev k).
Proof.
  intros prev d Hd. split.
  - intros metric value k. unfold handleMetricChange. apply calculateStreak_unchanged.
    + intros x. apply flag_metric_update.
    + intros x. unfold metric_update. destruct (id x =? d); reflexivity.
    + intros x Hx. destruct (Z.eq_dec (id x) d) as [Heq | Hne].
      * rewrite (Hd x Hx Heq). apply metric_update_hit_filled. exact Heq.
      * rewrite metric_update_miss by exact Hne. reflexivity.
  - intros habit value k Hk. unfold handleHabitChange. apply calculateStreak_unchanged.
    + intros x. rewrite flag_habit_update. destruct (id x =? d); [|reflexivity].
      destruct (decide (k = habit)); congruence.
    + intros x. apply habit_update_dayNumber.
    + intros x Hx. destruct (Z.eq_dec (id x) d) as [Heq | Hne].
      * rewrite (Hd x Hx Heq). apply habit_update_hit_filled. exact Heq.
      * rewrite habit_update_miss by exact Hne. reflexivity.
Qed.

Lemma edits_on_a_filled_day_keep_streaks_witness :
  calculateStreak (handleMetricChange 5 K_studyHours "3" sample_year) K_workout
  = calculateStreak sample_year K_workout.
Proof.
  destruct (edits_on_a_filled_day_keep_streaks sample_year 5) as [H _].
  - intros r Hr Hid.
    assert (Hall : forallb (fun x => negb (id x =? 5) || isFilled x) sample_year = true)
      by (vm_compute; reflexivity).
    rewrite forallb_forall in Hall. specialize (Hall r Hr).
    apply Z.eqb_eq in Hid. rewrite Hid in Hall. exact Hall.
  - apply H.
Defined.

(** ** Streaks against the number of logged days *)

Lemma run_length_le_length (k : HabitKey) (l : list DayRecord) :
  (run_length k l <= length l)%nat.
Proof. induction l as [|x l IH]; simpl; [lia|]. destruct (flag k x); lia. Qed.

(** X21. [current] never exceeds completedDays and [max] never exceeds the
    number of records; in a session [max] does not exceed completedDays
    either, because only filled days carry a true flag. *)
Theorem streaks_bounded_by_logged_days :
  (forall (records0 : list DayRecord) (habit : HabitKey),
      (current (calculateStreak records0 habit) <= completedDays records0)%nat
      /\ (max (calculateStreak records0 habit) <= length records0)%nat)
  /\ (forall (st : AppState) (habit : HabitKey),
      reachable st ->
      (max (calculateStreak (records st) habit) <= completedDays (records st))%nat).
Proof.
  split.
  - intros rs habit. split.
    + rewrite calculateStreak_current. unfold current_spec, completedDays.
      rewrite <- (Permutation_length (sort_desc_perm (List.filter isFilled rs))).
      apply run_length_le_length.
    + rewrite calculateStreak_max.
      destruct (scan_spec_attained habit rs 0 0)
        as [H | [(run0 & rest & Heq & _ & H) | (l1 & run0 & l2 & Heq & _ & H)]].
      * lia.
      * rewrite H. apply (f_equal (@length DayRecord)) in Heq.
        rewrite length_app in Heq. lia.
      * rewrite H. apply (f_equal (@length DayRecord)) in Heq.
        rewrite !length_app in Heq. lia.
  - intros st habit Hst. destruct (reachable_inv st Hst) as [(_ & _ & Hun & _) _].
    assert (Hrun : forall l1 run0 l2,
               records st = l1 ++ run0 ++ l2 ->
               Forall (fun r => flag habit r = true) run0 ->
               (length run0 <= completedDays (records st))%nat).
    { intros l1 run0 l2 Heq Hrun0. unfold completedDays.
      rewrite Heq, !List.filter_app, !length_app.
      assert (Hfilled : Forall (fun r => isFilled r = true) run0).
      { apply List.Forall_forall. intros r Hr.
        rewrite List.Forall_forall in Hun, Hrun0.
        destruct (isFilled r) eqn:Hf; [reflexivity|].
        assert (Hin : In r (records st))
          by (rewrite Heq; apply in_or_app; right; apply in_or_app; left; exact Hr).
        specialize (Hrun0 r Hr). rewrite (Hun r Hin Hf habit) in Hrun0. discriminate. }
      rewrite (filter_all_filled run0 Hfilled). lia. }
    rewrite calculateStreak_max.
    destruct (scan_spec_attained habit (records st) 0 0)
      as [H | [(run0 & rest & Heq & Hr0 & H) | (l1 & run0 & l2 & Heq & Hr0 & H)]].
    + lia.
    + rewrite H. simpl. apply (Hrun [] run0 rest); assumption.
    + rewrite H. apply (Hrun l1 run0 l2); assumption.
Qed.

Lemma streaks_bounded_by_logged_days_witness :
  (max (calculateStreak sample_year K_workout) <= completedDays sample_year)%nat.
Proof.
  destruct streaks_bounded_by_logged_days as [_ H].
  apply (H sample_state K_workout (reachable_run 2025 _)).
Defined.
